(** * p2pool share chain core ([p2pool/data.py]): a shallow embedding

    The development follows the layout of the Python module:
    hash links, the share envelope and the three share classes
    ([Share] = V7, [NewShare] = V8, [NewNewShare] = V9), the weights skip
    list, [OkayTracker.think] and the helper [get_desired_version_counts].

    Python integers are unbounded, so they are [Z]; [//] is floor division,
    which is [Z.div]; division by zero raises, which is written out.
    Python 2 [str] values are byte strings: [list byte]. Dictionaries are
    [gmap]s. Exceptions are values of [exn], carried by [Result]. *)

From Stdlib Require Import ZArith List Lia String Strings.Byte Bool.
From stdpp Require Import base option list gmap sorting.

Local Open Scope Z_scope.

(** ** Exceptions and the result type *)

Inductive exn : Type :=
  | PeerMisbehavingError (reason : string)
  | ValueError (msg : string)
  | AssertionError
  | KeyError
  | IndexError
  | AttributeError
  | TypeError
  | ZeroDivisionError.

Inductive Result (A : Type) : Type :=
  | Ok (a : A)
  | Raise (e : exn).
Arguments Ok {A} a.
Arguments Raise {A} e.

#[global] Instance Result_ret : MRet Result := fun _ a => Ok a.
#[global] Instance Result_bind : MBind Result := fun _ _ f r =>
  match r with
  | Ok a => f a
  | Raise e => Raise e
  end.

#[global] Instance Result_fmap : FMap Result := fun _ _ f r =>
  match r with
  | Ok a => Ok (f a)
  | Raise e => Raise e
  end.

(** [assert c] of Python. *)
Definition assert (c : bool) : Result unit :=
  if c then Ok tt else Raise AssertionError.

(** [d[k]] of Python on a dictionary: [KeyError] when the key is absent. *)
Definition getitem `{Countable K} {V} (d : gmap K V) (k : K) : Result V :=
  match d !! k with
  | Some v => Ok v
  | None => Raise KeyError
  end.

Definition is_Ok {A} (r : Result A) : bool :=
  match r with Ok _ => true | Raise _ => false end.

Definition is_PeerMisbehaving {A} (r : Result A) : bool :=
  match r with Raise (PeerMisbehavingError _) => true | _ => false end.

(** ** Byte strings *)

Abbreviation bytes := (list byte).

Definition Z_of_byte (b : byte) : Z := Z.of_N (Byte.to_N b).

Definition byte_of_Z (z : Z) : byte :=
  match Byte.of_N (Z.to_N (z mod 256)) with
  | Some b => b
  | None => x00
  end.

#[global] Instance byte_eq_dec : EqDecision byte := Byte.byte_eq_dec.

Definition byte_of_N_total (n : N) : byte :=
  match Byte.of_N n with Some b => b | None => x00 end.

Lemma byte_of_N_total_to_N (b : byte) : byte_of_N_total (Byte.to_N b) = b.
Proof. unfold byte_of_N_total. by rewrite Byte.of_to_N. Qed.

#[global] Instance byte_countable : Countable byte :=
  inj_countable' Byte.to_N byte_of_N_total byte_of_N_total_to_N.

(** Big-endian and little-endian readers and fixed-width writers
    ([struct.pack('>I')], [pack.IntType(n)]). The writers of the source
    raise on a value outside [0, 2 ^ (8 * n)); [le_pack] keeps the low [n]
    bytes, so a call with a field out of range returns here where the
    source refuses it. *)
Definition be_unpack (bs : bytes) : Z :=
  fold_left (fun acc b => acc * 256 + Z_of_byte b) bs 0.

Definition le_unpack (bs : bytes) : Z :=
  fold_right (fun b acc => Z_of_byte b + 256 * acc) 0 bs.

Fixpoint le_pack (n : nat) (z : Z) : bytes :=
  match n with
  | O => []
  | S k => byte_of_Z z :: le_pack k (z / 256)
  end.

Definition be_pack (n : nat) (z : Z) : bytes := rev (le_pack n z).

(** [s[k:]] of Python, negative [k] counting from the end. *)
Definition slice_from {A} (l : list A) (k : Z) : list A :=
  if k <? 0 then drop (Z.to_nat (Z.max 0 (Z.of_nat (length l) + k))) l
  else drop (Z.to_nat k) l.

(** [s[:k]] of Python. *)
Definition slice_to {A} (l : list A) (k : Z) : list A :=
  if k <? 0 then take (Z.to_nat (Z.max 0 (Z.of_nat (length l) + k))) l
  else take (Z.to_nat k) l.

(** [s.endswith(e)] of Python. *)
Definition endswith (s e : bytes) : bool :=
  bool_decide (drop (length s - length e)%nat s = e).

(** Reading a hexadecimal literal ([.decode('hex')]). *)
Definition hex_digit (c : Ascii.ascii) : Z :=
  let n := Z.of_N (Ascii.N_of_ascii c) in
  if (48 <=? n) && (n <=? 57) then n - 48
  else if (97 <=? n) && (n <=? 102) then n - 87
  else 0.

Fixpoint decode_hex (s : string) : bytes :=
  match s with
  | String a (String b r) => byte_of_Z (16 * hex_digit a + hex_digit b) :: decode_hex r
  | _ => []
  end.

(** ** SHA-256 with an exposed midstate *)

(** Modelled from the spec: the class [p2pool.bitcoin.sha256.sha256] is not
    part of the source file. The spec describes a hash link as "an incomplete
    SHA-256 state covering a prefix plus up-to-one block of buffered tail
    bytes"; the object below is that: the chaining state after all full
    64-byte blocks, the buffered partial block and the bit length, with
    [update] absorbing data and [digest] padding and finishing. *)
Module sha256.

Definition block_size : nat := 64.

Section MerkleDamgard.
(** The compression function and the initial chaining value. *)
Variable process : bytes -> bytes -> bytes.
Variable initial_state : bytes.

Record t : Type := mk { state : bytes; buf : bytes; length : Z }.

(** [[buf[i:i + 64] for i in xrange(0, len(buf) + 1, 64)]] *)
Definition chunks (b : bytes) : list bytes :=
  map (fun i => take block_size (drop (block_size * i) b))
      (seq 0 (List.length b / block_size + 1)).

Definition update (x : t) (data : bytes) : t :=
  let b := buf x ++ data in
  let cs := chunks b in
  {| state := fold_left process (removelast cs) (state x);
     buf := List.last cs [];
     length := length x + 8 * Z.of_nat (List.length data) |}.

(** [sha256(data, (state, buf, length))]; the default triple is the
    initial state with an empty buffer. *)
Definition new_from (data : bytes) (init : bytes * bytes * Z) : t :=
  let '(s, b, l) := init in
  update {| state := s; buf := b; length := l |} data.

Definition new (data : bytes) : t := new_from data (initial_state, [], 0).

Definition padding (x : t) : bytes :=
  buf x ++ [x80]
    ++ repeat x00 (Z.to_nat ((64 - 9 - Z.of_nat (List.length (buf x))) mod 64))
    ++ be_pack 8 (length x).

Definition digest (x : t) : bytes :=
  let b := padding x in
  fold_left process
    (map (fun i => take block_size (drop (block_size * i) b))
         (seq 0 ((List.length b + 63) / block_size)))
    (state x).
End MerkleDamgard.

(** The SHA-256 compression function (FIPS 180-4) on 32-bit words. *)
Definition w32 (x : Z) : Z := x mod 2 ^ 32.
Definition rightrotate (x n : Z) : Z :=
  Z.lor (Z.shiftr x n) (w32 (Z.shiftl x (32 - n))).

Definition words (n : nat) (b : bytes) : list Z :=
  map (fun i => be_unpack (take 4 (drop (4 * i) b))) (seq 0 n).

(** The sixty-four round constants, as the big-endian words of one byte
    string. *)
Definition k_hex : string :=
  ("428a2f9871374491b5c0fbcfe9b5dba53956c25b59f111f1923f82a4ab1c5ed5"
   ++ "d807aa9812835b01243185be550c7dc372be5d7480deb1fe9bdc06a7c19bf174"
   ++ "e49b69c1efbe47860fc19dc6240ca1cc2de92c6f4a7484aa5cb0a9dc76f988da"
   ++ "983e5152a831c66db00327c8bf597fc7c6e00bf3d5a7914706ca635114292967"
   ++ "27b70a852e1b21384d2c6dfc53380d13650a7354766a0abb81c2c92e92722c85"
   ++ "a2bfe8a1a81a664bc24b8b70c76c51a3d192e819d6990624f40e3585106aa070"
   ++ "19a4c1161e376c082748774c34b0bcb5391c0cb34ed8aa4a5b9cca4f682e6ff3"
   ++ "748f82ee78a5636f84c878148cc7020890befffaa4506cebbef9a3f7c67178f2")%string.

Definition k : list Z := Eval vm_compute in words 64 (decode_hex k_hex).

(** The message schedule, newest word first. *)
Fixpoint schedule (n : nat) (rw : list Z) : list Z :=
  match n with
  | O => rw
  | S m =>
      let w2 := nth 1 rw 0 in
      let w7 := nth 6 rw 0 in
      let w15 := nth 14 rw 0 in
      let w16 := nth 15 rw 0 in
      let s0 := Z.lxor (Z.lxor (rightrotate w15 7) (rightrotate w15 18)) (Z.shiftr w15 3) in
      let s1 := Z.lxor (Z.lxor (rightrotate w2 17) (rightrotate w2 19)) (Z.shiftr w2 10) in
      schedule m (w32 (w16 + s0 + w7 + s1) :: rw)
  end.

Definition round (v : list Z) (kw : Z * Z) : list Z :=
  match v with
  | [a; b; c; d; e; f; g; h] =>
      let t1 := w32 (h + Z.lxor (Z.lxor (rightrotate e 6) (rightrotate e 11)) (rightrotate e 25)
                     + Z.lxor (Z.land e f) (Z.land (Z.lxor e (2 ^ 32 - 1)) g)
                     + fst kw + snd kw) in
      let t2 := Z.lxor (Z.lxor (rightrotate a 2) (rightrotate a 13)) (rightrotate a 22)
                + Z.lxor (Z.lxor (Z.land a b) (Z.land a c)) (Z.land b c) in
      [w32 (t1 + t2); a; b; c; w32 (d + t1); e; f; g]
  | _ => v
  end.

Definition process (st chunk : bytes) : bytes :=
  let w := rev (schedule 48 (rev (words 16 chunk))) in
  let start_state := words 8 st in
  let final := fold_left round (combine k w) start_state in
  concat (map (fun xy => be_pack 4 (w32 (fst xy + snd xy))) (combine start_state final)).

Definition initial_state : bytes :=
decode_hex "6a09e667bb67ae853c6ef372a54ff53a510e527f9b05688c1f83d9ab5be0cd19".

End sha256.

(** [hashlib.sha256(x).digest()] *)
Definition hashlib_sha256 (x : bytes) : bytes :=
  sha256.digest sha256.process (sha256.new sha256.process sha256.initial_state x).

(** ** Hash links *)

(** [hash_link_type]: a dictionary with keys [state], [extra_data], [length]. *)
Module hash_link.
Record t : Type := mk { state : bytes; extra_data : bytes; length : Z }.
End hash_link.

Definition len {A} (l : list A) : Z := Z.of_nat (length l).

(** [bitcoin_data.hash256]: double SHA-256 read as a little-endian
    256-bit integer ([pack.IntType(256).unpack]). *)
Definition hash256 (data : bytes) : Z :=
  le_unpack (hashlib_sha256 (hashlib_sha256 data)).

Definition prefix_to_hash_link (prefix const_ending : bytes) : Result hash_link.t :=
  _ ← assert (endswith prefix const_ending);
  let x := sha256.new sha256.process sha256.initial_state prefix in
  mret {| hash_link.state := sha256.state x;
          hash_link.extra_data :=
            slice_to (sha256.buf x) (Z.max 0 (len (sha256.buf x) - len const_ending));
          hash_link.length := sha256.length x / 8 |}.

Definition check_hash_link (hl : hash_link.t) (data const_ending : bytes) : Result Z :=
  let extra_length := hash_link.length hl mod (512 / 8) in
  _ ← assert (len (hash_link.extra_data hl) =? Z.max 0 (extra_length - len const_ending));
  let extra :=
    slice_from (hash_link.extra_data hl ++ const_ending)
               (len (hash_link.extra_data hl) + len const_ending - extra_length) in
  _ ← assert (len extra =? extra_length);
  mret (le_unpack (hashlib_sha256 (sha256.digest sha256.process
          (sha256.new_from sha256.process data
             (hash_link.state hl, extra, 8 * hash_link.length hl))))).

(** ** The data model of shares *)

Definition DONATION_SCRIPT : bytes := Eval vm_compute in
  decode_hex "4104ffd03de44a6e11b9917f3a29f9443283d9871c9d743ef30d5eddcd37094b64d1b3d8090496b53256786bf5c82932ec23c3b74d9f05a6f95a8b5529352656664bac".

(** The three share classes, their [VERSION] and [SUCCESSOR] attributes. *)
Inductive ShareClass : Type := Share | NewShare | NewNewShare.

#[global] Instance ShareClass_eq_dec : EqDecision ShareClass.
Proof. solve_decision. Defined.

Definition VERSION (c : ShareClass) : Z :=
  match c with Share => 7 | NewShare => 8 | NewNewShare => 9 end.

Definition SUCCESSOR (c : ShareClass) : option ShareClass :=
  match c with
  | Share => Some NewNewShare
  | NewShare => Some NewNewShare
  | NewNewShare => None
  end.

Definition class_name (c : ShareClass) : string :=
  match c with
  | Share => "Share" | NewShare => "NewShare" | NewNewShare => "NewNewShare"
  end.

(** A peer is known to this module only as an opaque handle. *)
Definition Peer : Type := Z.

(** [bitcoin_data.FloatingInteger]: compact bits with their target. *)
Module FloatingInteger.
Record t : Type := mk { bits : Z; target : Z }.
#[global] Instance eq_dec : EqDecision t.
Proof. solve_decision. Defined.
End FloatingInteger.

Inductive StaleInfo : Type := orphan | doa | unk (k : Z).
#[global] Instance StaleInfo_eq_dec : EqDecision StaleInfo.
Proof. solve_decision. Defined.

Module share_data.
Record t : Type := mk {
  previous_share_hash : option Z;
  coinbase : bytes;
  nonce : Z;
  pubkey_hash : Z;
  subsidy : Z;
  donation : Z;
  stale_info : option StaleInfo;
  desired_version : Z }.
#[global] Instance eq_dec : EqDecision t.
Proof. solve_decision. Defined.
End share_data.

Module tx_ref.
Record t : Type := mk { share_count : Z; tx_count : Z }.
#[global] Instance eq_dec : EqDecision t.
Proof. solve_decision. Defined.
End tx_ref.

(** [share_info]: the V8 and V9 dictionaries have all seven keys; the V7
    dictionary has neither [new_transaction_hashes] nor
    [transaction_hash_refs], which are kept empty for V7. *)
Module share_info.
Record t : Type := mk {
  share_data : share_data.t;
  new_transaction_hashes : list Z;
  transaction_hash_refs : list tx_ref.t;
  far_share_hash : option Z;
  max_bits : FloatingInteger.t;
  bits : FloatingInteger.t;
  timestamp : Z }.
#[global] Instance eq_dec : EqDecision t.
Proof. solve_decision. Defined.
End share_info.

Module merkle_link.
Record t : Type := mk { branch : list Z; index : Z }.
#[global] Instance eq_dec : EqDecision t.
Proof. solve_decision. Defined.
End merkle_link.

(** [small_block_header_type]; the full header adds [merkle_root]. *)
Module min_header.
Record t : Type := mk {
  version : Z;
  previous_block : option Z;
  timestamp : Z;
  bits : FloatingInteger.t;
  nonce : Z }.
End min_header.

Module block_header.
Record t : Type := mk {
  version : Z;
  previous_block : option Z;
  timestamp : Z;
  bits : FloatingInteger.t;
  nonce : Z;
  merkle_root : Z }.
(** [dict(min_header, merkle_root=merkle_root)] *)
Definition of_min (h : min_header.t) (root : Z) : t :=
  {| version := min_header.version h;
     previous_block := min_header.previous_block h;
     timestamp := min_header.timestamp h;
     bits := min_header.bits h;
     nonce := min_header.nonce h;
     merkle_root := root |}.
End block_header.

(** Transactions, as the dictionaries of [bitcoin_data.tx_type]. *)
Module tx_out.
Record t : Type := mk { value : Z; script : bytes }.
End tx_out.

Module tx_in.
Record t : Type := mk {
  previous_output : option (Z * Z);
  sequence : option Z;
  script : bytes }.
End tx_in.

Module tx.
Record t : Type := mk {
  version : Z;
  tx_ins : list tx_in.t;
  tx_outs : list tx_out.t;
  lock_time : Z }.
End tx.

(** The [contents] dictionary of V8 and V9 ([share_type]); V8 has no
    [last_txout_nonce] key and never reads it. *)
Module contents.
Record t : Type := mk {
  min_header : min_header.t;
  share_info : share_info.t;
  ref_merkle_link : merkle_link.t;
  last_txout_nonce : Z;
  hash_link : hash_link.t;
  merkle_link : merkle_link.t }.
End contents.

(** The [common] dictionary of V7 ([share_common_type]). *)
Module common.
Record t : Type := mk {
  min_header : min_header.t;
  share_info : share_info.t;
  ref_merkle_link : merkle_link.t;
  hash_link : hash_link.t }.
End common.

(** Network constants read by this module ([net] and [net.PARENT]); the
    function [net.PARENT.POW_FUNC] is among the imports below, so that a
    network stays a record of constants. *)
Module Net.
Record t : Type := mk {
  IDENTIFIER : bytes;
  SHARE_PERIOD : Z;
  CHAIN_LENGTH : Z;
  REAL_CHAIN_LENGTH : Z;
  TARGET_LOOKBEHIND : Z;
  SPREAD : Z;
  MIN_TARGET : Z;
  MAX_TARGET : Z;
  PARENT_BLOCK_PERIOD : Z }.
End Net.

(** A share object: the [__slots__] of the three classes, with [cls] for
    [type(self)]. [last_txout_nonce] and [ref_merkle_link] are what
    [self.contents] (V8, V9) or [self.common] (V7) hold. *)
Module share.
Record t : Type := mk {
  cls : ShareClass;
  net : Net.t;
  peer : option Peer;
  min_header : min_header.t;
  share_info : share_info.t;
  ref_merkle_link : merkle_link.t;
  last_txout_nonce : Z;
  hash_link : hash_link.t;
  merkle_link : merkle_link.t;
  other_txs : option (list tx.t);
  hash : Z;
  share_data : share_data.t;
  max_target : Z;
  target : Z;
  timestamp : Z;
  previous_hash : option Z;
  new_script : bytes;
  desired_version : Z;
  gentx_hash : Z;
  header : block_header.t;
  pow_hash : Z;
  header_hash : Z;
  new_transaction_hashes : list Z;
  time_seen : Z }.
End share.

(** The share envelope [share_type]. *)
Module envelope.
Record t : Type := mk { type : Z; contents : bytes }.
End envelope.

(** ** What this module imports

    [p2pool.bitcoin.data], [p2pool.util.pack] and the global [p2pool.DEBUG]
    are not part of the source file; the functions used from them are the
    fields of this interface. *)
Class Imports : Type := {
  DEBUG : bool;
  PARENT_POW_FUNC : Net.t -> bytes -> Z;
  target_to_average_attempts : Z -> Z;
  pubkey_hash_to_script2 : Z -> bytes;
  from_target_upper_bound : Z -> FloatingInteger.t;
  tx_type_pack : tx.t -> bytes;
  tx_type_packed_size : tx.t -> Z;
  block_header_type_pack : block_header.t -> bytes;
  check_merkle_link : Z -> merkle_link.t -> Z;
  calculate_merkle_link : list (option Z) -> Z -> merkle_link.t;
  share1a_type_unpack : bytes -> Result (common.t * merkle_link.t);
  share1b_type_unpack : bytes -> Result (common.t * list tx.t);
  NewShare_share_type_unpack : bytes -> Result contents.t;
  NewNewShare_share_type_unpack : bytes -> Result contents.t }.

(** Modelled from the spec: [p2pool.util.math.clip] is not part of the
    source file; it is the clamp of the spec ("Clamp timestamp to ...",
    "clamp to [MIN_TARGET, MAX_TARGET]"), taking the pair of bounds. *)
Definition clip (x : Z) (bounds : Z * Z) : Z :=
  let '(low, high) := bounds in
  if x <? low then low
  else if high <? x then high
  else x.

(** ** The tracker *)

(** Modelled from the spec: [p2pool.util.forest.Tracker] is not part of the
    source file. The spec describes it as a forest keyed by share hash with
    [items] (hash to share) and the walks [get_height],
    [get_height_and_last], [get_nth_parent_hash] and [get_chain(start, n)]
    ("lazy ancestor walk"), and a work aggregator over the attribute
    functions [work] and [min_work]. Only [items] is needed by the
    functions embedded here; the walks follow [previous_hash]. A share's hash
    commits to its parent's, so chains do not loop and a walk visits each
    share at most once: [size items] steps are always enough. *)
Module Tracker.
Abbreviation t := (gmap Z share.t).

Fixpoint walk_to_last (fuel : nat) (items : t) (h : option Z) : Z * option Z :=
  match fuel with
  | O => (0, h)
  | S f =>
      match h with
      | None => (0, None)
      | Some x =>
          match items !! x with
          | None => (0, Some x)
          | Some s =>
              let '(n, l) := walk_to_last f items (share.previous_hash s) in
              (n + 1, l)
          end
      end
  end.

Definition get_height_and_last (items : t) (h : option Z) : Z * option Z :=
  walk_to_last (S (size items)) items h.

Definition get_height (items : t) (h : option Z) : Z :=
  fst (get_height_and_last items h).

Fixpoint nth_parent (items : t) (n : nat) (h : option Z) : Result (option Z) :=
  match n with
  | O => Ok h
  | S m =>
      match h with
      | None => Raise KeyError
      | Some x => s ← getitem items x; nth_parent items m (share.previous_hash s)
      end
  end.

Definition get_nth_parent_hash (items : t) (h : option Z) (n : Z) : Result (option Z) :=
  if n <? 0 then Raise AssertionError else nth_parent items (Z.to_nat n) h.

Fixpoint chain (items : t) (n : nat) (h : option Z) : Result (list share.t) :=
  match n with
  | O => Ok []
  | S m =>
      match h with
      | None => Raise KeyError
      | Some x =>
          s ← getitem items x;
          rest ← chain items m (share.previous_hash s);
          mret (s :: rest)
      end
  end.

(** [get_chain(start_hash, length)]: asserts
    [length <= get_height(start_hash)], then yields [length] shares. *)
Definition get_chain (items : t) (start : option Z) (length : Z) : Result (list share.t) :=
  _ ← assert (length <=? get_height items start);
  chain items (Z.to_nat length) start.

(** [get_delta(near, far).attr]: the sum of an attribute over the shares
    from [near] down to, and without, [far]; [far] has to be an ancestor. *)
Fixpoint delta_sum (attr : share.t -> Z) (fuel : nat) (items : t)
                   (near far : option Z) : Result Z :=
  if decide (near = far) then Ok 0 else
  match fuel with
  | O => Raise AssertionError
  | S f =>
      match near with
      | None => Raise AssertionError
      | Some x =>
          match items !! x with
          | None => Raise AssertionError
          | Some s =>
              rest ← delta_sum attr f items (share.previous_hash s) far;
              mret (attr s + rest)
          end
      end
  end.

Definition get_delta (attr : share.t -> Z) (items : t) (near far : option Z) : Result Z :=
  delta_sum attr (S (size items)) items near far.
End Tracker.

Section WithImports.
Context `{Imports}.

(** The attribute functions given to the tracker in [OkayTracker.__init__]. *)
Definition work (s : share.t) : Z := target_to_average_attempts (share.target s).
Definition min_work (s : share.t) : Z := target_to_average_attempts (share.max_target s).

(** Every call in this module passes [integer=True], the branch kept. *)
Definition get_pool_attempts_per_second (tracker : Tracker.t)
    (previous_share_hash : option Z) (dist : Z) (use_min_work : bool) : Result Z :=
  _ ← assert (2 <=? dist);
  near ← match previous_share_hash with
         | Some h => getitem tracker h
         | None => Raise KeyError
         end;
  far_hash ← Tracker.get_nth_parent_hash tracker previous_share_hash (dist - 1);
  far ← match far_hash with
        | Some h => getitem tracker h
        | None => Raise KeyError
        end;
  attempts ← Tracker.get_delta (if use_min_work then min_work else work) tracker
               (Some (share.hash near)) (Some (share.hash far));
  let time := share.timestamp near - share.timestamp far in
  let time := if time <=? 0 then 1 else time in
  mret (attempts / time).

Definition get_desired_version_counts (tracker : Tracker.t)
    (best_share_hash : option Z) (dist : Z) : Result (gmap Z Z) :=
  shares ← Tracker.get_chain tracker best_share_hash dist;
  mret (fold_left
          (fun res s =>
             <[share.desired_version s :=
                 default 0 (res !! share.desired_version s)
                 + target_to_average_attempts (share.target s)]> res)
          shares ∅).
End WithImports.

(** ** The weights skip list *)

(** Modelled from the spec: [p2pool.util.math.add_dicts] is not part of the
    source file ("Combine: component-wise addition"). *)
Definition add_dicts (ds : list (gmap bytes Z)) : gmap bytes Z :=
  fold_left (union_with (fun a b => Some (a + b))) ds ∅.

Module WeightsSkipList.
(** [(share_count, weights, total_weight, total_donation_weight)] *)
Abbreviation delta := (Z * gmap bytes Z * Z * Z)%type.
(** The solution carries a linked list of weight dictionaries, newest
    first: [(weights_list, weights2)] is a cons. *)
Abbreviation solution := (Z * list (gmap bytes Z) * Z * Z)%type.
(** [(max_shares, desired_weight)] *)
Abbreviation args := (Z * Z)%type.

Section WithImports.
Context `{Imports}.

Definition get_delta (tracker : Tracker.t) (element : Z) : Result delta :=
  s ← getitem tracker element;
  let att := target_to_average_attempts (share.target s) in
  mret (1,
        {[ share.new_script s := att * (65535 - share_data.donation (share.share_data s)) ]},
        att * 65535,
        att * share_data.donation (share.share_data s)).
End WithImports.

Definition combine_deltas (d1 d2 : delta) : delta :=
  let '(share_count1, weights1, total_weight1, total_donation_weight1) := d1 in
  let '(share_count2, weights2, total_weight2, total_donation_weight2) := d2 in
  (share_count1 + share_count2, add_dicts [weights1; weights2],
   total_weight1 + total_weight2, total_donation_weight1 + total_donation_weight2).

Definition initial_solution (a : args) : Result solution :=
  let '(max_shares, desired_weight) := a in
  _ ← assert (desired_weight mod 65535 =? 0);
  mret (0, [], 0, 0).

Definition apply_delta (sol : solution) (d : delta) (a : args) : Result solution :=
  let '(share_count1, weights_list, total_weight1, total_donation_weight1) := sol in
  let '(share_count2, weights2, total_weight2, total_donation_weight2) := d in
  let '(max_shares, desired_weight) := a in
  if (desired_weight <? total_weight1 + total_weight2) && (share_count2 =? 1) then
    _ ← assert ((desired_weight - total_weight1) mod 65535 =? 0);
    script ← match map_to_list weights2 with
             | [(script, _)] => Ok script
             | _ => Raise (ValueError "unpack")
             end;
    if total_weight2 / 65535 =? 0 then Raise ZeroDivisionError else
    let new_weights : gmap bytes Z :=
      {[ script := (desired_weight - total_weight1) / 65535
                   * (weights2 !!! script) / (total_weight2 / 65535) ]} in
    mret (share_count1 + share_count2, new_weights :: weights_list, desired_weight,
          total_donation_weight1
          + (desired_weight - total_weight1) / 65535 * total_donation_weight2
            / (total_weight2 / 65535))
  else
    mret (share_count1 + share_count2, weights2 :: weights_list,
          total_weight1 + total_weight2,
          total_donation_weight1 + total_donation_weight2).

Definition judge (sol : solution) (a : args) : Z :=
  let '(share_count, weights_list, total_weight, total_donation_weight) := sol in
  let '(max_shares, desired_weight) := a in
  if (max_shares <? share_count) || (desired_weight <? total_weight) then 1
  else if (share_count =? max_shares) || (total_weight =? desired_weight) then 0
  else -1.

Definition finalize (sol : solution) (a : args) : Result (gmap bytes Z * Z * Z) :=
  let '(share_count, weights_list, total_weight, total_donation_weight) := sol in
  let '(max_shares, desired_weight) := a in
  _ ← assert ((share_count <=? max_shares) && (total_weight <=? desired_weight));
  _ ← assert ((share_count =? max_shares) || (total_weight =? desired_weight));
  mret (add_dicts weights_list, total_weight, total_donation_weight).

Section WithImports.
Context `{Imports}.

(** Modelled from the spec: the skip list driver
    ([p2pool.util.skiplist.SkipList.__call__] under
    [forest.TrackerSkipList]) is not part of the source file. The spec
    describes the query as the walk over "the contiguous chain starting
    at [start] walking backward, stopping either when [max_shares]
    shares have been consumed or exactly [desired_weight] units of
    weight have been accumulated". This is that walk, one share per
    step, through the hooks above; the solution reached is returned
    before [finalize] so that the share count stays visible. Each step
    consumes one share and [judge] stops at [max_shares], which bounds
    the number of steps. *)
Fixpoint walk (tracker : Tracker.t) (fuel : nat) (pos : option Z)
              (sol : solution) (a : args) : Result solution :=
  match fuel with
  | O => Raise AssertionError
  | S f =>
      match pos with
      | None => Raise KeyError
      | Some p =>
          d ← get_delta tracker p;
          s ← getitem tracker p;
          sol_if ← apply_delta sol d a;
          let decision := judge sol_if a in
          if decision =? 0 then Ok sol_if
          else if decision <? 0 then walk tracker f (share.previous_hash s) sol_if a
          else Raise AssertionError
      end
  end.

Definition solve (tracker : Tracker.t) (start : option Z) (a : args) : Result solution :=
  sol ← initial_solution a;
  if judge sol a =? 0 then Ok sol
  else walk tracker (S (Z.to_nat (fst a))) start sol a.

Definition get_cumulative_weights (tracker : Tracker.t) (start : option Z)
    (max_shares desired_weight : Z) : Result (gmap bytes Z * Z * Z) :=
  sol ← solve tracker start (max_shares, desired_weight);
  finalize sol (max_shares, desired_weight).
End WithImports.
End WeightsSkipList.

(** ** Packing the ref type *)

(** Modelled from the spec: [pack.VarIntType] and [pack.VarStrType] are not
    part of the source file; "var-int (1/3/5/9-byte form, as in the
    underlying cryptocurrency); length-prefixed byte string (var-int length
    then bytes)". *)
Definition VarIntType_pack (n : Z) : bytes :=
  if n <? 0xfd then [byte_of_Z n]
  else if n <=? 0xffff then xfd :: le_pack 2 n
  else if n <=? 0xffffffff then xfe :: le_pack 4 n
  else xff :: le_pack 8 n.

Definition VarStrType_pack (s : bytes) : bytes := VarIntType_pack (len s) ++ s.

(** [pack.PossiblyNoneType(0, pack.IntType(256))] *)
Definition possibly_none_256_pack (h : option Z) : bytes := le_pack 32 (default 0 h).

(** [pack.ListType(t)]: a var-int count, then the items. *)
Definition ListType_pack {A} (item : A -> bytes) (l : list A) : bytes :=
  VarIntType_pack (len l) ++ concat (map item l).

(** The enumeration of [stale_info] over [pack.IntType(8)]. *)
Definition stale_info_pack (s : option StaleInfo) : bytes :=
  match s with
  | None => [x00]
  | Some orphan => [xfd]
  | Some doa => [xfe]
  | Some (unk k) => le_pack 1 k
  end.

Definition share_data_type_pack (sd : share_data.t) : bytes :=
  possibly_none_256_pack (share_data.previous_share_hash sd)
  ++ VarStrType_pack (share_data.coinbase sd)
  ++ le_pack 4 (share_data.nonce sd)
  ++ le_pack 20 (share_data.pubkey_hash sd)
  ++ le_pack 8 (share_data.subsidy sd)
  ++ le_pack 2 (share_data.donation sd)
  ++ stale_info_pack (share_data.stale_info sd)
  ++ VarIntType_pack (share_data.desired_version sd).

(** [cls.share_info_type.pack]: V7 has no transaction fields;
    [bitcoin_data.FloatingIntegerType] writes the 32 bits. *)
Definition share_info_type_pack (cls : ShareClass) (si : share_info.t) : bytes :=
  share_data_type_pack (share_info.share_data si)
  ++ match cls with
     | Share => []
     | _ =>
         ListType_pack (le_pack 32) (share_info.new_transaction_hashes si)
         ++ ListType_pack
              (fun x => VarIntType_pack (tx_ref.share_count x)
                        ++ VarIntType_pack (tx_ref.tx_count x))
              (share_info.transaction_hash_refs si)
     end
  ++ possibly_none_256_pack (share_info.far_share_hash si)
  ++ le_pack 4 (FloatingInteger.bits (share_info.max_bits si))
  ++ le_pack 4 (FloatingInteger.bits (share_info.bits si))
  ++ le_pack 4 (share_info.timestamp si).

(** [cls.ref_type.pack(dict(identifier=..., share_info=...))] *)
Definition ref_type_pack (cls : ShareClass) (identifier : bytes) (si : share_info.t) : bytes :=
  identifier ++ share_info_type_pack cls si.

(** ** [generate_transaction] *)

(** [sum(d.itervalues())] *)
Definition sum_values `{Countable K} (m : gmap K Z) : Z :=
  map_fold (fun _ v acc => v + acc) 0 m.

(** Byte strings compare lexicographically by unsigned byte value. *)
Fixpoint bytes_leb (a b : bytes) : bool :=
  match a, b with
  | [], _ => true
  | _ :: _, [] => false
  | x :: a', y :: b' =>
      if Z_of_byte x <? Z_of_byte y then true
      else if Z_of_byte y <? Z_of_byte x then false
      else bytes_leb a' b'
  end.

(** The order of the sort keys [(script == DONATION_SCRIPT, amount, script)]:
    tuples compare lexicographically, [False] before [True]. *)
Definition key_leb (k1 k2 : bool * Z * bytes) : bool :=
  let '(d1, a1, s1) := k1 in
  let '(d2, a2, s2) := k2 in
  if negb d1 && d2 then true
  else if d1 && negb d2 then false
  else if a1 <? a2 then true
  else if a2 <? a1 then false
  else bytes_leb s1 s2.

Definition dest_key (amounts : gmap bytes Z) (script : bytes) : bool * Z * bytes :=
  (bool_decide (script = DONATION_SCRIPT), amounts !!! script, script).

Definition dest_le (amounts : gmap bytes Z) : relation bytes :=
  fun s1 s2 => Is_true (key_leb (dest_key amounts s1) (dest_key amounts s2)).

#[global] Instance dest_le_dec amounts : RelDecision (dest_le amounts).
Proof. intros s1 s2. unfold dest_le. apply _. Defined.

(** [l.index(x)] when [x in l]. *)
Fixpoint index_of (x : Z) (l : list Z) : option Z :=
  match l with
  | [] => None
  | y :: r => if decide (x = y) then Some 0 else Z.succ <$> index_of x r
  end.

(** [s.ljust(n, '\x00')] *)
Definition ljust (s : bytes) (n : nat) : bytes :=
  s ++ repeat x00 (n - length s).

(** The four lists the inner loop of V8 and V9 builds up. *)
Module refs_state.
Record t : Type := mk {
  new_transaction_hashes : list Z;
  new_transaction_size : Z;
  transaction_hash_refs : list tx_ref.t;
  other_transaction_hashes : list Z }.
End refs_state.

Section GenerateTransaction.
Context `{Imports}.

Definition get_ref_hash (cls : ShareClass) (net : Net.t) (si : share_info.t)
    (ref_merkle_link : merkle_link.t) : bytes :=
  le_pack 32 (check_merkle_link
                (hash256 (ref_type_pack cls (Net.IDENTIFIER net) si))
                ref_merkle_link).

(** The target window: [pre_target3]. *)
Definition compute_pre_target3 (tracker : Tracker.t) (sd : share_data.t)
    (previous_share : option share.t) (height : Z) (net : Net.t) : Result Z :=
  if height <? Net.TARGET_LOOKBEHIND net then Ok (Net.MAX_TARGET net)
  else
    attempts_per_second ←
      get_pool_attempts_per_second tracker (share_data.previous_share_hash sd)
        (Net.TARGET_LOOKBEHIND net) true;
    pre_target ←
      (if attempts_per_second =? 0 then Ok (2 ^ 256 - 1)
       else if Net.SHARE_PERIOD net * attempts_per_second =? 0 then Raise ZeroDivisionError
       else Ok (2 ^ 256 / (Net.SHARE_PERIOD net * attempts_per_second) - 1));
    prev ← match previous_share with Some p => Ok p | None => Raise AttributeError end;
    let pre_target2 :=
      clip pre_target (share.max_target prev * 9 / 10, share.max_target prev * 11 / 10) in
    mret (clip pre_target2 (Net.MIN_TARGET net, Net.MAX_TARGET net)).

(** The payout split, one definition per assignment to [amounts]:
    99.5% by weight, *)
Definition weighted_amounts (subsidy : Z) (weights : gmap bytes Z) (total_weight : Z)
    : gmap bytes Z :=
  (fun weight => subsidy * (199 * weight) / (200 * total_weight)) <$> weights.

(** 0.5% to the finder of the block, *)
Definition add_finder (subsidy : Z) (this_script : bytes) (amounts : gmap bytes Z)
    : gmap bytes Z :=
  <[this_script := default 0 (amounts !! this_script) + subsidy / 200]> amounts.

(** and what is left over to the donation script. *)
Definition add_residue (subsidy : Z) (amounts : gmap bytes Z) : gmap bytes Z :=
  <[DONATION_SCRIPT :=
      default 0 (amounts !! DONATION_SCRIPT) + subsidy - sum_values amounts]> amounts.

Definition split_amounts (subsidy : Z) (weights : gmap bytes Z) (total_weight : Z)
    (this_script : bytes) : gmap bytes Z :=
  add_residue subsidy
    (add_finder subsidy this_script (weighted_amounts subsidy weights total_weight)).

(** [any(x < 0 for x in amounts.itervalues())] *)
Definition any_negative (amounts : gmap bytes Z) : bool :=
  existsb (fun kv => snd kv <? 0) (map_to_list amounts).

(** [amounts] with the check that follows it; the division raises when
    there is a weight to divide and the divisor is zero. *)
Definition compute_amounts (subsidy : Z) (weights : gmap bytes Z) (total_weight : Z)
    (this_script : bytes) : Result (gmap bytes Z) :=
  if bool_decide (weights ≠ ∅) && (200 * total_weight =? 0) then Raise ZeroDivisionError
  else
    let amounts := split_amounts subsidy weights total_weight this_script in
    if negb (sum_values amounts =? subsidy) || any_negative amounts
    then Raise (ValueError "")
    else Ok amounts.

(** [sorted(amounts.iterkeys(), key=...)[-4000:]] *)
Definition compute_dests (amounts : gmap bytes Z) : list bytes :=
  slice_from (merge_sort (dest_le amounts) (fst <$> map_to_list amounts)) (-4000).

(** The search of one transaction hash in the ancestors' announcements. *)
Fixpoint find_in_chain (tx_hash : Z) (i : Z) (chain : list share.t) : option tx_ref.t :=
  match chain with
  | [] => None
  | s :: rest =>
      match index_of tx_hash (share.new_transaction_hashes s) with
      | Some k => Some {| tx_ref.share_count := i + 1; tx_ref.tx_count := k |}
      | None => find_in_chain tx_hash (i + 1) rest
      end
  end.

(** The loop over [desired_other_transaction_hashes]; [break] leaves it
    with the lists built so far. *)
Fixpoint collect_refs (chain : list share.t) (known_txs : option (gmap Z tx.t))
    (desired : list Z) (st : refs_state.t) : Result refs_state.t :=
  match desired with
  | [] => Ok st
  | tx_hash :: rest =>
      let append this st' :=
        {| refs_state.new_transaction_hashes := refs_state.new_transaction_hashes st';
           refs_state.new_transaction_size := refs_state.new_transaction_size st';
           refs_state.transaction_hash_refs := refs_state.transaction_hash_refs st' ++ [this];
           refs_state.other_transaction_hashes :=
             refs_state.other_transaction_hashes st' ++ [tx_hash] |} in
      let announce size st' :=
        {| refs_state.new_transaction_hashes :=
             refs_state.new_transaction_hashes st' ++ [tx_hash];
           refs_state.new_transaction_size := size;
           refs_state.transaction_hash_refs := refs_state.transaction_hash_refs st';
           refs_state.other_transaction_hashes := refs_state.other_transaction_hashes st' |} in
      let fresh st' :=
        {| tx_ref.share_count := 0;
           tx_ref.tx_count := len (refs_state.new_transaction_hashes st') - 1 |} in
      match find_in_chain tx_hash 0 chain with
      | Some this => collect_refs chain known_txs rest (append this st)
      | None =>
          match known_txs with
          | Some known =>
              t ← getitem known tx_hash;
              let this_size := tx_type_packed_size t in
              if 50000 <? refs_state.new_transaction_size st + this_size then Ok st
              else
                let st' := announce (refs_state.new_transaction_size st + this_size) st in
                collect_refs chain known_txs rest (append (fresh st') st')
          | None =>
              let st' := announce (refs_state.new_transaction_size st) st in
              collect_refs chain known_txs rest (append (fresh st') st')
          end
      end
  end.

(** The timestamp written into [share_info]. *)
Definition compute_timestamp (previous_share : option share.t) (net : Net.t)
    (desired_timestamp : Z) : Z :=
  match previous_share with
  | Some p =>
      clip desired_timestamp
        ((share.timestamp p + Net.SHARE_PERIOD net) - (Net.SHARE_PERIOD net - 1),
         (share.timestamp p + Net.SHARE_PERIOD net) + (Net.SHARE_PERIOD net - 1))
  | None => desired_timestamp
  end.

(** The trailing output script carrying the ref hash. *)
Definition ref_script (cls : ShareClass) (ref_hash : bytes) (last_txout_nonce : Z) : bytes :=
  match cls with
  | NewNewShare => [x24] ++ ref_hash ++ le_pack 4 last_txout_nonce
  | _ => [x20] ++ ref_hash
  end.

(** [tx_outs] of the generation transaction. *)
Definition compute_tx_outs (amounts : gmap bytes Z) (dests : list bytes)
    (last_script : bytes) : list tx_out.t :=
  map (fun script => {| tx_out.value := amounts !!! script; tx_out.script := script |})
      (List.filter
         (fun script => negb (amounts !!! script =? 0)
                        || bool_decide (script = DONATION_SCRIPT))
         dests)
  ++ [ {| tx_out.value := 0; tx_out.script := last_script |} ].

(** [cls.generate_transaction]. The three classes have the same body up
    to: the loop over the desired transaction hashes (V8 and V9 only), the
    padding of the coinbase (V7 only) and the trailing script. The closure
    [get_share], the fourth component of the returned tuple, only seals a
    share later on and is left out. *)
Definition generate_transaction (cls : ShareClass) (tracker : Tracker.t)
    (sd : share_data.t) (block_target desired_timestamp desired_target : Z)
    (ref_merkle_link : merkle_link.t) (desired_other_transaction_hashes : list Z)
    (net : Net.t) (known_txs : option (gmap Z tx.t)) (last_txout_nonce : Z)
    : Result (share_info.t * tx.t * list Z) :=
  previous_share ←
    match share_data.previous_share_hash sd with
    | Some h => Some <$> getitem tracker h
    | None => Ok None
    end;
  let '(height, last) :=
    Tracker.get_height_and_last tracker (share_data.previous_share_hash sd) in
  _ ← assert ((Net.REAL_CHAIN_LENGTH net <=? height) || bool_decide (last = None));
  pre_target3 ← compute_pre_target3 tracker sd previous_share height net;
  let max_bits := from_target_upper_bound pre_target3 in
  let bits := from_target_upper_bound (clip desired_target (pre_target3 / 10, pre_target3)) in
  '(weights, total_weight, donation_weight) ←
    WeightsSkipList.get_cumulative_weights tracker (share_data.previous_share_hash sd)
      (Z.min height (Net.REAL_CHAIN_LENGTH net))
      (65535 * Net.SPREAD net * target_to_average_attempts block_target);
  _ ← assert (total_weight =? sum_values weights + donation_weight);
  let this_script := pubkey_hash_to_script2 (share_data.pubkey_hash sd) in
  amounts ← compute_amounts (share_data.subsidy sd) weights total_weight this_script;
  let dests := compute_dests amounts in
  st ←
    match cls, desired_other_transaction_hashes with
    | Share, _ => Ok (refs_state.mk [] 0 [] desired_other_transaction_hashes)
    | _, [] => Ok (refs_state.mk [] 0 [] [])
    | _, _ =>
        chain ← Tracker.get_chain tracker (share_data.previous_share_hash sd)
                  (Z.min height 100);
        collect_refs chain known_txs desired_other_transaction_hashes
          (refs_state.mk [] 0 [] [])
    end;
  far ←
    (if bool_decide (last = None) && (height <? 99) then Ok None
     else Tracker.get_nth_parent_hash tracker (share_data.previous_share_hash sd) 99);
  let si :=
    {| share_info.share_data := sd;
       share_info.new_transaction_hashes := refs_state.new_transaction_hashes st;
       share_info.transaction_hash_refs := refs_state.transaction_hash_refs st;
       share_info.far_share_hash := far;
       share_info.max_bits := max_bits;
       share_info.bits := bits;
       share_info.timestamp := compute_timestamp previous_share net desired_timestamp |} in
  let gentx :=
    {| tx.version := 1;
       tx.tx_ins :=
         [ {| tx_in.previous_output := None;
              tx_in.sequence := None;
              tx_in.script :=
                match cls with
                | Share => ljust (share_data.coinbase sd) 2
                | _ => share_data.coinbase sd
                end |} ];
       tx.tx_outs :=
         compute_tx_outs amounts dests
           (ref_script cls (get_ref_hash cls net si ref_merkle_link) last_txout_nonce);
       tx.lock_time := 0 |} in
  mret (si, gentx, refs_state.other_transaction_hashes st).
End GenerateTransaction.

(** ** Share construction *)

Definition gentx_before_refhash (cls : ShareClass) : bytes :=
  VarStrType_pack DONATION_SCRIPT ++ le_pack 8 0
  ++ take 2 (VarStrType_pack
               match cls with
               | NewNewShare => [x24] ++ le_pack 32 0 ++ le_pack 4 0
               | _ => [x20] ++ le_pack 32 0
               end).

Section Construction.
Context `{Imports}.

(** [NewShare.__init__] and [NewNewShare.__init__]: one body, the classes
    differ in the bytes handed to [check_hash_link] (V9 inserts
    [last_txout_nonce]). [now] is [time.time()]. *)
Definition init_with_refs (cls : ShareClass) (net : Net.t) (peer : option Peer)
    (c : contents.t) (now : Z) : Result share.t :=
  let si := contents.share_info c in
  let sd := share_info.share_data si in
  if negb ((2 <=? len (share_data.coinbase sd)) && (len (share_data.coinbase sd) <=? 100))
  then Raise (ValueError "bad coinbase size!") else
  if 16 <? len (merkle_link.branch (contents.merkle_link c))
  then Raise (ValueError "merkle branch too long!") else
  _ ← assert (bool_decide (hash_link.extra_data (contents.hash_link c) = []));
  let max_target := FloatingInteger.target (share_info.max_bits si) in
  let target := FloatingInteger.target (share_info.bits si) in
  _ ← assert (forallb (fun x => tx_ref.share_count x <? 110)
                (share_info.transaction_hash_refs si));
  _ ← assert (forallb
                (fun i => bool_decide
                   (tx_ref.mk 0 (Z.of_nat i) ∈ share_info.transaction_hash_refs si))
                (seq 0 (length (share_info.new_transaction_hashes si))));
  gentx_hash ←
    check_hash_link (contents.hash_link c)
      (get_ref_hash cls net si (contents.ref_merkle_link c)
       ++ match cls with
          | NewNewShare => le_pack 4 (contents.last_txout_nonce c)
          | _ => []
          end
       ++ le_pack 4 0)
      (gentx_before_refhash cls);
  let merkle_root := check_merkle_link gentx_hash (contents.merkle_link c) in
  let header := block_header.of_min (contents.min_header c) merkle_root in
  let pow_hash := PARENT_POW_FUNC net (block_header_type_pack header) in
  let header_hash := hash256 (block_header_type_pack header) in
  if Net.MAX_TARGET net <? target
  then Raise (PeerMisbehavingError "share target invalid") else
  if target <? pow_hash
  then Raise (PeerMisbehavingError "share PoW invalid") else
  mret {| share.cls := cls; share.net := net; share.peer := peer;
          share.min_header := contents.min_header c;
          share.share_info := si;
          share.ref_merkle_link := contents.ref_merkle_link c;
          share.last_txout_nonce := contents.last_txout_nonce c;
          share.hash_link := contents.hash_link c;
          share.merkle_link := contents.merkle_link c;
          share.other_txs := None;
          share.hash := header_hash;
          share.share_data := sd;
          share.max_target := max_target;
          share.target := target;
          share.timestamp := share_info.timestamp si;
          share.previous_hash := share_data.previous_share_hash sd;
          share.new_script := pubkey_hash_to_script2 (share_data.pubkey_hash sd);
          share.desired_version := share_data.desired_version sd;
          share.gentx_hash := gentx_hash;
          share.header := header;
          share.pow_hash := pow_hash;
          share.header_hash := header_hash;
          share.new_transaction_hashes := share_info.new_transaction_hashes si;
          share.time_seen := now |}.

Definition NewNewShare_init := init_with_refs NewNewShare.
Definition NewShare_init := init_with_refs NewShare.

(** [Share.__init__] (V7). *)
Definition Share_init (net : Net.t) (peer : option Peer) (c : common.t)
    (merkle_link : merkle_link.t) (other_txs : option (list tx.t)) (now : Z)
    : Result share.t :=
  let si := common.share_info c in
  let sd := share_info.share_data si in
  if 100 <? len (share_data.coinbase sd)
  then Raise (ValueError "coinbase too large!") else
  if 16 <? len (merkle_link.branch merkle_link)
  then Raise (ValueError "merkle branch too long!") else
  if DEBUG
     && match other_txs with
        | Some txs =>
            bool_decide
              (calculate_merkle_link
                 (Some 0 :: map (fun x => Some (hash256 (tx_type_pack x))) txs) 0
               ≠ merkle_link)
        | None => false
        end
  then Raise (ValueError "merkle_link and other_txs do not match") else
  _ ← assert (bool_decide (hash_link.extra_data (common.hash_link c) = []));
  let max_target := FloatingInteger.target (share_info.max_bits si) in
  let target := FloatingInteger.target (share_info.bits si) in
  gentx_hash ←
    check_hash_link (common.hash_link c)
      (get_ref_hash Share net si (common.ref_merkle_link c) ++ le_pack 4 0)
      (gentx_before_refhash Share);
  let merkle_root := check_merkle_link gentx_hash merkle_link in
  let header := block_header.of_min (common.min_header c) merkle_root in
  let pow_hash := PARENT_POW_FUNC net (block_header_type_pack header) in
  let header_hash := hash256 (block_header_type_pack header) in
  if target <? pow_hash
  then Raise (PeerMisbehavingError "share PoW invalid") else
  let solves := pow_hash <=? FloatingInteger.target (block_header.bits header) in
  if bool_decide (other_txs ≠ None) && negb solves
  then Raise (ValueError "other_txs provided when not a block solution") else
  if bool_decide (other_txs = None) && solves
  then Raise (ValueError "other_txs not provided when a block solution") else
  mret {| share.cls := Share; share.net := net; share.peer := peer;
          share.min_header := common.min_header c;
          share.share_info := si;
          share.ref_merkle_link := common.ref_merkle_link c;
          share.last_txout_nonce := 0;
          share.hash_link := common.hash_link c;
          share.merkle_link := merkle_link;
          share.other_txs := other_txs;
          share.hash := header_hash;
          share.share_data := sd;
          share.max_target := max_target;
          share.target := target;
          share.timestamp := share_info.timestamp si;
          share.previous_hash := share_data.previous_share_hash sd;
          share.new_script := pubkey_hash_to_script2 (share_data.pubkey_hash sd);
          share.desired_version := share_data.desired_version sd;
          share.gentx_hash := gentx_hash;
          share.header := header;
          share.pow_hash := pow_hash;
          share.header_hash := header_hash;
          share.new_transaction_hashes := [];
          share.time_seen := now |}.

Definition load_share (sh : envelope.t) (net : Net.t) (peer : option Peer) (now : Z)
    : Result share.t :=
  if bool_decide (envelope.type sh ∈ [0; 1; 2; 3])
  then Raise (PeerMisbehavingError "sent an obsolete share")
  else if envelope.type sh =? 4 then
    '(c, ml) ← share1a_type_unpack (envelope.contents sh);
    Share_init net peer c ml None now
  else if envelope.type sh =? 5 then
    '(c, other_txs) ← share1b_type_unpack (envelope.contents sh);
    Share_init net peer c
      (calculate_merkle_link
         (Some 0 :: map (fun x => Some (hash256 (tx_type_pack x))) other_txs) 0)
      (Some other_txs) now
  else if envelope.type sh =? VERSION NewShare then
    c ← NewShare_share_type_unpack (envelope.contents sh);
    NewShare_init net peer c now
  else if envelope.type sh =? VERSION NewNewShare then
    c ← NewNewShare_share_type_unpack (envelope.contents sh);
    NewNewShare_init net peer c now
  else Raise (ValueError "unknown share type").
End Construction.

(** ** [check], [should_punish_reason] and the end of [think] *)

(** [l[i]] of Python on a list, for a non-negative index. *)
Definition list_getitem {A} (l : list A) (i : Z) : Result A :=
  if i <? 0 then Raise IndexError
  else match l !! Z.to_nat i with
       | Some x => Ok x
       | None => Raise IndexError
       end.

(** [[f(x) for x in l]] with an [f] that can raise. *)
Fixpoint mapR {A B} (f : A -> Result B) (l : list A) : Result (list B) :=
  match l with
  | [] => Ok []
  | x :: r => y ← f x; ys ← mapR f r; mret (y :: ys)
  end.

(** An entry of [desired]: [(peer, hash, ts, targ)]. *)
Abbreviation desired_entry := (option Peer * Z * Z * Z)%type.
(** An entry of [decorated_heads]: [((work, -punish, -time_seen), h)]. *)
Abbreviation decorated_head := ((Z * Z * Z) * Z)%type.

Section Check.
Context `{Imports}.

(** The first block of [check], the same in the three classes: who may
    follow whom. *)
Definition check_succession (self : share.t) (tracker : Tracker.t) : Result unit :=
  match share_data.previous_share_hash (share.share_data self) with
  | None => Ok tt
  | Some prev_hash =>
      previous_share ← getitem tracker prev_hash;
      if decide (share.cls self = share.cls previous_share) then Ok tt
      else if decide (Some (share.cls self) = SUCCESSOR (share.cls previous_share)) then
        if Tracker.get_height tracker (Some (share.hash previous_share))
           <? Net.CHAIN_LENGTH (share.net self)
        then Raise (PeerMisbehavingError "switch without enough history")
        else
          start ← Tracker.get_nth_parent_hash tracker (Some (share.hash previous_share))
                    (Net.CHAIN_LENGTH (share.net self) * 9 / 10);
          counts ← get_desired_version_counts tracker start
                     (Net.CHAIN_LENGTH (share.net self) / 10);
          if default 0 (counts !! VERSION (share.cls self)) <? sum_values counts * 85 / 100
          then Raise (PeerMisbehavingError "switch without enough hash power upgraded")
          else Ok tt
      else
        Raise (PeerMisbehavingError
                 (class_name (share.cls self) ++ " can't follow "
                  ++ class_name (share.cls previous_share)))
  end.

(** The hashes the refs of a V8 or V9 share point at. The share info of a
    V7 share has no key [new_transaction_hashes]: a ref that points at a V7
    share raises [KeyError]. *)
Definition resolve_refs (self : share.t) (tracker : Tracker.t) : Result (list Z) :=
  mapR (fun x =>
          h ← Tracker.get_nth_parent_hash tracker (Some (share.hash self))
                (tx_ref.share_count x);
          s ← match h with Some h' => getitem tracker h' | None => Raise KeyError end;
          match share.cls s with
          | Share => Raise KeyError
          | _ =>
              list_getitem (share_info.new_transaction_hashes (share.share_info s))
                           (tx_ref.tx_count x)
          end)
       (share_info.transaction_hash_refs (share.share_info self)).

Definition check (self : share.t) (tracker : Tracker.t) : Result tx.t :=
  _ ← check_succession self tracker;
  let header_target := FloatingInteger.target (block_header.bits (share.header self)) in
  let si := share.share_info self in
  match share.cls self with
  | Share =>
      '(si', gentx, _) ←
        generate_transaction Share tracker (share_info.share_data si) header_target
          (share_info.timestamp si) (FloatingInteger.target (share_info.bits si))
          (share.ref_merkle_link self) [] (share.net self) None 0;
      if bool_decide (si' ≠ si) then Raise (ValueError "share_info invalid") else
      if bool_decide (hash256 (tx_type_pack gentx) ≠ share.gentx_hash self)
      then Raise (ValueError "gentx doesn't match hash_link") else
      mret gentx
  | cls =>
      other_tx_hashes ← resolve_refs self tracker;
      '(si', gentx, other_tx_hashes2) ←
        generate_transaction cls tracker (share_info.share_data si) header_target
          (share_info.timestamp si) (FloatingInteger.target (share_info.bits si))
          (share.ref_merkle_link self) other_tx_hashes (share.net self) None
          (share.last_txout_nonce self);
      _ ← assert (bool_decide (other_tx_hashes2 = other_tx_hashes));
      if bool_decide (si' ≠ si) then Raise (ValueError "share_info invalid") else
      if bool_decide (hash256 (tx_type_pack gentx) ≠ share.gentx_hash self)
      then Raise (ValueError "gentx doesn't match hash_link") else
      if bool_decide (calculate_merkle_link (None :: map Some other_tx_hashes) 0
                      ≠ share.merkle_link self)
      then Raise (ValueError "merkle_link and other_tx_hashes do not match") else
      mret gentx
  end.

Definition get_other_tx_hashes (self : share.t) (tracker : Tracker.t)
    : Result (option (list Z)) :=
  match share.cls self with
  | Share => Ok (Some [])
  | _ =>
      let parents := Tracker.get_height tracker (Some (share.hash self)) - 1 in
      if negb (forallb (fun x => tx_ref.share_count x <=? parents)
                 (share_info.transaction_hash_refs (share.share_info self)))
      then Ok None
      else Some <$> resolve_refs self tracker
  end.

Definition _get_other_txs (self : share.t) (tracker : Tracker.t)
    (known_txs : gmap Z tx.t) : Result (option (list tx.t)) :=
  other_tx_hashes ← get_other_tx_hashes self tracker;
  match other_tx_hashes with
  | None => Ok None
  | Some hs =>
      if negb (forallb (fun h => bool_decide (is_Some (known_txs !! h))) hs) then Ok None
      else Some <$> mapR (getitem known_txs) hs
  end.

(** The punishment level is [True], [False] or [-1] in the source; as an
    integer [1], [0] or [-1]. The stale message keeps its fixed part; it
    formats both block hashes with [%x], which raises [TypeError] on
    [None]. *)
Definition should_punish_reason (self : share.t) (previous_block : option Z)
    (bits : FloatingInteger.t) (tracker : Tracker.t) (known_txs : gmap Z tx.t)
    : Result (Z * option string) :=
  let header := share.header self in
  if bool_decide ((block_header.previous_block header, block_header.bits header)
                  ≠ (previous_block, bits))
     && bool_decide (Some (share.header_hash self) ≠ previous_block)
     && bool_decide (share.peer self ≠ None)
  then
    match block_header.previous_block header, previous_block with
    | Some _, Some _ => Ok (1, Some "Block-stale detected!"%string)
    | _, _ => Raise TypeError
    end
  else if share.pow_hash self <=? FloatingInteger.target (block_header.bits header)
  then Ok (-1, Some "block solution"%string)
  else
    match share.cls self with
    | Share => Ok (0, None)
    | _ =>
        other_txs ← _get_other_txs self tracker known_txs;
        match other_txs with
        | None => Ok (1, Some "not all txs present"%string)
        | Some txs =>
            let all_txs_size := foldr Z.add 0 (map tx_type_packed_size txs) in
            if 1000000 <? all_txs_size
            then Ok (1, Some "txs over block size limit"%string)
            else
              sizes ← mapR (fun h => tx_type_packed_size <$> getitem known_txs h)
                        (share_info.new_transaction_hashes (share.share_info self));
              if 50000 <? foldr Z.add 0 sizes
              then Ok (1, Some "new txs over limit"%string)
              else Ok (0, None)
        end
    end.

(** The end of [OkayTracker.think], from the choice of [best] out of
    [decorated_heads] on: the punishment of the best head and the two
    cutoffs. [now] is [int(time.time())]; [net] is [self.net]. *)
Definition think_cutoffs (tracker : Tracker.t) (net : Net.t) (now : Z)
    (previous_block : option Z) (bits : FloatingInteger.t) (known_txs : gmap Z tx.t)
    (best_tail_score : option (Z * option Z)) (decorated_heads : list decorated_head)
    : Result (option Z * Z * Z) :=
  let best := snd <$> last decorated_heads in
  match best with
  | Some b =>
      best_share ← getitem tracker b;
      '(punish, punish_reason) ←
        should_punish_reason best_share previous_block bits tracker known_txs;
      let best := if 0 <? punish then share.previous_hash best_share else Some b in
      let timestamp_cutoff := Z.min now (share.timestamp best_share) - 3600 in
      target_cutoff ←
        match best_tail_score with
        | None => Raise TypeError
        | Some (_, Some rate) =>
            if Net.SHARE_PERIOD net * rate + 1 =? 0 then Raise ZeroDivisionError
            else Ok (2 ^ 256 / (Net.SHARE_PERIOD net * rate + 1) * 2)
        | Some (_, None) => Ok (2 ^ 256 - 1)
        end;
      mret (best, timestamp_cutoff, target_cutoff)
  | None => Ok (None, now - 24 * 60 * 60, 2 ^ 256 - 1)
  end.

(** The value [think] returns, given the [desired] set gathered by its
    first two loops (a set: its order is not observable, any listing of it
    stands for it). *)
Definition think_return (tracker : Tracker.t) (net : Net.t) (now : Z)
    (previous_block : option Z) (bits : FloatingInteger.t) (known_txs : gmap Z tx.t)
    (best_tail_score : option (Z * option Z)) (decorated_heads : list decorated_head)
    (desired : list desired_entry)
    : Result (option Z * list (option Peer * Z) * list decorated_head) :=
  '(best, timestamp_cutoff, target_cutoff) ←
    think_cutoffs tracker net now previous_block bits known_txs best_tail_score
      decorated_heads;
  mret (best,
        map (fun '(peer, hash, ts, targ) => (peer, hash))
            (List.filter (fun '(peer, hash, ts, targ) => timestamp_cutoff <=? ts) desired),
        decorated_heads).
End Check.

(** ** The imports as Bitcoin has them

    Modelled from the spec: an instance of [Imports] for evaluating the
    functions above on concrete shares. The spec fixes the shapes ("compact
    floating-point encoding of a target", "double-SHA-256 of the underlying
    block header", little-endian composable codecs); the formats are those of
    the underlying cryptocurrency. *)
Module bitcoin.
Definition target_to_average_attempts (target : Z) : Z := 2 ^ 256 / (target + 1).

Definition pubkey_hash_to_script2 (pubkey_hash : Z) : bytes :=
  [x76; xa9; x14] ++ le_pack 20 pubkey_hash ++ [x88; xac].

(** The shortest big-endian writing of a natural number. *)
Definition natural_to_string (n : Z) : bytes :=
  if n <=? 0 then [] else be_pack (Z.to_nat (Z.log2 n / 8 + 1)) n.

Definition target_of_bits (bits : Z) : Z :=
  Z.shiftl (Z.land bits 0xffffff) (8 * (Z.shiftr bits 24 - 3)).

Definition from_target_upper_bound (target : Z) : FloatingInteger.t :=
  let n := natural_to_string target in
  let n := match n with
           | b :: _ => if 128 <=? Z_of_byte b then x00 :: n else n
           | [] => n
           end in
  let bits := Z.shiftl (len n) 24 + be_unpack (take 3 (n ++ [x00; x00; x00])) in
  {| FloatingInteger.bits := bits; FloatingInteger.target := target_of_bits bits |}.

Definition tx_in_pack (i : tx_in.t) : bytes :=
  match tx_in.previous_output i with
  | None => le_pack 32 0 ++ le_pack 4 (2 ^ 32 - 1)
  | Some (h, index) => le_pack 32 h ++ le_pack 4 index
  end
  ++ VarStrType_pack (tx_in.script i)
  ++ le_pack 4 (default (2 ^ 32 - 1) (tx_in.sequence i)).

Definition tx_out_pack (o : tx_out.t) : bytes :=
  le_pack 8 (tx_out.value o) ++ VarStrType_pack (tx_out.script o).

Definition tx_type_pack (t : tx.t) : bytes :=
  le_pack 4 (tx.version t)
  ++ ListType_pack tx_in_pack (tx.tx_ins t)
  ++ ListType_pack tx_out_pack (tx.tx_outs t)
  ++ le_pack 4 (tx.lock_time t).

Definition block_header_type_pack (h : block_header.t) : bytes :=
  le_pack 4 (block_header.version h)
  ++ possibly_none_256_pack (block_header.previous_block h)
  ++ le_pack 32 (block_header.merkle_root h)
  ++ le_pack 4 (block_header.timestamp h)
  ++ le_pack 4 (FloatingInteger.bits (block_header.bits h))
  ++ le_pack 4 (block_header.nonce h).

Definition merkle_record (left right : Z) : Z :=
  hash256 (le_pack 32 left ++ le_pack 32 right).

Definition check_merkle_link (tip_hash : Z) (link : merkle_link.t) : Z :=
  snd (fold_left
         (fun '(i, c) h =>
            (i + 1,
             if Z.testbit (merkle_link.index link) i
             then merkle_record h c else merkle_record c h))
         (merkle_link.branch link) (0, tip_hash)).

Fixpoint merkle_level (hs : list Z) : list Z :=
  match hs with
  | a :: b :: r => merkle_record a b :: merkle_level r
  | [a] => [merkle_record a a]
  | [] => []
  end.

Fixpoint merkle_branch (fuel : nat) (hs : list Z) (index : nat) : list Z :=
  match fuel with
  | O => []
  | S f =>
      if (length hs <=? 1)%nat then []
      else
        let sibling := if Nat.even index then S index else pred index in
        nth sibling hs (List.last hs 0) :: merkle_branch f (merkle_level hs) (index / 2)
  end.

Definition calculate_merkle_link (hashes : list (option Z)) (index : Z) : merkle_link.t :=
  {| merkle_link.branch :=
       merkle_branch (length hashes) (map (default 0) hashes) (Z.to_nat index);
     merkle_link.index := index |}.

(** The parsers of the share types are not needed to evaluate anything
    below; every input is taken as cut short, which is what an empty
    byte string is to them. *)
Definition early_end {A} (_ : bytes) : Result A := Raise (ValueError "EarlyEnd").

Definition imports : Imports :=
  Build_Imports false (fun _ => hash256) target_to_average_attempts
    pubkey_hash_to_script2
    from_target_upper_bound tx_type_pack (fun t => len (tx_type_pack t))
    block_header_type_pack check_merkle_link calculate_merkle_link
    early_end early_end early_end early_end.
End bitcoin.

(** ** Concrete inputs used to evaluate the functions *)
Module example.
(** The constants of the Bitcoin main network. *)
Definition net : Net.t :=
  {| Net.IDENTIFIER := decode_hex "fc70035c7a81bc6f";
     Net.SHARE_PERIOD := 30;
     Net.CHAIN_LENGTH := 8640;
     Net.REAL_CHAIN_LENGTH := 8640;
     Net.TARGET_LOOKBEHIND := 200;
     Net.SPREAD := 3;
     Net.MIN_TARGET := 0;
     Net.MAX_TARGET := 2 ^ 256 / 2 ^ 32 - 1;
     Net.PARENT_BLOCK_PERIOD := 600 |}.

(** The share data of a new share on top of [previous]: a subsidy of 50
    coins, nothing donated. *)
Definition mk_share_data (previous : option Z) : share_data.t :=
  {| share_data.previous_share_hash := previous;
     share_data.coinbase := [x00; x00];
     share_data.nonce := 0;
     share_data.pubkey_hash := 0;
     share_data.subsidy := 5000000000;
     share_data.donation := 0;
     share_data.stale_info := None;
     share_data.desired_version := 9 |}.

Definition genesis_data : share_data.t := mk_share_data None.

Definition no_link : merkle_link.t := {| merkle_link.branch := []; merkle_link.index := 0 |}.

(** A share object with given class, hash, parent, target, timestamp and
    vote; the attributes no walk reads are filled with zeros. *)
Definition mk_share (cls : ShareClass) (n : Net.t) (hash : Z) (previous : option Z)
    (target timestamp desired_version : Z) : share.t :=
  let sd :=
    {| share_data.previous_share_hash := previous;
       share_data.coinbase := [x00; x00];
       share_data.nonce := 0;
       share_data.pubkey_hash := hash;
       share_data.subsidy := 5000000000;
       share_data.donation := 0;
       share_data.stale_info := None;
       share_data.desired_version := desired_version |} in
  let fi := {| FloatingInteger.bits := 0; FloatingInteger.target := target |} in
  let si :=
    {| share_info.share_data := sd;
       share_info.new_transaction_hashes := [];
       share_info.transaction_hash_refs := [];
       share_info.far_share_hash := None;
       share_info.max_bits := fi;
       share_info.bits := fi;
       share_info.timestamp := timestamp |} in
  let mh :=
    {| min_header.version := 2; min_header.previous_block := None;
       min_header.timestamp := timestamp;
       min_header.bits := {| FloatingInteger.bits := 0; FloatingInteger.target := 0 |};
       min_header.nonce := 0 |} in
  {| share.cls := cls; share.net := n; share.peer := None;
     share.min_header := mh;
     share.share_info := si;
     share.ref_merkle_link := no_link;
     share.last_txout_nonce := 0;
     share.hash_link := {| hash_link.state := []; hash_link.extra_data := [];
                           hash_link.length := 0 |};
     share.merkle_link := no_link;
     share.other_txs := None;
     share.hash := hash;
     share.share_data := sd;
     share.max_target := target;
     share.target := target;
     share.timestamp := timestamp;
     share.previous_hash := previous;
     share.new_script := bitcoin.pubkey_hash_to_script2 hash;
     share.desired_version := desired_version;
     share.gentx_hash := 0;
     share.header := block_header.of_min mh 0;
     share.pow_hash := target;
     share.header_hash := hash;
     share.new_transaction_hashes := [];
     share.time_seen := timestamp |}.

(** A chain of [n] shares with hashes [1 .. n], the share [k] on top of
    the share [k - 1], ten seconds apart; [vote k] is the desired version
    of the share [k]. *)
Definition chain_tracker (cls : ShareClass) (nt : Net.t) (target : Z) (vote : Z -> Z)
    (n : nat) : Tracker.t :=
  list_to_map
    (map (fun k : nat =>
            let h := Z.of_nat (S k) in
            (h, mk_share cls nt h (if (k =? 0)%nat then None else Some (h - 1))
                  target (1000 + 10 * h) (vote h)))
         (seq 0 n)).

Definition genesis_call : Result (share_info.t * tx.t * list Z) :=
  @generate_transaction bitcoin.imports NewNewShare ∅ genesis_data (2 ^ 224) 1000
    (2 ^ 256 - 1) no_link [] net None 0.
End example.

(** The chain of the weight scenarios: ten V9 shares of target [2 ^ 255],
    one average attempt and so a weight of 65535 each. *)
Definition ten_unit_shares : Tracker.t :=
  example.chain_tracker NewNewShare example.net (2 ^ 255) (fun _ => 9) 10.

(** The weights that the share [h] of that chain contributes. *)
Definition unit_weights (h : Z) : gmap bytes Z :=
  {[ bitcoin.pubkey_hash_to_script2 h := 65535 ]}.

(** Three V9 shares of target [2 ^ 255 - 1]: two average attempts and a
    weight of [2 * 65535] each; the delta of the first of them. *)
Definition three_double_shares : Tracker.t :=
  example.chain_tracker NewNewShare example.net (2 ^ 255 - 1) (fun _ => 9) 3.

Definition double_share_delta : WeightsSkipList.delta :=
  (1, {[ bitcoin.pubkey_hash_to_script2 1 := 2 * 65535 ]}, 2 * 65535, 0).

(** ** Vocabulary of the statements *)

(** Absorbing a buffer into a SHA-256 state: the state after the full
    blocks and the bytes left over, as [sha256.update] computes them. *)
Definition absorb (process : bytes -> bytes -> bytes) (st : bytes) (b : bytes)
    : bytes * bytes :=
  (fold_left process (removelast (sha256.chunks b)) st,
   List.last (sha256.chunks b) []).

(** The previous share [generate_transaction] looks up. *)
Definition previous_share_of (tracker : Tracker.t) (sd : share_data.t) : option share.t :=
  match share_data.previous_share_hash sd with
  | Some h => tracker !! h
  | None => None
  end.

(** The sum of the values of a list of outputs. *)
Definition sum_outputs (outs : list tx_out.t) : Z :=
  foldr Z.add 0 (tx_out.value <$> outs).

(** The outputs that pay a script: all of [tx_outs] but the last. *)
Definition payouts (amounts : gmap bytes Z) (dests : list bytes) : list tx_out.t :=
  map (fun script => {| tx_out.value := amounts !!! script; tx_out.script := script |})
      (List.filter
         (fun script => negb (amounts !!! script =? 0)
                        || bool_decide (script = DONATION_SCRIPT))
         dests).

Section Votes.
Context `{Imports}.

(** The work behind the votes for [version] among [shares], and the work
    behind all their votes. *)
Definition votes_for (version : Z) (shares : list share.t) : Z :=
  foldr Z.add 0
    (map (fun s => target_to_average_attempts (share.target s))
         (List.filter (fun s => share.desired_version s =? version) shares)).

Definition total_votes (shares : list share.t) : Z :=
  foldr Z.add 0 (map (fun s => target_to_average_attempts (share.target s)) shares).

(** One step of the loop of [get_desired_version_counts]. *)
Definition count_vote (res : gmap Z Z) (s : share.t) : gmap Z Z :=
  <[share.desired_version s :=
      default 0 (res !! share.desired_version s)
      + target_to_average_attempts (share.target s)]> res.
End Votes.

(** A test network with a chain length of 100 shares. *)
Definition net100 : Net.t :=
  {| Net.IDENTIFIER := decode_hex "fc70035c7a81bc6f";
     Net.SHARE_PERIOD := 30;
     Net.CHAIN_LENGTH := 100;
     Net.REAL_CHAIN_LENGTH := 100;
     Net.TARGET_LOOKBEHIND := 20;
     Net.SPREAD := 3;
     Net.MIN_TARGET := 0;
     Net.MAX_TARGET := 2 ^ 256 - 1;
     Net.PARENT_BLOCK_PERIOD := 600 |}.

(** A chain of 100 V7 shares of one average attempt each (target
    [2 ^ 255]); the shares 1 to 8 vote for version 9, the others for
    version 7. Seen from the share 100, the shares 10 down to 1 are the
    window of [CHAIN_LENGTH // 10] shares that starts at its
    [CHAIN_LENGTH * 9 // 10]-th ancestor: 80% of it votes for version 9. *)
Definition eighty_percent_chain : Tracker.t :=
  example.chain_tracker Share net100 (2 ^ 255) (fun h => if h <=? 8 then 9 else 7) 100.

Definition share_100 : share.t :=
  example.mk_share Share net100 100 (Some 99) (2 ^ 255) 2000 7.

(** A V9 share on top of the share 100 of that chain. *)
Definition v9_child : share.t :=
  example.mk_share NewNewShare net100 101 (Some 100) (2 ^ 255) 2010 9.

Section ConstructionVocabulary.
Context `{Imports}.

(** The proof-of-work hash of the header a V8 or V9 constructor rebuilds
    from [contents], whatever its checks say. *)
Definition reconstructed_pow_hash (cls : ShareClass) (net : Net.t) (c : contents.t)
    : Result Z :=
  gentx_hash ←
    check_hash_link (contents.hash_link c)
      (get_ref_hash cls net (contents.share_info c) (contents.ref_merkle_link c)
       ++ match cls with
          | NewNewShare => le_pack 4 (contents.last_txout_nonce c)
          | _ => []
          end
       ++ le_pack 4 0)
      (gentx_before_refhash cls);
  mret (PARENT_POW_FUNC net
          (block_header_type_pack
             (block_header.of_min (contents.min_header c)
                (check_merkle_link gentx_hash (contents.merkle_link c))))).

(** The same for the V7 constructor. *)
Definition reconstructed_pow_hash_v7 (net : Net.t) (c : common.t)
    (ml : merkle_link.t) : Result Z :=
  gentx_hash ←
    check_hash_link (common.hash_link c)
      (get_ref_hash Share net (common.share_info c) (common.ref_merkle_link c)
       ++ le_pack 4 0)
      (gentx_before_refhash Share);
  mret (PARENT_POW_FUNC net
          (block_header_type_pack
             (block_header.of_min (common.min_header c)
                (check_merkle_link gentx_hash ml)))).

(** The two loops of assertions over the transaction refs. *)
Definition refs_asserted (si : share_info.t) : bool :=
  forallb (fun x => tx_ref.share_count x <? 110) (share_info.transaction_hash_refs si)
  && forallb
       (fun i => bool_decide
          (tx_ref.mk 0 (Z.of_nat i) ∈ share_info.transaction_hash_refs si))
       (seq 0 (length (share_info.new_transaction_hashes si))).

(** The checks a V8 or V9 constructor makes before it looks at the
    targets: coinbase size, merkle branch length, empty [extra_data], the
    assertions over the refs. *)
Definition earlier_checks_pass (c : contents.t) : bool :=
  let coinbase := share_data.coinbase (share_info.share_data (contents.share_info c)) in
  (2 <=? len coinbase) && (len coinbase <=? 100)
  && (len (merkle_link.branch (contents.merkle_link c)) <=? 16)
  && bool_decide (hash_link.extra_data (contents.hash_link c) = [])
  && refs_asserted (contents.share_info c).

(** The checks the V7 constructor makes before the proof of work. *)
Definition earlier_checks_pass_v7 (c : common.t) (ml : merkle_link.t)
    (other_txs : option (list tx.t)) : bool :=
  let coinbase := share_data.coinbase (share_info.share_data (common.share_info c)) in
  (len coinbase <=? 100)
  && (len (merkle_link.branch ml) <=? 16)
  && negb (DEBUG
           && match other_txs with
              | Some txs =>
                  bool_decide
                    (calculate_merkle_link
                       (Some 0 :: map (fun x => Some (hash256 (tx_type_pack x))) txs) 0
                     ≠ ml)
              | None => false
              end)
  && bool_decide (hash_link.extra_data (common.hash_link c) = []).
End ConstructionVocabulary.

(** Contents for the constructors: a share info with the given coinbase,
    target, new transaction hashes and refs under a header with a zero
    target, and a hash link with the initial SHA-256 state and nothing
    hashed yet. *)
Definition example_share_info (coinbase : bytes) (target : Z) (new_hashes : list Z)
    (refs : list tx_ref.t) : share_info.t :=
  {| share_info.share_data :=
       {| share_data.previous_share_hash := None;
          share_data.coinbase := coinbase;
          share_data.nonce := 0;
          share_data.pubkey_hash := 0;
          share_data.subsidy := 5000000000;
          share_data.donation := 0;
          share_data.stale_info := None;
          share_data.desired_version := 9 |};
     share_info.new_transaction_hashes := new_hashes;
     share_info.transaction_hash_refs := refs;
     share_info.far_share_hash := None;
     share_info.max_bits := {| FloatingInteger.bits := 0; FloatingInteger.target := target |};
     share_info.bits := {| FloatingInteger.bits := 0; FloatingInteger.target := target |};
     share_info.timestamp := 1000 |}.

Definition example_min_header : min_header.t :=
  {| min_header.version := 2; min_header.previous_block := None;
     min_header.timestamp := 1000;
     min_header.bits := {| FloatingInteger.bits := 0; FloatingInteger.target := 0 |};
     min_header.nonce := 0 |}.

Definition example_hash_link : hash_link.t :=
  {| hash_link.state := sha256.initial_state; hash_link.extra_data := [];
     hash_link.length := 0 |}.

Definition example_contents (coinbase : bytes) (target : Z) (new_hashes : list Z)
    (refs : list tx_ref.t) : contents.t :=
  {| contents.min_header := example_min_header;
     contents.share_info := example_share_info coinbase target new_hashes refs;
     contents.ref_merkle_link := example.no_link;
     contents.last_txout_nonce := 0;
     contents.hash_link := example_hash_link;
     contents.merkle_link := example.no_link |}.

Definition example_common (coinbase : bytes) (target : Z) : common.t :=
  {| common.min_header := example_min_header;
     common.share_info := example_share_info coinbase target [] [];
     common.ref_merkle_link := example.no_link;
     common.hash_link := example_hash_link |}.

(** Inputs for the end of [think]: the share 100 of the chain above is the
    only head, the best tail has a rate of one attempt per second, and one
    parent is desired, by a chain whose recent shares have the target
    [2 ^ 255]. *)
Definition zero_bits : FloatingInteger.t :=
  {| FloatingInteger.bits := 0; FloatingInteger.target := 0 |}.

Definition think_example : Result (option Z * list (option Peer * Z) * list decorated_head) :=
  @think_return bitcoin.imports eighty_percent_chain net100 2100 None zero_bits ∅
    (Some (100, Some 1)) [((100, 0, -2000), 100)] [(None, 555, 2000, 2 ^ 255)].

(** The share data of a first share with a subsidy of 100 satoshi: the
    finder's half percent rounds down to 0. *)
Definition small_subsidy_data : share_data.t :=
  {| share_data.previous_share_hash := None;
     share_data.coinbase := [x00; x00];
     share_data.nonce := 0;
     share_data.pubkey_hash := 0;
     share_data.subsidy := 100;
     share_data.donation := 0;
     share_data.stale_info := None;
     share_data.desired_version := 9 |}.

(** * Further vocabulary and functions *)

(** The bookkeeping of a solution of the weights walk is balanced when its
    total weight is what its dictionaries hold plus the donation weight. *)
Definition balanced (sol : WeightsSkipList.solution) : Prop :=
  let '(_, weights_list, total_weight, total_donation_weight) := sol in
  total_weight = foldr Z.add 0 (sum_values <$> weights_list) + total_donation_weight.

(** What a transaction ref stands for, read on the lists [generate_transaction]
    works with: [share_count = 0] is the new share itself, with its own
    [new_transaction_hashes]; [share_count = i + 1] is the [i]-th share of
    the chain below it; [tx_count] indexes the announcements of that
    share. It is the lookup
    [tracker.items[tracker.get_nth_parent_hash(self.hash, share_count)]
     .share_info['new_transaction_hashes'][tx_count]] of [check]. *)
Definition ref_target (new_transaction_hashes : list Z) (chain : list share.t)
    (r : tx_ref.t) : option Z :=
  if (tx_ref.tx_count r <? 0) || (tx_ref.share_count r <? 0) then None
  else if tx_ref.share_count r =? 0
  then new_transaction_hashes !! Z.to_nat (tx_ref.tx_count r)
  else
    s ← chain !! Z.to_nat (tx_ref.share_count r - 1);
    share.new_transaction_hashes s !! Z.to_nat (tx_ref.tx_count r).

(** What the loop over the desired transaction hashes keeps true of the
    lists it builds: every ref stands for the hash at its position in
    [other_transaction_hashes], every announced hash has its ref
    [(0, i)], and no ref reaches below the chain. *)
Definition refs_invariant (chain : list share.t) (st : refs_state.t) : Prop :=
  map (ref_target (refs_state.new_transaction_hashes st) chain)
      (refs_state.transaction_hash_refs st)
  = map Some (refs_state.other_transaction_hashes st)
  /\ (forall i : nat,
        (i < length (refs_state.new_transaction_hashes st))%nat ->
        tx_ref.mk 0 (Z.of_nat i) ∈ refs_state.transaction_hash_refs st)
  /\ (forall r, r ∈ refs_state.transaction_hash_refs st ->
        0 <= tx_ref.share_count r <= Z.of_nat (length chain)).

(** The first test of [should_punish_reason]: the share was mined on other
    block data than the current ones, is not the current block itself, and
    came from a peer. *)
Definition block_stale (self : share.t) (previous_block : option Z)
    (bits : FloatingInteger.t) : bool :=
  bool_decide ((block_header.previous_block (share.header self),
                block_header.bits (share.header self)) ≠ (previous_block, bits))
  && bool_decide (Some (share.header_hash self) ≠ previous_block)
  && bool_decide (share.peer self ≠ None).

(** The second test: the proof of work meets the target of the block. *)
Definition solves_block (self : share.t) : bool :=
  share.pow_hash self <=? FloatingInteger.target (block_header.bits (share.header self)).

(** The share object [s] carrying the share info [si] instead of its own. *)
Definition with_share_info (s : share.t) (si : share_info.t) : share.t :=
  {| share.cls := share.cls s; share.net := share.net s; share.peer := share.peer s;
     share.min_header := share.min_header s;
     share.share_info := si;
     share.ref_merkle_link := share.ref_merkle_link s;
     share.last_txout_nonce := share.last_txout_nonce s;
     share.hash_link := share.hash_link s;
     share.merkle_link := share.merkle_link s;
     share.other_txs := share.other_txs s;
     share.hash := share.hash s;
     share.share_data := share_info.share_data si;
     share.max_target := share.max_target s;
     share.target := share.target s;
     share.timestamp := share_info.timestamp si;
     share.previous_hash := share_data.previous_share_hash (share_info.share_data si);
     share.new_script := share.new_script s;
     share.desired_version := share_data.desired_version (share_info.share_data si);
     share.gentx_hash := share.gentx_hash s;
     share.header := share.header s;
     share.pow_hash := share.pow_hash s;
     share.header_hash := share.header_hash s;
     share.new_transaction_hashes := share_info.new_transaction_hashes si;
     share.time_seen := share.time_seen s |}.

(** One known transaction, of hash 77. *)
Definition one_known_tx : gmap Z tx.t :=
  {[ 77 := {| tx.version := 1; tx.tx_ins := []; tx.tx_outs := []; tx.lock_time := 0 |} ]}.

(** The share info generated on top of a chain of one share for the
    desired transaction 77, which that chain has not announced. *)
Definition generated_info : share_info.t :=
  {| share_info.share_data := example.mk_share_data (Some 1);
     share_info.new_transaction_hashes := [77];
     share_info.transaction_hash_refs := [ {| tx_ref.share_count := 0; tx_ref.tx_count := 0 |} ];
     share_info.far_share_hash := None;
     share_info.max_bits := bitcoin.from_target_upper_bound (Net.MAX_TARGET example.net);
     share_info.bits := bitcoin.from_target_upper_bound (Net.MAX_TARGET example.net);
     share_info.timestamp := 1069 |}.

Definition generated_share : share.t :=
  with_share_info (example.mk_share NewNewShare example.net 2 (Some 1) (2 ^ 224) 1020 9)
    generated_info.

Section Blocks.
Context `{Imports}.

(** [as_block]: the block a share stands for, a dictionary with [header]
    and [txs]. V7 keeps its transactions in the share and raises without
    them; V8 and V9 look them up and answer [None] when one is missing. *)
Definition as_block (self : share.t) (tracker : Tracker.t) (known_txs : gmap Z tx.t)
    : Result (option (block_header.t * list tx.t)) :=
  match share.cls self with
  | Share =>
      match share.other_txs self with
      | None => Raise (ValueError "share does not contain all txs")
      | Some other_txs =>
          gentx ← check self tracker;
          mret (Some (share.header self, gentx :: other_txs))
      end
  | _ =>
      other_txs ← _get_other_txs self tracker known_txs;
      match other_txs with
      | None => Ok None
      | Some other_txs =>
          gentx ← check self tracker;
          mret (Some (share.header self, gentx :: other_txs))
      end
  end.
End Blocks.

Section ExpectedPayouts.
Context `{Imports}.

(** [get_expected_payouts]: the subsidy split by weight alone, the
    remainder going to the donation script. The division raises when there
    is a weight to divide and the total weight is zero. *)
Definition get_expected_payouts (tracker : Tracker.t) (best_share_hash : option Z)
    (block_target subsidy : Z) (net : Net.t) : Result (gmap bytes Z) :=
  '(weights, total_weight, donation_weight) ←
    WeightsSkipList.get_cumulative_weights tracker best_share_hash
      (Z.min (Tracker.get_height tracker best_share_hash) (Net.REAL_CHAIN_LENGTH net))
      (65535 * Net.SPREAD net * target_to_average_attempts block_target);
  if bool_decide (weights ≠ ∅) && (total_weight =? 0) then Raise ZeroDivisionError
  else
    let res : gmap bytes Z := (fun weight => subsidy * weight / total_weight) <$> weights in
    mret (<[DONATION_SCRIPT :=
              default 0 (res !! DONATION_SCRIPT) + subsidy - sum_values res]> res).
End ExpectedPayouts.

(** ** Sealing a generated share *)

#[global] Instance tx_out_eq_dec : EqDecision tx_out.t.
Proof. solve_decision. Defined.
#[global] Instance tx_in_eq_dec : EqDecision tx_in.t.
Proof. solve_decision. Defined.
#[global] Instance tx_eq_dec : EqDecision tx.t.
Proof. solve_decision. Defined.

(** [dict(header); del min_header['merkle_root']] *)
Definition min_header_of (header : block_header.t) : min_header.t :=
  {| min_header.version := block_header.version header;
     min_header.previous_block := block_header.previous_block header;
     min_header.timestamp := block_header.timestamp header;
     min_header.bits := block_header.bits header;
     min_header.nonce := block_header.nonce header |}.

Section GetShare.
Context `{Imports}.

(** The hash link [get_share] makes: the packed generation transaction
    without its tail (the ref hash, for V9 the nonce, and the lock time)
    has to end with [gentx_before_refhash]. *)
Definition get_share_hash_link (cls : ShareClass) (gentx : tx.t) : Result hash_link.t :=
  prefix_to_hash_link
    (slice_to (tx_type_pack gentx)
       match cls with
       | NewNewShare => - 32 - 4 - 4
       | _ => - 32 - 4
       end)
    (gentx_before_refhash cls).

(** The closure [get_share] that [generate_transaction] returns beside
    [share_info], [gentx] and the transaction hashes, which it captures
    with [net] and, in V9, [last_txout_nonce]: it seals a share under a
    block header. V7 is handed the transactions of the block and keeps
    them if the header solves the block. *)
Definition get_share (cls : ShareClass) (net : Net.t) (si : share_info.t) (gentx : tx.t)
    (other_transaction_hashes : list Z) (last_txout_nonce : Z)
    (header : block_header.t) (transactions : list tx.t) (now : Z) : Result share.t :=
  let ref_merkle_link := {| merkle_link.branch := []; merkle_link.index := 0 |} in
  match cls with
  | Share =>
      first ← match transactions with
              | [] => Raise IndexError
              | t :: _ => Ok t
              end;
      _ ← assert (bool_decide (first = gentx)
                  && bool_decide (map (fun x => hash256 (tx_type_pack x)) (tail transactions)
                                  = other_transaction_hashes));
      hash_link ← get_share_hash_link cls gentx;
      let merkle_link :=
        calculate_merkle_link (None :: map Some other_transaction_hashes) 0 in
      let pow_hash := PARENT_POW_FUNC net (block_header_type_pack header) in
      Share_init net None
        {| common.min_header := min_header_of header;
           common.share_info := si;
           common.ref_merkle_link := ref_merkle_link;
           common.hash_link := hash_link |}
        merkle_link
        (if pow_hash <=? FloatingInteger.target (block_header.bits header)
         then Some (tail transactions) else None)
        now
  | _ =>
      hash_link ← get_share_hash_link cls gentx;
      init_with_refs cls net None
        {| contents.min_header := min_header_of header;
           contents.share_info := si;
           contents.ref_merkle_link := ref_merkle_link;
           contents.last_txout_nonce :=
             match cls with NewNewShare => last_txout_nonce | _ => 0 end;
           contents.hash_link := hash_link;
           contents.merkle_link :=
             calculate_merkle_link (None :: map Some other_transaction_hashes) 0 |}
        now
  end.

End GetShare.

(** A block header for the sealing of an example share. *)
Definition example_header : block_header.t :=
  block_header.of_min example_min_header 0.

(** Generating on an empty tracker and sealing the result, V9. *)
Definition sealed_example : Result share.t :=
  '(si, gentx, others) ←
    @generate_transaction bitcoin.imports NewNewShare ∅ example.genesis_data (2 ^ 224)
      1000 (2 ^ 256 - 1) example.no_link [] net100 None 7;
  @get_share bitcoin.imports NewNewShare net100 si gentx others 7 example_header [] 2000.

(** ** Verification *)

Section Verify.
Context `{Imports}.

(** [OkayTracker.attempt_verify]: [tracker] is [self.items], [verified]
    is [self.verified.items]; the result carries the verified shares
    after the call. Whatever [check] raises is caught and reported as
    [False]. Modelled from the spec: [self.verified.add(share)] belongs to
    [p2pool.util.forest], which is not part of the source file; the spec
    has the verified tracker as "a subset view" of the forest "keyed by
    share hash" that "holds the cryptographically verified shares": the
    share enters it under its hash. *)
Definition attempt_verify (tracker verified : Tracker.t) (net : Net.t) (s : share.t)
    : Result (bool * Tracker.t) :=
  if bool_decide (is_Some (verified !! share.hash s)) then Ok (true, verified)
  else
    let '(height, last) := Tracker.get_height_and_last tracker (Some (share.hash s)) in
    if (height <? Net.CHAIN_LENGTH net + 1) && bool_decide (last ≠ None)
    then Raise AssertionError
    else
      match check s tracker with
      | Raise _ => Ok (false, verified)
      | Ok _ => Ok (true, <[share.hash s := s]> verified)
      end.
End Verify.

(** The sealed example share, put into a tracker of its own and
    verified. *)
Definition verify_example : Result (bool * Tracker.t) :=
  s ← sealed_example;
  @attempt_verify bitcoin.imports {[ share.hash s := s ]} ∅ net100 s.

(** ** The share store *)

(** [ShareStore] after [get_shares] has run. The files of the store are
    the directory entries [prefix ++ str(n)], kept here by their number
    [n] with their lines (each written with a newline after it); [known]
    and [known_desired] map a file to its set of share hashes and its set
    of verified hashes. Failing disk operations other than the removal of
    a missing file are not modelled. *)
Module ShareStore.
Abbreviation index := (gmap N (gset Z * gset Z)).
Record t : Type := mk {
  files : gmap N (list string);
  known : index;
  known_desired : index }.

(** What a method of the store can raise: [dict.pop] on a missing key,
    [os.remove] on a missing file. *)
Inductive error : Type := PopKeyError | RemoveOSError.
End ShareStore.

(** [os.path.getsize]: every line takes its length and a newline. *)
Definition getsize (lines : list string) : Z :=
  foldr Z.add 0 (map (fun l => Z.of_nat (String.length l) + 1) lines).

(** [d.setdefault(filename, (set(), set()))] followed by [.add(h)] on the
    first or on the second set. *)
Definition add_share_hash (filename : N) (h : Z) (d : ShareStore.index) : ShareStore.index :=
  let '(share_hashes, verified_hashes) := default (∅, ∅) (d !! filename) in
  <[filename := (share_hashes ∪ {[h]}, verified_hashes)]> d.

Definition add_verified (filename : N) (h : Z) (d : ShareStore.index) : ShareStore.index :=
  let '(share_hashes, verified_hashes) := default (∅, ∅) (d !! filename) in
  <[filename := (share_hashes, verified_hashes ∪ {[h]})]> d.

Section Store.
(** [dict.iteritems()]: the order in which a dictionary is walked is not
    specified; [order] is any listing of its items. *)
Variable order : ShareStore.index -> list (N * (gset Z * gset Z)).
(** The line written for a share,
    ["%i %s" % (5, share_type.pack(share.as_share()).encode('hex'))], and
    for a verified hash, ["%i %x" % (2, share_hash)]; what they hold
    plays no part below. *)
Variable share_line : share.t -> string.
Variable verified_line : Z -> string.

Definition get_filenames_and_next (st : ShareStore.t) : list N * N :=
  let suffixes := merge_sort N.le (elements (dom (ShareStore.files st))) in
  (suffixes, match last suffixes with Some n => (n + 1)%N | None => 0%N end).

(** [_add_line]: the last file while it is under 10 MB, a new file after
    it otherwise; returns the file written to. *)
Definition _add_line (st : ShareStore.t) (line : string) : N * ShareStore.t :=
  let '(filenames, next) := get_filenames_and_next st in
  let filename :=
    match last filenames with
    | Some f =>
        if getsize (default [] (ShareStore.files st !! f)) <? 10000000 then f else next
    | None => next
    end in
  (filename,
   {| ShareStore.files :=
        <[filename := default [] (ShareStore.files st !! filename) ++ [line]]>
          (ShareStore.files st);
      ShareStore.known := ShareStore.known st;
      ShareStore.known_desired := ShareStore.known_desired st |}).

Definition add_share (st : ShareStore.t) (s : share.t) : ShareStore.t :=
  let '(filename, st1) :=
    match List.find (fun '(_, (share_hashes, _)) => bool_decide (share.hash s ∈ share_hashes))
                    (order (ShareStore.known st)) with
    | Some (filename, _) => (filename, st)
    | None =>
        let '(filename, st') := _add_line st (share_line s) in
        (filename,
         {| ShareStore.files := ShareStore.files st';
            ShareStore.known := add_share_hash filename (share.hash s) (ShareStore.known st');
            ShareStore.known_desired := ShareStore.known_desired st' |})
    end in
  {| ShareStore.files := ShareStore.files st1;
     ShareStore.known := ShareStore.known st1;
     ShareStore.known_desired :=
       add_share_hash filename (share.hash s) (ShareStore.known_desired st1) |}.

Definition add_verified_hash (st : ShareStore.t) (share_hash : Z) : ShareStore.t :=
  let '(filename, st1) :=
    match List.find (fun '(_, (_, verified_hashes)) => bool_decide (share_hash ∈ verified_hashes))
                    (order (ShareStore.known st)) with
    | Some (filename, _) => (filename, st)
    | None =>
        let '(filename, st') := _add_line st (verified_line share_hash) in
        (filename,
         {| ShareStore.files := ShareStore.files st';
            ShareStore.known := add_verified filename share_hash (ShareStore.known st');
            ShareStore.known_desired := ShareStore.known_desired st' |})
    end in
  {| ShareStore.files := ShareStore.files st1;
     ShareStore.known := ShareStore.known st1;
     ShareStore.known_desired :=
       add_verified filename share_hash (ShareStore.known_desired st1) |}.
End Store.

(** One turn of the second loop of [check_remove]. *)
Definition remove_file (st : ShareStore.t) (filename : N) : ShareStore.error + ShareStore.t :=
  match ShareStore.known st !! filename with
  | None => inl ShareStore.PopKeyError
  | Some _ =>
      match ShareStore.files st !! filename with
      | None => inl ShareStore.RemoveOSError
      | Some _ =>
          inr {| ShareStore.files := delete filename (ShareStore.files st);
                 ShareStore.known := delete filename (ShareStore.known st);
                 ShareStore.known_desired := delete filename (ShareStore.known_desired st) |}
      end
  end.

Fixpoint remove_files (st : ShareStore.t) (to_remove : list N)
    : ShareStore.error + ShareStore.t :=
  match to_remove with
  | [] => inr st
  | filename :: rest =>
      match remove_file st filename with
      | inl e => inl e
      | inr st' => remove_files st' rest
      end
  end.

(** [check_remove]: the files none of whose hashes is desired any more go.
    The set [to_remove] is walked in the order of its elements; the order
    only decides which exception comes first when two are due. *)
Definition check_remove (st : ShareStore.t) : ShareStore.error + ShareStore.t :=
  let to_remove : gset N :=
    dom (filter (fun kv => fst (snd kv) = ∅ /\ snd (snd kv) = ∅) (ShareStore.known_desired st)) in
  remove_files st (elements to_remove).

Definition forget_share (st : ShareStore.t) (share_hash : Z)
    : ShareStore.error + ShareStore.t :=
  check_remove
    {| ShareStore.files := ShareStore.files st;
       ShareStore.known := ShareStore.known st;
       ShareStore.known_desired :=
         (fun '(share_hashes, verified_hashes) =>
            (share_hashes ∖ {[share_hash]}, verified_hashes))
         <$> ShareStore.known_desired st |}.

Definition forget_verified_share (st : ShareStore.t) (share_hash : Z)
    : ShareStore.error + ShareStore.t :=
  check_remove
    {| ShareStore.files := ShareStore.files st;
       ShareStore.known := ShareStore.known st;
       ShareStore.known_desired :=
         (fun '(share_hashes, verified_hashes) =>
            (share_hashes, verified_hashes ∖ {[share_hash]}))
         <$> ShareStore.known_desired st |}.

(** The store is consistent when every file with desired hashes is a
    known file, and every known file is on disk. *)
Definition store_consistent (st : ShareStore.t) : Prop :=
  dom (ShareStore.known_desired st) ⊆ dom (ShareStore.known st)
  /\ dom (ShareStore.known st) ⊆ dom (ShareStore.files st).

(** A store of one file holding the share of hash 1, still desired. *)
Definition example_store : ShareStore.t :=
  {| ShareStore.files := {[ 0%N := ["5 00"%string] ]};
     ShareStore.known := {[ 0%N := ({[ 1 ]}, ∅) ]};
     ShareStore.known_desired := {[ 0%N := ({[ 1 ]}, ∅) ]} |}.

(** The items of a dictionary, in the order of the keys. *)
Definition items_in_key_order (d : ShareStore.index) : list (N * (gset Z * gset Z)) :=
  map_to_list d.

(** ** The succession gate on a valid share *)

(** A V9 share generated on top of the share 100 of a chain of 100 V7
    shares, and sealed under a header (of a block target of 0) with the
    given nonce. *)
Definition sealed_v9_child (tracker : Tracker.t) (nonce : Z) : Result share.t :=
  let header :=
    {| block_header.version := 2; block_header.previous_block := None;
       block_header.timestamp := 2010; block_header.bits := zero_bits;
       block_header.nonce := nonce; block_header.merkle_root := 0 |} in
  '(si, gentx, others) ←
    @generate_transaction bitcoin.imports NewNewShare tracker
      (example.mk_share_data (Some 100)) 0 2010 (2 ^ 256 - 1) example.no_link []
      net100 None 0;
  @get_share bitcoin.imports NewNewShare net100 si gentx others 0 header [] 2100.

(** [check] on that share, against the chain. *)
Definition checked_v9_child (tracker : Tracker.t) (nonce : Z) : Result tx.t :=
  s ← sealed_v9_child tracker nonce;
  @check bitcoin.imports s tracker.

(** The chain of [eighty_percent_chain] with one vote less: the shares 1
    to 7 vote for version 9, 70% of the window. *)
Definition seventy_percent_chain : Tracker.t :=
  example.chain_tracker Share net100 (2 ^ 255) (fun h => if h <=? 7 then 9 else 7) 100.

(** ** A share received from a peer *)

(** The share [s] as received from [peer]. *)
Definition received_from (peer : Peer) (s : share.t) : share.t :=
  {| share.cls := share.cls s; share.net := share.net s; share.peer := Some peer;
     share.min_header := share.min_header s;
     share.share_info := share.share_info s;
     share.ref_merkle_link := share.ref_merkle_link s;
     share.last_txout_nonce := share.last_txout_nonce s;
     share.hash_link := share.hash_link s;
     share.merkle_link := share.merkle_link s;
     share.other_txs := share.other_txs s;
     share.hash := share.hash s;
     share.share_data := share.share_data s;
     share.max_target := share.max_target s;
     share.target := share.target s;
     share.timestamp := share.timestamp s;
     share.previous_hash := share.previous_hash s;
     share.new_script := share.new_script s;
     share.desired_version := share.desired_version s;
     share.gentx_hash := share.gentx_hash s;
     share.header := share.header s;
     share.pow_hash := share.pow_hash s;
     share.header_hash := share.header_hash s;
     share.new_transaction_hashes := share.new_transaction_hashes s;
     share.time_seen := share.time_seen s |}.

(** A V9 share received from the peer 1, on a header without a previous
    block and of other bits than [zero_bits]. *)
Definition received_example : share.t :=
  received_from 1 (example.mk_share NewNewShare net100 1 None (2 ^ 255) 2000 9).

Definition other_bits : FloatingInteger.t :=
  {| FloatingInteger.bits := 1; FloatingInteger.target := 1 |}.

(** ** A ref into the V7 part of the chain *)

(** The V9 share [v9_child] with one transaction ref, to the first new
    transaction of its parent, kept in the tracker on top of the chain of
    V7 shares. *)
Definition v9_child_with_ref : share.t :=
  let si := share.share_info v9_child in
  with_share_info v9_child
    {| share_info.share_data := share_info.share_data si;
       share_info.new_transaction_hashes := share_info.new_transaction_hashes si;
       share_info.transaction_hash_refs := [tx_ref.mk 1 0];
       share_info.far_share_hash := share_info.far_share_hash si;
       share_info.max_bits := share_info.max_bits si;
       share_info.bits := share_info.bits si;
       share_info.timestamp := share_info.timestamp si |}.

Definition chain_with_v9_child : Tracker.t :=
  <[ 101 := v9_child_with_ref ]> eighty_percent_chain.

(** * Properties *)

(** The FIPS 180-4 test vector for the one-block message [abc]. *)
Example sha256_abc :
  hashlib_sha256 (decode_hex "616263")
  = decode_hex "ba7816bf8f01cfea414140de5dae2223b00361a396177a9cb410ff61f20015ad".
Proof. vm_compute. reflexivity. Qed.


(** ** Hash links *)

Section MidstateFacts.
Variable process : bytes -> bytes -> bytes.

Lemma chunks_short (b : bytes) :
  (length b < 64)%nat -> sha256.chunks b = [b].
Proof.
  intros Hb. unfold sha256.chunks, sha256.block_size.
  rewrite Nat.div_small by exact Hb. simpl.
  rewrite drop_0. by rewrite take_ge by lia.
Qed.

Lemma chunks_long (b : bytes) :
  (64 <= length b)%nat ->
  sha256.chunks b = take 64 b :: sha256.chunks (drop 64 b).
Proof.
  intros Hb. unfold sha256.chunks, sha256.block_size.
  rewrite length_drop.
  replace (length b) with ((length b - 64) + 1 * 64)%nat at 1 by lia.
  rewrite Nat.div_add by lia.
  replace ((length b - 64) / 64 + 1 + 1)%nat with (S ((length b - 64) / 64 + 1)) by lia.
  rewrite <- cons_seq. cbn [map]. rewrite Nat.mul_0_r, drop_0. f_equal.
  rewrite <- seq_shift, map_map. apply map_ext. intros i.
  rewrite drop_drop. do 2 f_equal. lia.
Qed.

Lemma chunks_nonempty (b : bytes) : sha256.chunks b <> [].
Proof.
  unfold sha256.chunks. rewrite Nat.add_1_r. rewrite <- cons_seq. discriminate.
Qed.

Lemma absorb_short st b : (length b < 64)%nat -> absorb process st b = (st, b).
Proof. intros Hb. unfold absorb. by rewrite chunks_short. Qed.

Lemma absorb_long st b :
  (64 <= length b)%nat ->
  absorb process st b = absorb process (process st (take 64 b)) (drop 64 b).
Proof.
  intros Hb. unfold absorb. rewrite (chunks_long b Hb).
  pose proof (chunks_nonempty (drop 64 b)) as Hne.
  destruct (sha256.chunks (drop 64 b)) as [|c cs] eqn:E; [done|].
  reflexivity.
Qed.

Lemma absorb_app_aux (n : nat) : forall st b m,
  (length b <= n)%nat ->
  absorb process st (b ++ m) = absorb process (fst (absorb process st b)) (snd (absorb process st b) ++ m).
Proof.
  induction n as [|n IH]; intros st b m Hn.
  - destruct b; [|simpl in Hn; lia].
    by rewrite (absorb_short st []) by (simpl; lia).
  - destruct (decide (length b < 64)%nat) as [Hs|Hl].
    + by rewrite (absorb_short st b Hs).
    + rewrite (absorb_long st b) by lia.
      rewrite (absorb_long st (b ++ m)) by (rewrite length_app; lia).
      rewrite take_app_le, drop_app_le by lia.
      apply IH. rewrite length_drop. lia.
Qed.

Lemma absorb_app st b m :
  absorb process st (b ++ m) = absorb process (fst (absorb process st b)) (snd (absorb process st b) ++ m).
Proof. by apply (absorb_app_aux (length b)). Qed.

Lemma absorb_buf_aux (n : nat) : forall st b,
  (length b <= n)%nat ->
  snd (absorb process st b) = drop (length b - length b mod 64) b.
Proof.
  induction n as [|n IH]; intros st b Hn.
  - destruct b; [|simpl in Hn; lia]. by rewrite absorb_short by (simpl; lia).
  - destruct (decide (length b < 64)%nat) as [Hs|Hl].
    + rewrite (absorb_short st b Hs). cbn [snd].
      rewrite Nat.mod_small by lia. by rewrite Nat.sub_diag, drop_0.
    + rewrite (absorb_long st b) by lia.
      rewrite IH by (rewrite length_drop; lia).
      rewrite length_drop, drop_drop.
      assert (length b mod 64 = (length b - 64) mod 64)%nat as ->.
      { replace (length b) with ((length b - 64) + 1 * 64)%nat at 1 by lia.
        apply Nat.Div0.mod_add. }
      f_equal.
      pose proof (Nat.Div0.mod_le (length b - 64) 64). lia.
Qed.

Lemma absorb_buf st b :
  snd (absorb process st b) = drop (length b - length b mod 64) b.
Proof. by apply (absorb_buf_aux (length b)). Qed.

Lemma absorb_buf_length st b :
  length (snd (absorb process st b)) = (length b mod 64)%nat.
Proof.
  rewrite absorb_buf, length_drop.
  pose proof (Nat.Div0.mod_le (length b) 64). lia.
Qed.

Lemma update_absorb (x : sha256.t) data :
  sha256.update process x data
  = {| sha256.state := fst (absorb process (sha256.state x) (sha256.buf x ++ data));
       sha256.buf := snd (absorb process (sha256.state x) (sha256.buf x ++ data));
       sha256.length := sha256.length x + 8 * Z.of_nat (length data) |}.
Proof. reflexivity. Qed.

Lemma new_absorb init data :
  sha256.new process init data
  = {| sha256.state := fst (absorb process init data);
       sha256.buf := snd (absorb process init data);
       sha256.length := 8 * Z.of_nat (length data) |}.
Proof. reflexivity. Qed.

(** Resuming from a midstate is the same as hashing the whole input. *)
Lemma new_from_midstate init prefix data :
  sha256.new_from process data
    (fst (absorb process init prefix), snd (absorb process init prefix),
     8 * Z.of_nat (length prefix))
  = sha256.new process init (prefix ++ data).
Proof.
  rewrite new_absorb. unfold sha256.new_from. rewrite update_absorb.
  cbn [sha256.state sha256.buf sha256.length].
  rewrite <- absorb_app. f_equal.
  rewrite length_app, Nat2Z.inj_add. lia.
Qed.
End MidstateFacts.

Lemma endswith_drop (s e : bytes) :
  endswith s e = true ->
  (length e <= length s)%nat /\ drop (length s - length e) s = e.
Proof.
  unfold endswith. intros Hd%bool_decide_eq_true. split; [|exact Hd].
  apply (f_equal length) in Hd. rewrite length_drop in Hd. lia.
Qed.

(** What [check_hash_link] rebuilds from [extra_data] and [const_ending] is
    the buffered tail of the prefix. *)
Lemma extra_reconstructed (prefix ce : bytes) :
  endswith prefix ce = true ->
  let buf := drop (length prefix - length prefix mod 64) prefix in
  let ed := slice_to buf (Z.max 0 (len buf - len ce)) in
  len ed = Z.max 0 (Z.of_nat (length prefix) mod 64 - len ce)
  /\ slice_from (ed ++ ce) (len ed + len ce - Z.of_nat (length prefix) mod 64) = buf.
Proof.
  intros [Hle Hce]%endswith_drop buf ed.
  pose proof (Nat.Div0.mod_le (length prefix) 64) as Hr.
  set (r := (length prefix mod 64)%nat) in *.
  assert (Hbuf : length buf = r) by (unfold buf; rewrite length_drop; lia).
  assert (Hmod : Z.of_nat (length prefix) mod 64 = Z.of_nat r).
  { unfold r. by rewrite Nat2Z.inj_mod. }
  assert (Hed : ed = take (r - length ce) buf).
  { unfold ed, slice_to, len. rewrite Hbuf.
    destruct (Z.ltb_spec (Z.max 0 (Z.of_nat r - Z.of_nat (length ce))) 0); [lia|].
    f_equal. lia. }
  assert (Hlen : length ed = (r - length ce)%nat).
  { rewrite Hed, length_take. lia. }
  rewrite Hmod. unfold len at 1. rewrite Hlen. split; [unfold len; lia|].
  unfold slice_from, len. rewrite Hlen.
  destruct (Z.ltb_spec (Z.of_nat (r - length ce) + Z.of_nat (length ce) - Z.of_nat r) 0);
    [lia|].
  destruct (decide (length ce <= r)%nat) as [Hc|Hc].
  - replace (Z.to_nat _) with 0%nat by lia. rewrite drop_0, Hed.
    rewrite <- (take_drop (r - length ce) buf) at 2. f_equal.
    unfold buf. rewrite drop_drop, <- Hce at 1. f_equal. lia.
  - replace (Z.to_nat _) with (length ce - r)%nat by lia.
    rewrite Hed. replace (r - length ce)%nat with 0%nat by lia.
    rewrite take_0, app_nil_l. rewrite <- Hce at 2. rewrite drop_drop.
    unfold buf. f_equal. lia.
Qed.

(** C3. For a prefix that ends with [const_ending], the hash link made by
    [prefix_to_hash_link] completes, for every [data], to the double SHA-256
    of [prefix ++ data] read as a 256-bit integer: [check_hash_link] returns
    [hash256 (prefix ++ data)]. *)
Theorem check_hash_link_of_prefix (prefix const_ending data : bytes) :
  endswith prefix const_ending = true ->
  exists link,
    prefix_to_hash_link prefix const_ending = Ok link
    /\ check_hash_link link data const_ending = Ok (hash256 (prefix ++ data)).
Proof.
  intros Hends. unfold prefix_to_hash_link. rewrite Hends.
  eexists. split; [reflexivity|].
  destruct (extra_reconstructed prefix const_ending Hends) as [Hlen Hextra].
  rewrite (new_absorb sha256.process sha256.initial_state prefix).
  unfold check_hash_link.
  cbn [hash_link.state hash_link.extra_data hash_link.length
       sha256.state sha256.buf sha256.length].
  rewrite (Z.mul_comm 8 (Z.of_nat (length prefix))), Z.div_mul by lia.
  change (512 / 8) with 64.
  rewrite (absorb_buf sha256.process sha256.initial_state prefix).
  rewrite Hextra, Hlen, Z.eqb_refl. cbn [assert mbind Result_bind].
  assert (Hb : len (drop (length prefix - length prefix mod 64) prefix)
               = Z.of_nat (length prefix) mod 64).
  { unfold len. rewrite length_drop.
    pose proof (Nat.Div0.mod_le (length prefix) 64).
    transitivity (Z.of_nat (length prefix mod 64)); [f_equal; lia|].
    by rewrite Nat2Z.inj_mod. }
  rewrite Hb, Z.eqb_refl. cbn [assert mbind Result_bind mret Result_ret].
  rewrite <- (absorb_buf sha256.process sha256.initial_state prefix).
  rewrite new_from_midstate. reflexivity.
Qed.

Lemma check_hash_link_of_prefix_witness :
  exists link,
    prefix_to_hash_link (decode_hex "0102030405") (decode_hex "0405") = Ok link
    /\ check_hash_link link (decode_hex "0607") (decode_hex "0405")
       = Ok (hash256 (decode_hex "0102030405" ++ decode_hex "0607")).
Proof. apply check_hash_link_of_prefix. vm_compute. reflexivity. Defined.

(** ** Reasoning about [Result] *)

Lemma bind_Ok_inv {A B} (f : A -> Result B) (r : Result A) (b : B) :
  r ≫= f = Ok b -> exists a, r = Ok a /\ f a = Ok b.
Proof. destruct r as [a|e]; [eauto | discriminate]. Qed.

Lemma assert_Ok_inv (c : bool) (u : unit) : assert c = Ok u -> c = true.
Proof. by destruct c. Qed.

Lemma fmap_Ok_inv {A B} (f : A -> B) (r : Result A) (b : B) :
  f <$> r = Ok b -> exists a, r = Ok a /\ b = f a.
Proof. destruct r as [a|e]; [intros [= <-]; eauto | discriminate]. Qed.

Lemma is_Ok_true {A} (r : Result A) : is_Ok r = true -> exists a, r = Ok a.
Proof. destruct r as [a|e]; [eauto | discriminate]. Qed.

Lemma getitem_Ok `{Countable K} {V} (d : gmap K V) (k : K) (v : V) :
  getitem d k = Ok v <-> d !! k = Some v.
Proof. unfold getitem. destruct (d !! k); split; congruence. Qed.

(** Peels the next step of a computation in [Result] that is known to
    return. *)
(** Membership in a list of literals. *)
Ltac in_literals := apply list_elem_of_In; cbn; tauto.

Ltac inv_Ok H :=
  lazymatch type of H with
  | (assert ?c ≫= _) = Ok _ =>
      let u := fresh "u" in let Hc := fresh "Hc" in
      apply bind_Ok_inv in H as (u & Hc & H); apply assert_Ok_inv in Hc
  | (_ ≫= _) = Ok _ =>
      let a := fresh "a" in let Ha := fresh "Ha" in
      apply bind_Ok_inv in H as (a & Ha & H)
  | (if ?c then Raise _ else _) = Ok _ =>
      let Hc := fresh "Hc" in destruct c eqn:Hc; [discriminate H|]
  | (let '(_, _) := ?p in _) = Ok _ =>
      let x := fresh "x" in let y := fresh "y" in let Hp := fresh "Hp" in
      destruct p as [x y] eqn:Hp
  | mret _ = Ok _ => injection H as H
  | Ok _ = Ok _ => injection H as H
  end.

(** ** [generate_transaction]: what a returned triple is made of *)

Section GenerateTransactionFacts.
Context `{Imports}.

Lemma generate_transaction_inv (cls : ShareClass) (tracker : Tracker.t)
    (sd : share_data.t) (block_target desired_timestamp desired_target : Z)
    (ref_merkle_link : merkle_link.t) (desired : list Z) (net : Net.t)
    (known_txs : option (gmap Z tx.t)) (last_txout_nonce : Z)
    (si : share_info.t) (gentx : tx.t) (others : list Z) :
  generate_transaction cls tracker sd block_target desired_timestamp desired_target
    ref_merkle_link desired net known_txs last_txout_nonce = Ok (si, gentx, others) ->
  (forall h, share_data.previous_share_hash sd = Some h -> is_Some (tracker !! h))
  /\ exists weights total_weight donation_weight amounts,
    WeightsSkipList.get_cumulative_weights tracker (share_data.previous_share_hash sd)
      (Z.min (Tracker.get_height tracker (share_data.previous_share_hash sd))
             (Net.REAL_CHAIN_LENGTH net))
      (65535 * Net.SPREAD net * target_to_average_attempts block_target)
    = Ok (weights, total_weight, donation_weight)
    /\ compute_amounts (share_data.subsidy sd) weights total_weight
      (pubkey_hash_to_script2 (share_data.pubkey_hash sd)) = Ok amounts
    /\ share_info.share_data si = sd
    /\ share_info.timestamp si
       = compute_timestamp (previous_share_of tracker sd) net desired_timestamp
    /\ tx.tx_outs gentx
       = compute_tx_outs amounts (compute_dests amounts)
           (ref_script cls (get_ref_hash cls net si ref_merkle_link) last_txout_nonce).
Proof.
  unfold generate_transaction. intros Hg.
  inv_Ok Hg. inv_Ok Hg. inv_Ok Hg. inv_Ok Hg. inv_Ok Hg.
  destruct a1 as [[weights total_weight] donation_weight].
  inv_Ok Hg. inv_Ok Hg. inv_Ok Hg. inv_Ok Hg.
  injection Hg as <- <- <-.
  assert (Hprev : a = previous_share_of tracker sd
                  /\ forall h, share_data.previous_share_hash sd = Some h ->
                               is_Some (tracker !! h)).
  { unfold previous_share_of. destruct (share_data.previous_share_hash sd) as [h|].
    - apply fmap_Ok_inv in Ha as (p & Hget%getitem_Ok & ->). rewrite Hget.
      split; [done|]. intros h' [= <-]. eauto.
    - injection Ha as <-. split; [done|]. discriminate. }
  destruct Hprev as [-> Hprev]. split; [exact Hprev|].
  exists weights, total_weight, donation_weight, a1.
  repeat split; try reflexivity; [|exact Ha2].
  unfold Tracker.get_height. rewrite Hp. exact Ha1.
Qed.
End GenerateTransactionFacts.

(** ** Sums over dictionaries *)

Section SumValues.
Context `{Countable K}.
Implicit Types m : gmap K Z.

Lemma sum_values_empty : sum_values (∅ : gmap K Z) = 0.
Proof. unfold sum_values. by rewrite map_fold_empty. Qed.

Lemma sum_values_insert_None m k v :
  m !! k = None -> sum_values (<[k:=v]> m) = v + sum_values m.
Proof.
  intros Hk. unfold sum_values.
  rewrite map_fold_insert_L; [done| |done]. intros; lia.
Qed.

Lemma sum_values_delete m k v :
  m !! k = Some v -> sum_values m = v + sum_values (delete k m).
Proof.
  intros Hk. unfold sum_values.
  rewrite (map_fold_delete_L _ _ k v m); [done| |done]. intros; lia.
Qed.

(** [d[k] = v] changes the sum by [v] minus what was there. *)
Lemma sum_values_insert m k v :
  sum_values (<[k:=v]> m) = v + sum_values m - default 0 (m !! k).
Proof.
  destruct (m !! k) as [x|] eqn:Hk; cbn.
  - rewrite <- insert_delete_eq.
    rewrite sum_values_insert_None by apply lookup_delete_eq.
    rewrite (sum_values_delete m k x Hk). lia.
  - rewrite sum_values_insert_None by done. lia.
Qed.

Lemma sum_values_list m :
  sum_values m = foldr Z.add 0 (snd <$> map_to_list m).
Proof.
  induction m as [|k v m Hk IH] using map_ind.
  - by rewrite sum_values_empty, map_to_list_empty.
  - rewrite sum_values_insert_None by done.
    rewrite (foldr_permutation_proper (=) Z.add 0 (ltac:(intros; lia)) _ _
               (fmap_Permutation snd _ _ (map_to_list_insert m k v Hk))).
    cbn. by rewrite IH.
Qed.
End SumValues.

(** ** The payout split *)

Section Payout.
Context `{Imports}.

Lemma add_residue_sum (subsidy : Z) (amounts : gmap bytes Z) :
  sum_values (add_residue subsidy amounts) = subsidy.
Proof. unfold add_residue. rewrite sum_values_insert. lia. Qed.

Lemma split_amounts_sum (subsidy : Z) (weights : gmap bytes Z) (total_weight : Z)
    (this_script : bytes) :
  sum_values (split_amounts subsidy weights total_weight this_script) = subsidy.
Proof. apply add_residue_sum. Qed.

Lemma any_negative_false (amounts : gmap bytes Z) :
  any_negative amounts = false <->
  forall script a, amounts !! script = Some a -> 0 <= a.
Proof.
  unfold any_negative. rewrite <- not_true_iff_false, existsb_exists. split.
  - intros Hno script a Ha. destruct (Z.ltb_spec a 0) as [Hlt|]; [|done].
    exfalso. apply Hno. exists (script, a). split.
    + apply list_elem_of_In, elem_of_map_to_list, Ha.
    + by apply Z.ltb_lt.
  - intros Hall [[script a] [Hin Hlt]].
    apply list_elem_of_In, elem_of_map_to_list in Hin.
    apply Z.ltb_lt in Hlt. specialize (Hall script a Hin). simpl in Hlt. lia.
Qed.

Lemma compute_dests_length (amounts : gmap bytes Z) :
  (length (compute_dests amounts) <= 4000)%nat.
Proof.
  unfold compute_dests, slice_from.
  change (-4000 <? 0) with true. cbv iota. rewrite length_drop. lia.
Qed.

Lemma compute_amounts_Ok (subsidy : Z) (weights : gmap bytes Z) (total_weight : Z)
    (this_script : bytes) (amounts : gmap bytes Z) :
  compute_amounts subsidy weights total_weight this_script = Ok amounts ->
  amounts = split_amounts subsidy weights total_weight this_script
  /\ any_negative amounts = false.
Proof.
  unfold compute_amounts. intros Hc.
  destruct (bool_decide (weights ≠ ∅) && (200 * total_weight =? 0)); [discriminate|].
  destruct (negb _ || any_negative _) eqn:Hbad; [discriminate|].
  injection Hc as <-. apply orb_false_iff in Hbad as [_ Hneg]. done.
Qed.

Lemma compute_amounts_failed (subsidy : Z) (weights : gmap bytes Z) (total_weight : Z)
    (this_script : bytes) :
  any_negative (split_amounts subsidy weights total_weight this_script) = true ->
  exists e, compute_amounts subsidy weights total_weight this_script = Raise e.
Proof.
  unfold compute_amounts. intros Hneg.
  destruct (bool_decide (weights ≠ ∅) && (200 * total_weight =? 0)); [eauto|].
  rewrite Hneg, orb_true_r. eauto.
Qed.

(** C2. Let [generate_transaction] (of any class) be called, and let the
    weights query it makes return [(weights, total_weight, _)]. The
    amounts it computes are [split_amounts]: every script other than the
    finder's and the donation script gets
    [subsidy * (199 * weight) // (200 * total_weight)], the finder's script
    gets [subsidy // 200] on top of its share, and the donation script gets
    the residue on top of its share, which makes the sum of the amounts
    equal to the subsidy. A call that returns has built its outputs from
    these amounts, all of them non-negative, over a destination list of at
    most 4000 scripts; when the sum differs from the subsidy or an amount
    is negative the call raises. *)
Theorem generate_transaction_payout (cls : ShareClass) (tracker : Tracker.t)
    (sd : share_data.t) (block_target desired_timestamp desired_target : Z)
    (ref_merkle_link : merkle_link.t) (desired : list Z) (net : Net.t)
    (known_txs : option (gmap Z tx.t)) (last_txout_nonce : Z)
    (weights : gmap bytes Z) (total_weight donation_weight : Z) :
  let call :=
    generate_transaction cls tracker sd block_target desired_timestamp desired_target
      ref_merkle_link desired net known_txs last_txout_nonce in
  let subsidy := share_data.subsidy sd in
  let this_script := pubkey_hash_to_script2 (share_data.pubkey_hash sd) in
  let by_weight := weighted_amounts subsidy weights total_weight in
  let amounts := split_amounts subsidy weights total_weight this_script in
  WeightsSkipList.get_cumulative_weights tracker (share_data.previous_share_hash sd)
    (Z.min (Tracker.get_height tracker (share_data.previous_share_hash sd))
           (Net.REAL_CHAIN_LENGTH net))
    (65535 * Net.SPREAD net * target_to_average_attempts block_target)
  = Ok (weights, total_weight, donation_weight) ->
  (forall script,
      by_weight !! script
      = (fun weight => subsidy * (199 * weight) / (200 * total_weight))
          <$> weights !! script)
  /\ (forall script, script <> this_script -> script <> DONATION_SCRIPT ->
        amounts !! script = by_weight !! script)
  /\ (this_script <> DONATION_SCRIPT ->
        amounts !! this_script
        = Some (default 0 (by_weight !! this_script) + subsidy / 200))
  /\ amounts !! DONATION_SCRIPT
     = Some (default 0 (add_finder subsidy this_script by_weight !! DONATION_SCRIPT)
             + subsidy - sum_values (add_finder subsidy this_script by_weight))
  /\ sum_values amounts = subsidy
  /\ (forall si gentx others, call = Ok (si, gentx, others) ->
        tx.tx_outs gentx
        = compute_tx_outs amounts (compute_dests amounts)
            (ref_script cls (get_ref_hash cls net si ref_merkle_link) last_txout_nonce)
        /\ (forall script a, amounts !! script = Some a -> 0 <= a)
        /\ (length (compute_dests amounts) <= 4000)%nat)
  /\ ((sum_values amounts <> subsidy
       \/ exists script a, amounts !! script = Some a /\ a < 0) ->
      exists e, call = Raise e).
Proof.
  intros call subsidy this_script by_weight amounts Hw.
  assert (Hret : forall si gentx others, call = Ok (si, gentx, others) ->
            tx.tx_outs gentx
            = compute_tx_outs amounts (compute_dests amounts)
                (ref_script cls (get_ref_hash cls net si ref_merkle_link)
                   last_txout_nonce)
            /\ (forall script a, amounts !! script = Some a -> 0 <= a)).
  { intros si gentx others Hcall.
    apply generate_transaction_inv in Hcall
      as (_ & w' & tw' & dw' & a' & Hw' & Ha' & _ & _ & Houts).
    rewrite Hw in Hw'. injection Hw' as <- <- <-.
    apply compute_amounts_Ok in Ha' as [-> Hneg].
    split; [exact Houts|]. by apply any_negative_false. }
  repeat split.
  - intros script. unfold by_weight, weighted_amounts. apply lookup_fmap.
  - intros script Hthis Hdon. unfold amounts, split_amounts, add_residue, add_finder.
    by rewrite !lookup_insert_ne.
  - intros Hne. unfold amounts, split_amounts, add_residue.
    rewrite lookup_insert_ne by done. unfold add_finder. by rewrite lookup_insert_eq.
  - unfold amounts, split_amounts, add_residue. by rewrite lookup_insert_eq.
  - apply split_amounts_sum.
  - by apply (Hret si gentx others).
  - by apply (Hret si gentx others).
  - apply compute_dests_length.
  - intros [Hsum | (script & a & Ha & Hlt)].
    + exfalso. apply Hsum, split_amounts_sum.
    + destruct call as [[[si gentx] others]|e] eqn:Hcall; [|eauto].
      exfalso. destruct (Hret si gentx others eq_refl) as [_ Hpos].
      specialize (Hpos script a Ha). lia.
Qed.
End Payout.

Lemma generate_transaction_payout_witness :
  let amounts :=
    split_amounts 5000000000 ∅ 0 (bitcoin.pubkey_hash_to_script2 0) in
  sum_values amounts = 5000000000
  /\ amounts !! DONATION_SCRIPT = Some 4975000000
  /\ exists si gentx others,
       example.genesis_call = Ok (si, gentx, others)
       /\ forall script a, amounts !! script = Some a -> 0 <= a.
Proof.
  intros amounts.
  destruct (@generate_transaction_payout bitcoin.imports NewNewShare ∅
              example.genesis_data (2 ^ 224) 1000 (2 ^ 256 - 1) example.no_link []
              example.net None 0 ∅ 0 0)
    as (_ & _ & _ & _ & Hsum & Hret & _); [vm_compute; reflexivity|].
  split; [exact Hsum|]. split; [vm_compute; reflexivity|].
  assert (Hok : is_Ok example.genesis_call = true) by (vm_compute; reflexivity).
  destruct (is_Ok_true _ Hok) as [[[si gentx] others] Hcall].
  exists si, gentx, others. split; [exact Hcall|].
  apply (Hret si gentx others). exact Hcall.
Defined.

(** ** The timestamp of a generated share *)

Lemma clip_clamp (x low high : Z) :
  low <= high -> clip x (low, high) = Z.max low (Z.min high x).
Proof.
  intros Hle. unfold clip.
  destruct (Z.ltb_spec x low); [lia|]. destruct (Z.ltb_spec high x); lia.
Qed.

Section Timestamp.
Context `{Imports}.

(** C8. When [generate_transaction] returns and a previous share exists,
    the timestamp in the returned [share_info] is [desired_timestamp]
    clamped to the closed interval
    [[previous.timestamp + 1, previous.timestamp + 2 * SHARE_PERIOD - 1]],
    that is within [SHARE_PERIOD - 1] of
    [previous.timestamp + SHARE_PERIOD]; without a previous share it is
    [desired_timestamp] itself. The share period is positive. *)
Theorem generate_transaction_timestamp (cls : ShareClass) (tracker : Tracker.t)
    (sd : share_data.t) (block_target desired_timestamp desired_target : Z)
    (ref_merkle_link : merkle_link.t) (desired : list Z) (net : Net.t)
    (known_txs : option (gmap Z tx.t)) (last_txout_nonce : Z)
    (si : share_info.t) (gentx : tx.t) (others : list Z) :
  1 <= Net.SHARE_PERIOD net ->
  generate_transaction cls tracker sd block_target desired_timestamp desired_target
    ref_merkle_link desired net known_txs last_txout_nonce = Ok (si, gentx, others) ->
  match share_data.previous_share_hash sd with
  | Some h =>
      exists previous,
        tracker !! h = Some previous
        /\ share_info.timestamp si
           = Z.max (share.timestamp previous + 1)
               (Z.min (share.timestamp previous + 2 * Net.SHARE_PERIOD net - 1)
                  desired_timestamp)
        /\ share.timestamp previous + 1 <= share_info.timestamp si
           <= share.timestamp previous + 2 * Net.SHARE_PERIOD net - 1
        /\ Z.abs (share_info.timestamp si
                  - (share.timestamp previous + Net.SHARE_PERIOD net))
           <= Net.SHARE_PERIOD net - 1
  | None => share_info.timestamp si = desired_timestamp
  end.
Proof.
  intros Hperiod Hcall.
  apply generate_transaction_inv in Hcall as (Hprev & _ & _ & _ & _ & _ & _ & _ & Hts & _).
  unfold previous_share_of, compute_timestamp in Hts.
  destruct (share_data.previous_share_hash sd) as [h|]; [|exact Hts].
  destruct (Hprev h eq_refl) as [previous Hp]. rewrite Hp in Hts.
  exists previous. split; [exact Hp|].
  rewrite clip_clamp in Hts by lia. rewrite Hts. lia.
Qed.
End Timestamp.

Lemma generate_transaction_timestamp_witness :
  exists si gentx others,
    @generate_transaction bitcoin.imports NewNewShare
      (example.chain_tracker NewNewShare example.net (2 ^ 224) (fun _ => 9) 1)
      (example.mk_share_data (Some 1)) (2 ^ 224) 5000 (2 ^ 224) example.no_link []
      example.net None 0 = Ok (si, gentx, others)
    /\ share_info.timestamp si = 1069.
Proof.
  assert (Hok : is_Ok
            (@generate_transaction bitcoin.imports NewNewShare
               (example.chain_tracker NewNewShare example.net (2 ^ 224) (fun _ => 9) 1)
               (example.mk_share_data (Some 1)) (2 ^ 224) 5000 (2 ^ 224)
               example.no_link [] example.net None 0) = true)
    by (vm_compute; reflexivity).
  destruct (is_Ok_true _ Hok) as [[[si gentx] others] Hcall].
  exists si, gentx, others. split; [exact Hcall|].
  assert (Hperiod : 1 <= Net.SHARE_PERIOD example.net) by (vm_compute; discriminate).
  pose proof (@generate_transaction_timestamp bitcoin.imports NewNewShare
                (example.chain_tracker NewNewShare example.net (2 ^ 224) (fun _ => 9) 1)
                (example.mk_share_data (Some 1)) (2 ^ 224) 5000 (2 ^ 224)
                example.no_link [] example.net None 0 si gentx others Hperiod Hcall)
    as Hts.
  cbn [example.mk_share_data share_data.previous_share_hash] in Hts.
  destruct Hts as (previous & Hp & Hts & _).
  assert (Hlook : example.chain_tracker NewNewShare example.net (2 ^ 224) (fun _ => 9) 1
                    !! 1
                  = Some (example.mk_share NewNewShare example.net 1 None (2 ^ 224) 1010 9))
    by (vm_compute; reflexivity).
  rewrite Hlook in Hp. injection Hp as <-. rewrite Hts. vm_compute. reflexivity.
Defined.

(** ** The outputs of the generation transaction *)

Lemma bytes_leb_total (a b : bytes) : bytes_leb a b = true \/ bytes_leb b a = true.
Proof.
  revert b. induction a as [|x a IH]; intros [|y b]; cbn; auto.
  destruct (Z.ltb_spec (Z_of_byte x) (Z_of_byte y)),
           (Z.ltb_spec (Z_of_byte y) (Z_of_byte x)); auto; lia.
Qed.

Lemma key_leb_total (k1 k2 : bool * Z * bytes) :
  key_leb k1 k2 = true \/ key_leb k2 k1 = true.
Proof.
  destruct k1 as [[d1 a1] s1], k2 as [[d2 a2] s2]. unfold key_leb.
  destruct d1, d2; cbn; auto;
    destruct (Z.ltb_spec a1 a2), (Z.ltb_spec a2 a1); auto; try lia;
    apply bytes_leb_total.
Qed.

#[local] Instance dest_le_total (amounts : gmap bytes Z) : Total (dest_le amounts).
Proof.
  intros s1 s2. unfold dest_le.
  destruct (key_leb_total (dest_key amounts s1) (dest_key amounts s2)) as [->| ->];
    [left|right]; exact I.
Qed.

(** Nothing but the donation script sorts after the donation script. *)
Lemma dest_le_donation (amounts : gmap bytes Z) (script : bytes) :
  dest_le amounts DONATION_SCRIPT script -> script = DONATION_SCRIPT.
Proof.
  unfold dest_le, dest_key, key_leb.
  rewrite bool_decide_eq_true_2 by done.
  destruct (decide (script = DONATION_SCRIPT)) as [->|Hne]; [done|].
  rewrite (bool_decide_eq_false_2 _ Hne). cbn. done.
Qed.

Lemma Sorted_adjacent {A} (R : relation A) (l1 l2 : list A) (x y : A) :
  Sorted R (l1 ++ x :: y :: l2) -> R x y.
Proof.
  induction l1 as [|z l1 IH]; cbn; intros Hs.
  - apply Sorted_inv in Hs as [_ Hhd]. by inversion Hhd.
  - apply Sorted_inv in Hs as [Hs _]. auto.
Qed.

Lemma donation_sorts_last (amounts : gmap bytes Z) :
  is_Some (amounts !! DONATION_SCRIPT) ->
  exists front,
    merge_sort (dest_le amounts) (fst <$> map_to_list amounts)
    = front ++ [DONATION_SCRIPT].
Proof.
  intros [a Ha].
  set (l := merge_sort (dest_le amounts) (fst <$> map_to_list amounts)).
  assert (Hperm : l ≡ₚ fst <$> map_to_list amounts) by apply merge_sort_Permutation.
  assert (Hin : DONATION_SCRIPT ∈ l).
  { rewrite Hperm. apply list_elem_of_fmap. exists (DONATION_SCRIPT, a).
    split; [done|]. by apply elem_of_map_to_list. }
  assert (Hnd : NoDup l) by (rewrite Hperm; apply NoDup_fst_map_to_list).
  assert (Hs : Sorted (dest_le amounts) l) by apply (Sorted_merge_sort _).
  apply list_elem_of_split in Hin as (front & back & Hl).
  exists front. rewrite Hl. destruct back as [|y back]; [done|]. exfalso.
  rewrite Hl in Hs, Hnd.
  apply Sorted_adjacent, dest_le_donation in Hs as ->.
  apply NoDup_app in Hnd as (_ & _ & Hnd).
  apply NoDup_cons in Hnd as [Hnotin _]. apply Hnotin. left.
Qed.

Lemma donation_in_dests (amounts : gmap bytes Z) :
  is_Some (amounts !! DONATION_SCRIPT) -> DONATION_SCRIPT ∈ compute_dests amounts.
Proof.
  intros [front Hl]%donation_sorts_last. unfold compute_dests. rewrite Hl.
  unfold slice_from. change (-4000 <? 0) with true. cbv iota.
  rewrite length_app. cbn [length].
  rewrite drop_app_le by lia. apply elem_of_app. right. left.
Qed.

Lemma sum_outputs_app (l1 l2 : list tx_out.t) :
  sum_outputs (l1 ++ l2) = sum_outputs l1 + sum_outputs l2.
Proof.
  unfold sum_outputs. rewrite fmap_app, foldr_app.
  induction (tx_out.value <$> l1) as [|v vs IH]; cbn; lia.
Qed.

Lemma payouts_sum (amounts : gmap bytes Z) (dests : list bytes) :
  sum_outputs (payouts amounts dests) = foldr Z.add 0 ((amounts !!!.) <$> dests).
Proof.
  unfold payouts, sum_outputs. induction dests as [|s dests IH]; [done|].
  cbn [List.filter]. destruct (Z.eqb_spec (amounts !!! s) 0) as [Hz|Hnz]; cbn.
  - destruct (bool_decide (s = DONATION_SCRIPT)); cbn; rewrite IH; lia.
  - rewrite IH. done.
Qed.

Lemma elem_of_payouts (amounts : gmap bytes Z) (dests : list bytes) (o : tx_out.t) :
  o ∈ payouts amounts dests <->
  tx_out.script o ∈ dests
  /\ tx_out.value o = amounts !!! tx_out.script o
  /\ (tx_out.value o <> 0 \/ tx_out.script o = DONATION_SCRIPT).
Proof.
  unfold payouts. rewrite list_elem_of_In, in_map_iff. split.
  - intros (script & <- & [Hin Hkeep]%filter_In). cbn.
    apply list_elem_of_In in Hin. split; [done|]. split; [done|].
    apply orb_true_iff in Hkeep as [Hnz|Hd].
    + left. apply negb_true_iff, Z.eqb_neq in Hnz. done.
    + right. by apply bool_decide_eq_true in Hd.
  - intros (Hin & Hval & Hkeep). exists (tx_out.script o). split.
    + destruct o as [v s]. cbn in *. by rewrite Hval.
    + apply filter_In. split; [by apply list_elem_of_In|].
      apply orb_true_iff. destruct Hkeep as [Hnz|Hd].
      * left. apply negb_true_iff, Z.eqb_neq. by rewrite <- Hval.
      * right. by apply bool_decide_eq_true.
Qed.

Section Outputs.
Context `{Imports}.

(** C10. In the transaction a returning [generate_transaction] builds (any
    class), with [amounts] the payout split over the weights that
    [get_cumulative_weights] returned and [dests] the destination list:
    the outputs are the [payouts] followed by one last output of value 0
    whose script is the tag byte ([0x24] for V9, [0x20] for V7 and V8),
    the 32 bytes of the ref hash and, for V9, the 4 bytes of
    [last_txout_nonce]. A destination is paid by an output exactly when its
    amount is not 0 or it is [DONATION_SCRIPT]; the donation script is
    always a destination and always has its output, also with value 0; the
    outputs left out are worth 0, so the outputs sum to the amounts of the
    destinations. *)
Theorem generate_transaction_outputs (cls : ShareClass) (tracker : Tracker.t)
    (sd : share_data.t) (block_target desired_timestamp desired_target : Z)
    (ref_merkle_link : merkle_link.t) (desired : list Z) (net : Net.t)
    (known_txs : option (gmap Z tx.t)) (last_txout_nonce : Z)
    (si : share_info.t) (gentx : tx.t) (others : list Z) :
  generate_transaction cls tracker sd block_target desired_timestamp desired_target
    ref_merkle_link desired net known_txs last_txout_nonce = Ok (si, gentx, others) ->
  exists weights total_weight donation_weight,
    WeightsSkipList.get_cumulative_weights tracker (share_data.previous_share_hash sd)
      (Z.min (Tracker.get_height tracker (share_data.previous_share_hash sd))
             (Net.REAL_CHAIN_LENGTH net))
      (65535 * Net.SPREAD net * target_to_average_attempts block_target)
    = Ok (weights, total_weight, donation_weight)
    /\ let amounts :=
         split_amounts (share_data.subsidy sd) weights total_weight
           (pubkey_hash_to_script2 (share_data.pubkey_hash sd)) in
       let dests := compute_dests amounts in
       let ref_hash :=
         le_pack 32
           (check_merkle_link (hash256 (ref_type_pack cls (Net.IDENTIFIER net) si))
              ref_merkle_link) in
       let final :=
         {| tx_out.value := 0;
            tx_out.script :=
              match cls with
              | NewNewShare => [x24] ++ ref_hash ++ le_pack 4 last_txout_nonce
              | _ => [x20] ++ ref_hash
              end |} in
       tx.tx_outs gentx = payouts amounts dests ++ [final]
       /\ last (tx.tx_outs gentx) = Some final
       /\ length ref_hash = 32%nat
       /\ length (tx_out.script final)
          = match cls with NewNewShare => 37%nat | _ => 33%nat end
       /\ (forall script,
             (exists o, o ∈ payouts amounts dests /\ tx_out.script o = script)
             <-> script ∈ dests /\ (amounts !!! script <> 0 \/ script = DONATION_SCRIPT))
       /\ (forall script,
             script ∈ dests -> script <> DONATION_SCRIPT -> amounts !!! script = 0 ->
             forall o, o ∈ payouts amounts dests -> tx_out.script o <> script)
       /\ (forall o, o ∈ payouts amounts dests ->
             tx_out.value o = amounts !!! tx_out.script o)
       /\ DONATION_SCRIPT ∈ dests
       /\ {| tx_out.value := amounts !!! DONATION_SCRIPT;
             tx_out.script := DONATION_SCRIPT |} ∈ payouts amounts dests
       /\ sum_outputs (tx.tx_outs gentx) = foldr Z.add 0 ((amounts !!!.) <$> dests).
Proof.
  intros Hcall.
  apply generate_transaction_inv in Hcall
    as (_ & weights & total_weight & dw & amounts & Hw & Ha & _ & _ & Houts).
  apply compute_amounts_Ok in Ha as [-> _].
  exists weights, total_weight, dw. split; [exact Hw|].
  intros amounts dests ref_hash final.
  change (tx.tx_outs gentx = payouts amounts dests ++ [final]) in Houts.
  assert (Hdon : DONATION_SCRIPT ∈ dests).
  { apply donation_in_dests. unfold amounts, split_amounts, add_residue.
    rewrite lookup_insert_eq. eauto. }
  assert (Hiff : forall script,
            (exists o, o ∈ payouts amounts dests /\ tx_out.script o = script)
            <-> script ∈ dests /\ (amounts !!! script <> 0 \/ script = DONATION_SCRIPT)).
  { intros script. split.
    - intros (o & (Hin & Hval & Hkeep)%elem_of_payouts & <-).
      split; [done|]. by rewrite <- Hval.
    - intros [Hin Hkeep].
      exists {| tx_out.value := amounts !!! script; tx_out.script := script |}.
      split; [|done]. by apply elem_of_payouts. }
  assert (Hlen : length ref_hash = 32%nat).
  { unfold ref_hash. generalize (check_merkle_link
      (hash256 (ref_type_pack cls (Net.IDENTIFIER net) si)) ref_merkle_link).
    generalize 32%nat. intros n. induction n as [|n IH]; intros z; cbn; [done|].
    by rewrite IH. }
  split; [exact Houts|]. split; [rewrite Houts; apply last_snoc|].
  split; [exact Hlen|]. split.
  { unfold final. cbn [tx_out.script].
    destruct cls; rewrite !length_app, ?Hlen; reflexivity. }
  split; [exact Hiff|]. split; [|split; [|split; [exact Hdon|split]]].
  - intros script Hin Hne Hzero o Ho Hscript.
    destruct (proj1 (Hiff script)) as [_ [Hnz|Hd]]; [by exists o|lia|done].
  - by intros o (_ & Hval & _)%elem_of_payouts.
  - apply elem_of_payouts. cbn. auto.
  - rewrite Houts, sum_outputs_app, payouts_sum. unfold sum_outputs. cbn. lia.
Qed.
End Outputs.

(** The first share with a subsidy of 100 satoshi: the finder's script is
    a destination with the amount [100 // 200 = 0] and gets no output; the
    donation script takes the 100; the last output carries the tag and
    the ref hash. *)
Lemma generate_transaction_outputs_witness :
  let finder := bitcoin.pubkey_hash_to_script2 0 in
  let amounts := split_amounts 100 ∅ 0 finder in
  exists si gentx others,
    @generate_transaction bitcoin.imports NewNewShare ∅ small_subsidy_data (2 ^ 224)
      1000 (2 ^ 256 - 1) example.no_link [] example.net None 5 = Ok (si, gentx, others)
    /\ finder ∈ compute_dests amounts
    /\ amounts !!! finder = 0
    /\ (forall o, o ∈ payouts amounts (compute_dests amounts) -> tx_out.script o <> finder)
    /\ tx_out.value <$> tx.tx_outs gentx = [100; 0]
    /\ tx_out.script <$> tx.tx_outs gentx
       = [DONATION_SCRIPT;
          [x24]
          ++ le_pack 32
               (bitcoin.check_merkle_link
                  (hash256 (ref_type_pack NewNewShare (Net.IDENTIFIER example.net) si))
                  example.no_link)
          ++ le_pack 4 5].
Proof.
  intros finder amounts.
  assert (Hok : is_Ok (@generate_transaction bitcoin.imports NewNewShare ∅
                         small_subsidy_data (2 ^ 224) 1000 (2 ^ 256 - 1)
                         example.no_link [] example.net None 5) = true)
    by (vm_compute; reflexivity).
  destruct (is_Ok_true _ Hok) as [[[si gentx] others] Hcall].
  exists si, gentx, others. split; [exact Hcall|].
  destruct (@generate_transaction_outputs bitcoin.imports NewNewShare ∅
              small_subsidy_data (2 ^ 224) 1000 (2 ^ 256 - 1) example.no_link []
              example.net None 5 si gentx others Hcall)
    as (weights & total_weight & dw & Hw & Houts & _ & _ & _ & _ & Hzero & _).
  assert (Hweights :
            @WeightsSkipList.get_cumulative_weights bitcoin.imports ∅ None
              (Z.min (Tracker.get_height ∅ None) (Net.REAL_CHAIN_LENGTH example.net))
              (65535 * Net.SPREAD example.net
               * bitcoin.target_to_average_attempts (2 ^ 224))
            = Ok (∅, 0, 0)) by reflexivity.
  cbn [small_subsidy_data share_data.previous_share_hash share_data.subsidy
       share_data.pubkey_hash target_to_average_attempts pubkey_hash_to_script2
       bitcoin.imports] in Hw, Houts, Hzero.
  rewrite Hweights in Hw. injection Hw as <- <- _.
  fold finder in Houts, Hzero. fold amounts in Houts, Hzero.
  assert (Hdest : bool_decide (finder ∈ compute_dests amounts) = true)
    by (vm_compute; reflexivity).
  apply bool_decide_eq_true in Hdest.
  assert (Hamount : amounts !!! finder = 0) by (vm_compute; reflexivity).
  assert (Hne : finder <> DONATION_SCRIPT).
  { intros Heq. apply (f_equal length) in Heq. discriminate Heq. }
  split; [exact Hdest|]. split; [exact Hamount|].
  split; [exact (Hzero finder Hdest Hne Hamount)|].
  assert (Hpay : payouts amounts (compute_dests amounts)
                 = [ {| tx_out.value := 100; tx_out.script := DONATION_SCRIPT |} ])
    by (vm_compute; reflexivity).
  rewrite Houts, Hpay. split; reflexivity.
Defined.

(** ** The weights skip list *)

Section WeightsFacts.
Context `{Imports}.

Lemma get_delta_Ok (tracker : Tracker.t) (element : Z) (d : WeightsSkipList.delta) :
  WeightsSkipList.get_delta tracker element = Ok d ->
  exists s,
    tracker !! element = Some s
    /\ d = (1,
            {[ share.new_script s :=
                 target_to_average_attempts (share.target s)
                 * (65535 - share_data.donation (share.share_data s)) ]},
            target_to_average_attempts (share.target s) * 65535,
            target_to_average_attempts (share.target s)
            * share_data.donation (share.share_data s)).
Proof.
  unfold WeightsSkipList.get_delta. intros Hd.
  apply bind_Ok_inv in Hd as (s & Hs%getitem_Ok & [= <-]). eauto.
Qed.

Lemma walk_continue (tracker : Tracker.t) (f : nat) (p : Z)
    (sol sol_if : WeightsSkipList.solution) (a : WeightsSkipList.args)
    (d : WeightsSkipList.delta) (s : share.t) :
  WeightsSkipList.get_delta tracker p = Ok d ->
  getitem tracker p = Ok s ->
  WeightsSkipList.apply_delta sol d a = Ok sol_if ->
  WeightsSkipList.judge sol_if a = -1 ->
  WeightsSkipList.walk tracker (S f) (Some p) sol a
  = WeightsSkipList.walk tracker f (share.previous_hash s) sol_if a.
Proof.
  intros Hd Hs Ha Hj. cbn [WeightsSkipList.walk].
  rewrite Hd. cbn [mbind Result_bind]. rewrite Hs. cbn [mbind Result_bind].
  rewrite Ha. cbn [mbind Result_bind]. rewrite Hj. reflexivity.
Qed.

Lemma walk_stop (tracker : Tracker.t) (f : nat) (p : Z)
    (sol sol_if : WeightsSkipList.solution) (a : WeightsSkipList.args)
    (d : WeightsSkipList.delta) (s : share.t) :
  WeightsSkipList.get_delta tracker p = Ok d ->
  getitem tracker p = Ok s ->
  WeightsSkipList.apply_delta sol d a = Ok sol_if ->
  WeightsSkipList.judge sol_if a = 0 ->
  WeightsSkipList.walk tracker (S f) (Some p) sol a = Ok sol_if.
Proof.
  intros Hd Hs Ha Hj. cbn [WeightsSkipList.walk].
  rewrite Hd. cbn [mbind Result_bind]. rewrite Hs. cbn [mbind Result_bind].
  rewrite Ha. cbn [mbind Result_bind]. rewrite Hj. reflexivity.
Qed.

(** The truncation branch of [apply_delta] on the delta of one share. *)
Lemma apply_delta_truncated (tracker : Tracker.t) (element : Z)
    (d : WeightsSkipList.delta) (share_count1 : Z) (weights_list : list (gmap bytes Z))
    (total_weight1 total_donation_weight1 max_shares desired_weight : Z) :
  WeightsSkipList.get_delta tracker element = Ok d ->
  desired_weight mod 65535 = 0 ->
  total_weight1 mod 65535 = 0 ->
  total_weight1 <= desired_weight ->
  desired_weight < total_weight1 + snd (fst d) ->
  exists script weight,
    fst (fst (fst d)) = 1
    /\ snd (fst (fst d)) = {[ script := weight ]}
    /\ WeightsSkipList.apply_delta
         (share_count1, weights_list, total_weight1, total_donation_weight1) d
         (max_shares, desired_weight)
       = Ok (share_count1 + 1,
             {[ script := (desired_weight - total_weight1) / 65535 * weight
                          / (snd (fst d) / 65535) ]} :: weights_list,
             desired_weight,
             total_donation_weight1
             + (desired_weight - total_weight1) / 65535 * snd d / (snd (fst d) / 65535)).
Proof.
  intros (s & Hs & ->)%get_delta_Ok Hd H1 Hle Hover. cbn [fst snd] in *.
  set (att := target_to_average_attempts (share.target s)) in *.
  eexists _, _. split; [reflexivity|]. split; [reflexivity|].
  unfold WeightsSkipList.apply_delta.
  rewrite (proj2 (Z.ltb_lt _ _) Hover). cbn [andb Z.eqb Pos.eqb].
  assert (Hm : (desired_weight - total_weight1) mod 65535 = 0).
  { rewrite Zminus_mod, Hd, H1. reflexivity. }
  rewrite Hm. cbn [Z.eqb assert mbind Result_bind].
  rewrite map_to_list_singleton. cbn [mbind Result_bind].
  rewrite Z.div_mul by lia.
  assert (Hatt : att <> 0) by lia.
  rewrite (proj2 (Z.eqb_neq _ _) Hatt).
  rewrite lookup_total_singleton_eq. reflexivity.
Qed.
End WeightsFacts.

Ltac judge_by_lia :=
  unfold WeightsSkipList.judge;
  repeat match goal with
    | |- context [?a <? ?b] => destruct (Z.ltb_spec a b); try lia
    | |- context [?a =? ?b] => destruct (Z.eqb_spec a b); try lia
    end;
  reflexivity.

Lemma get_delta_lookup `{Imports} (tracker : Tracker.t) (element : Z) (s : share.t) :
  tracker !! element = Some s ->
  WeightsSkipList.get_delta tracker element
  = Ok (1,
        {[ share.new_script s :=
             target_to_average_attempts (share.target s)
             * (65535 - share_data.donation (share.share_data s)) ]},
        target_to_average_attempts (share.target s) * 65535,
        target_to_average_attempts (share.target s)
        * share_data.donation (share.share_data s)).
Proof.
  intros Hs. unfold WeightsSkipList.get_delta, getitem. rewrite Hs. reflexivity.
Qed.

(** The shares of [example.chain_tracker]. *)
Lemma chain_tracker_lookup (cls : ShareClass) (nt : Net.t) (target : Z) (vote : Z -> Z)
    (n : nat) (k : nat) :
  (k < n)%nat ->
  example.chain_tracker cls nt target vote n !! Z.of_nat (S k)
  = Some (example.mk_share cls nt (Z.of_nat (S k))
            (if (k =? 0)%nat then None else Some (Z.of_nat (S k) - 1))
            target (1000 + 10 * Z.of_nat (S k)) (vote (Z.of_nat (S k)))).
Proof.
  intros Hk. unfold example.chain_tracker.
  apply elem_of_list_to_map_1.
  - rewrite <- list_fmap_compose. unfold compose. cbn [fst].
    apply NoDup_fmap_2; [|apply NoDup_seq]. intros a b Hab. lia.
  - apply list_elem_of_fmap. exists k. split; [reflexivity|].
    apply elem_of_seq. lia.
Qed.

Lemma unit_attempts : bitcoin.target_to_average_attempts (2 ^ 255) = 1.
Proof. vm_compute. reflexivity. Qed.

Lemma ten_unit_lookup (k : nat) :
  (k < 10)%nat ->
  ten_unit_shares !! Z.of_nat (S k)
  = Some (example.mk_share NewNewShare example.net (Z.of_nat (S k))
            (if (k =? 0)%nat then None else Some (Z.of_nat (S k) - 1))
            (2 ^ 255) (1000 + 10 * Z.of_nat (S k)) 9).
Proof. apply chain_tracker_lookup. Qed.

Lemma unit_delta (k : nat) :
  (k < 10)%nat ->
  @WeightsSkipList.get_delta bitcoin.imports ten_unit_shares (Z.of_nat (S k))
  = Ok (1, {[ bitcoin.pubkey_hash_to_script2 (Z.of_nat (S k)) := 65535 ]}, 65535, 0).
Proof.
  intros Hk. rewrite (get_delta_lookup _ _ _ (ten_unit_lookup k Hk)).
  unfold example.mk_share.
  cbn [share.new_script share.target share.share_data share_data.donation
       target_to_average_attempts bitcoin.imports].
  rewrite unit_attempts. reflexivity.
Qed.

Lemma unit_walk_continue (k f : nat) (share_count : Z) (weights_list : list (gmap bytes Z))
    (total_weight max_shares desired_weight : Z) :
  (k < 10)%nat ->
  share_count + 1 < max_shares ->
  total_weight + 65535 < desired_weight ->
  @WeightsSkipList.walk bitcoin.imports ten_unit_shares (S f) (Some (Z.of_nat (S k)))
    (share_count, weights_list, total_weight, 0) (max_shares, desired_weight)
  = @WeightsSkipList.walk bitcoin.imports ten_unit_shares f
      (if (k =? 0)%nat then None else Some (Z.of_nat (S k) - 1))
      (share_count + 1,
       {[ bitcoin.pubkey_hash_to_script2 (Z.of_nat (S k)) := 65535 ]} :: weights_list,
       total_weight + 65535, 0)
      (max_shares, desired_weight).
Proof.
  intros Hk Hc Hw.
  rewrite (walk_continue _ f _ _
             (share_count + 1,
              {[ bitcoin.pubkey_hash_to_script2 (Z.of_nat (S k)) := 65535 ]} :: weights_list,
              total_weight + 65535, 0) _ _ _ (unit_delta k Hk)
             (proj2 (getitem_Ok _ _ _) (ten_unit_lookup k Hk))).
  - reflexivity.
  - unfold WeightsSkipList.apply_delta.
    destruct (Z.ltb_spec desired_weight (total_weight + 65535)); [lia|]. reflexivity.
  - judge_by_lia.
Qed.

Lemma unit_walk_stop (k f : nat) (share_count : Z) (weights_list : list (gmap bytes Z))
    (total_weight max_shares desired_weight : Z) :
  (k < 10)%nat ->
  share_count + 1 <= max_shares ->
  total_weight + 65535 = desired_weight ->
  @WeightsSkipList.walk bitcoin.imports ten_unit_shares (S f) (Some (Z.of_nat (S k)))
    (share_count, weights_list, total_weight, 0) (max_shares, desired_weight)
  = Ok (share_count + 1,
        {[ bitcoin.pubkey_hash_to_script2 (Z.of_nat (S k)) := 65535 ]} :: weights_list,
        total_weight + 65535, 0).
Proof.
  intros Hk Hc Hw.
  apply (walk_stop _ f _ _ _ _ _ _ (unit_delta k Hk)
           (proj2 (getitem_Ok _ _ _) (ten_unit_lookup k Hk))).
  - unfold WeightsSkipList.apply_delta.
    destruct (Z.ltb_spec desired_weight (total_weight + 65535)); [lia|]. reflexivity.
  - judge_by_lia.
Qed.

Lemma ten_unit_shares_solve (max_shares : Z) :
  5 <= max_shares ->
  @WeightsSkipList.solve bitcoin.imports ten_unit_shares (Some 10)
    (max_shares, 5 * 65535)
  = Ok (5, map unit_weights [6; 7; 8; 9; 10], 327675, 0).
Proof.
  intros Hmax. unfold WeightsSkipList.solve.
  change (5 * 65535) with 327675.
  change (WeightsSkipList.initial_solution (max_shares, 327675))
    with (Ok (0, [], 0, 0) : Result WeightsSkipList.solution).
  cbn [mbind Result_bind fst].
  replace (WeightsSkipList.judge (0, [], 0, 0) (max_shares, 327675)) with (-1)
    by (symmetry; judge_by_lia).
  cbn [Z.eqb].
  destruct (Z.to_nat max_shares) as [|[|[|[|[|n]]]]] eqn:Hn; try lia.
  change (Some 10) with (Some (Z.of_nat (S 9))).
  rewrite unit_walk_continue by lia.
  change (if (9 =? 0)%nat then None else Some (Z.of_nat 10 - 1))
    with (Some (Z.of_nat (S 8))).
  rewrite unit_walk_continue by lia.
  change (if (8 =? 0)%nat then None else Some (Z.of_nat 9 - 1))
    with (Some (Z.of_nat (S 7))).
  rewrite unit_walk_continue by lia.
  change (if (7 =? 0)%nat then None else Some (Z.of_nat 8 - 1))
    with (Some (Z.of_nat (S 6))).
  rewrite unit_walk_continue by lia.
  change (if (6 =? 0)%nat then None else Some (Z.of_nat 7 - 1))
    with (Some (Z.of_nat (S 5))).
  rewrite unit_walk_stop by lia.
  reflexivity.
Qed.

Lemma double_attempts : bitcoin.target_to_average_attempts (2 ^ 255 - 1) = 2.
Proof. vm_compute. reflexivity. Qed.

Lemma double_share_get_delta :
  @WeightsSkipList.get_delta bitcoin.imports three_double_shares 1
  = Ok double_share_delta.
Proof.
  change (@WeightsSkipList.get_delta bitcoin.imports
            (example.chain_tracker NewNewShare example.net (2 ^ 255 - 1) (fun _ => 9) 3)
            (Z.of_nat 1) = Ok double_share_delta).
  assert (H0 : (0 < 3)%nat) by lia.
  rewrite (@get_delta_lookup bitcoin.imports _ _ _
             (chain_tracker_lookup NewNewShare example.net (2 ^ 255 - 1) (fun _ => 9)
                3 0 H0)).
  unfold example.mk_share.
  cbn [share.new_script share.target share.share_data share_data.donation
       target_to_average_attempts bitcoin.imports].
  rewrite double_attempts. reflexivity.
Qed.

(** C6. In a query with [desired_weight] a multiple of 65535, when the
    total accumulated so far (a multiple of 65535 not above
    [desired_weight]) plus the weight of the next single share exceeds
    [desired_weight], [apply_delta] truncates that share: the total it
    returns is exactly [desired_weight] and the share's script gets
    [(desired_weight - total_so_far) // 65535 * weights[script]
     // (delta_total // 65535)].
    On a chain of ten shares of weight 65535 each, the query with
    [desired_weight = 5 * 65535] (and room for at least five shares) stops
    after exactly five shares with [total_weight = 327675]. *)
Theorem apply_delta_truncates_to_desired_weight :
  (forall (I : Imports) (tracker : Tracker.t) (element : Z) (d : WeightsSkipList.delta)
          (share_count1 : Z) (weights_list : list (gmap bytes Z))
          (total_weight1 total_donation_weight1 max_shares desired_weight : Z),
      WeightsSkipList.get_delta tracker element = Ok d ->
      desired_weight mod 65535 = 0 ->
      total_weight1 mod 65535 = 0 ->
      total_weight1 <= desired_weight ->
      desired_weight < total_weight1 + snd (fst d) ->
      exists script weight,
        fst (fst (fst d)) = 1
        /\ snd (fst (fst d)) = {[ script := weight ]}
        /\ WeightsSkipList.apply_delta
             (share_count1, weights_list, total_weight1, total_donation_weight1) d
             (max_shares, desired_weight)
           = Ok (share_count1 + 1,
                 {[ script := (desired_weight - total_weight1) / 65535 * weight
                              / (snd (fst d) / 65535) ]} :: weights_list,
                 desired_weight,
                 total_donation_weight1
                 + (desired_weight - total_weight1) / 65535 * snd d
                   / (snd (fst d) / 65535)))
  /\ (forall max_shares : Z,
        5 <= max_shares ->
        @WeightsSkipList.solve bitcoin.imports ten_unit_shares (Some 10)
          (max_shares, 5 * 65535)
        = Ok (5, map unit_weights [6; 7; 8; 9; 10], 327675, 0)
        /\ @WeightsSkipList.get_cumulative_weights bitcoin.imports ten_unit_shares
             (Some 10) max_shares (5 * 65535)
           = Ok (add_dicts (map unit_weights [6; 7; 8; 9; 10]), 327675, 0)).
Proof.
  split.
  - intros I tracker element d sc1 wl tw1 tdw1 max_shares desired_weight.
    apply apply_delta_truncated.
  - intros max_shares Hmax.
    pose proof (ten_unit_shares_solve max_shares Hmax) as Hsolve.
    split; [exact Hsolve|].
    unfold WeightsSkipList.get_cumulative_weights. rewrite Hsolve.
    cbn [mbind Result_bind]. unfold WeightsSkipList.finalize.
    rewrite (proj2 (Z.leb_le 5 max_shares) Hmax).
    change (327675 <=? 5 * 65535) with true.
    change (327675 =? 5 * 65535) with true. rewrite orb_true_r.
    reflexivity.
Qed.

(** A truncation at work: with [4 * 65535] accumulated out of
    [desired_weight = 5 * 65535], a share of weight [2 * 65535] is cut to
    the 65535 that are left. *)
Lemma apply_delta_truncates_to_desired_weight_witness :
  exists script weight,
    fst (fst (fst double_share_delta)) = 1
    /\ snd (fst (fst double_share_delta)) = {[ script := weight ]}
    /\ WeightsSkipList.apply_delta (2, [], 4 * 65535, 0) double_share_delta
         (10, 5 * 65535)
       = Ok (2 + 1,
             [ {[ script := (5 * 65535 - 4 * 65535) / 65535 * weight
                            / (snd (fst double_share_delta) / 65535) ]} ],
             5 * 65535,
             0 + (5 * 65535 - 4 * 65535) / 65535 * snd double_share_delta
                 / (snd (fst double_share_delta) / 65535)).
Proof.
  apply (proj1 apply_delta_truncates_to_desired_weight bitcoin.imports
           three_double_shares 1 double_share_delta 2 [] (4 * 65535) 0 10 (5 * 65535)).
  - exact double_share_get_delta.
  - reflexivity.
  - reflexivity.
  - cbn. lia.
  - cbn [double_share_delta fst snd]. lia.
Defined.

(** ** The tracker walks *)

Section TrackerFacts.
Variable items : Tracker.t.

Lemma walk_to_last_nonneg (fuel : nat) (h : option Z) :
  0 <= fst (Tracker.walk_to_last fuel items h).
Proof.
  revert h. induction fuel as [|f IH]; intros h; cbn; [lia|].
  destruct h as [x|]; cbn; [|lia]. destruct (items !! x) as [s|]; cbn; [|lia].
  specialize (IH (share.previous_hash s)).
  destruct (Tracker.walk_to_last f items (share.previous_hash s)). cbn in *. lia.
Qed.

Lemma walk_to_last_step (f : nat) (x : Z) (s : share.t) :
  items !! x = Some s ->
  fst (Tracker.walk_to_last (S f) items (Some x))
  = fst (Tracker.walk_to_last f items (share.previous_hash s)) + 1.
Proof.
  intros Hs. cbn. rewrite Hs.
  by destruct (Tracker.walk_to_last f items (share.previous_hash s)).
Qed.

Lemma walk_to_last_mono (fuel : nat) (h : option Z) :
  fst (Tracker.walk_to_last fuel items h)
  <= fst (Tracker.walk_to_last (S fuel) items h).
Proof.
  revert h. induction fuel as [|f IH]; intros h.
  - change (fst (Tracker.walk_to_last 0 items h)) with 0. apply walk_to_last_nonneg.
  - destruct h as [x|]; [|cbn; lia].
    destruct (items !! x) as [s|] eqn:Hs; [|cbn; rewrite Hs; cbn; lia].
    rewrite (walk_to_last_step (S f) x s Hs), (walk_to_last_step f x s Hs).
    specialize (IH (share.previous_hash s)). lia.
Qed.

Lemma walk_to_last_positive (fuel : nat) (h : option Z) :
  0 < fst (Tracker.walk_to_last fuel items h) ->
  exists f x s, fuel = S f /\ h = Some x /\ items !! x = Some s.
Proof.
  destruct fuel as [|f]; cbn; [lia|].
  destruct h as [x|]; cbn; [|lia].
  destruct (items !! x) as [s|] eqn:Hs; cbn; [|lia]. eauto 6.
Qed.

(** A chain of height at least [n] has an [n]-th parent, from which the
    height is what is left. *)
Lemma nth_parent_of_height (n : nat) : forall (fuel : nat) (h : option Z),
  Z.of_nat n <= fst (Tracker.walk_to_last fuel items h) ->
  exists h',
    Tracker.nth_parent items n h = Ok h'
    /\ fst (Tracker.walk_to_last fuel items h) - Z.of_nat n
       <= fst (Tracker.walk_to_last fuel items h').
Proof.
  induction n as [|m IH]; intros fuel h Hn.
  - exists h. split; [done|]. lia.
  - destruct (walk_to_last_positive fuel h) as (f & x & s & -> & -> & Hs); [lia|].
    rewrite (walk_to_last_step f x s Hs) in Hn |- *.
    destruct (IH f (share.previous_hash s)) as (h' & Hp & Hh); [lia|].
    exists h'. split.
    + cbn. unfold getitem. rewrite Hs. cbn. exact Hp.
    + pose proof (walk_to_last_mono f h'). lia.
Qed.

Lemma chain_of_height (n : nat) : forall (fuel : nat) (h : option Z),
  Z.of_nat n <= fst (Tracker.walk_to_last fuel items h) ->
  exists shares, Tracker.chain items n h = Ok shares /\ length shares = n.
Proof.
  induction n as [|m IH]; intros fuel h Hn.
  - exists []. done.
  - destruct (walk_to_last_positive fuel h) as (f & x & s & -> & -> & Hs); [lia|].
    rewrite (walk_to_last_step f x s Hs) in Hn.
    destruct (IH f (share.previous_hash s)) as (shares & Hc & Hl); [lia|].
    exists (s :: shares). split; [|cbn; lia].
    cbn. unfold getitem. rewrite Hs. cbn. rewrite Hc. done.
Qed.
End TrackerFacts.

(** ** Version votes and the succession gate *)

Section Succession.
Context `{Imports}.

Lemma counts_lookup (shares : list share.t) : forall (res : gmap Z Z) (version : Z),
  default 0 (fold_left count_vote shares res !! version)
  = default 0 (res !! version) + votes_for version shares.
Proof.
  induction shares as [|s shares IH]; intros res version.
  - cbn. lia.
  - cbn [fold_left]. rewrite IH. unfold votes_for, count_vote. cbn [List.filter].
    destruct (Z.eqb_spec (share.desired_version s) version) as [->|Hne].
    + rewrite lookup_insert_eq. cbn. lia.
    + rewrite lookup_insert_ne by done. lia.
Qed.

Lemma counts_sum (shares : list share.t) : forall res : gmap Z Z,
  sum_values (fold_left count_vote shares res) = sum_values res + total_votes shares.
Proof.
  induction shares as [|s shares IH]; intros res.
  - cbn. lia.
  - cbn [fold_left]. rewrite IH. unfold count_vote.
    rewrite sum_values_insert. unfold total_votes. cbn. lia.
Qed.

Lemma get_desired_version_counts_Ok (tracker : Tracker.t) (start : option Z)
    (dist : Z) (window : list share.t) :
  Tracker.get_chain tracker start dist = Ok window ->
  exists counts,
    get_desired_version_counts tracker start dist = Ok counts
    /\ (forall version, default 0 (counts !! version) = votes_for version window)
    /\ sum_values counts = total_votes window.
Proof.
  intros Hw. unfold get_desired_version_counts. rewrite Hw. cbn [mbind Result_bind].
  eexists. split; [reflexivity|]. fold count_vote. split.
  - intros version. rewrite counts_lookup, lookup_empty. cbn. lia.
  - rewrite counts_sum, sum_values_empty. lia.
Qed.

Lemma successor_differs (c p : ShareClass) : Some c = SUCCESSOR p -> c <> p.
Proof. destruct c, p; cbn; congruence. Qed.

(** The window of the vote exists once the chain is long enough. *)
Lemma vote_window_exists (tracker : Tracker.t) (h : option Z) (CL : Z) :
  0 <= CL -> CL <= Tracker.get_height tracker h ->
  exists start window,
    Tracker.get_nth_parent_hash tracker h (CL * 9 / 10) = Ok start
    /\ Tracker.get_chain tracker start (CL / 10) = Ok window
    /\ length window = Z.to_nat (CL / 10).
Proof.
  intros H0 Hh. unfold Tracker.get_height, Tracker.get_height_and_last in Hh.
  assert (Hdiv : 0 <= CL * 9 / 10 <= CL /\ 0 <= CL / 10 <= CL - CL * 9 / 10).
  { Z.div_mod_to_equations. lia. }
  destruct (nth_parent_of_height tracker (Z.to_nat (CL * 9 / 10)) (S (size tracker)) h)
    as (start & Hstart & Hleft); [lia|].
  destruct (chain_of_height tracker (Z.to_nat (CL / 10)) (S (size tracker)) start)
    as (window & Hwindow & Hlen); [lia|].
  exists start, window. split; [|split; [|exact Hlen]].
  - unfold Tracker.get_nth_parent_hash.
    destruct (Z.ltb_spec (CL * 9 / 10) 0); [lia|]. exact Hstart.
  - unfold Tracker.get_chain, Tracker.get_height, Tracker.get_height_and_last.
    destruct (Z.leb_spec (CL / 10) (fst (Tracker.walk_to_last (S (size tracker)) tracker start)));
      [|lia].
    cbn [assert mbind Result_bind]. exact Hwindow.
Qed.

(** What the gate raises, [check] raises: the gate is its first step. *)
Lemma check_raises_with_gate (self : share.t) (tracker : Tracker.t) (e : exn) :
  check_succession self tracker = Raise e -> check self tracker = Raise e.
Proof. intros Hgate. unfold check. by rewrite Hgate. Qed.

(** C4, as the code has it. For a share whose previous share is in the
    tracker (the chain length being non-negative). A previous share whose
    class has this share's class as its [SUCCESSOR] makes [check] raise
    [PeerMisbehavingError] when the height of the previous share is below
    [CHAIN_LENGTH]; otherwise, among the [CHAIN_LENGTH // 10] shares
    starting at the [CHAIN_LENGTH * 9 // 10]-th ancestor of the previous
    share, [check] raises [PeerMisbehavingError] when the work voting for
    this share's [VERSION] is below [total_work * 85 // 100], and the gate
    lets the share through when it is not: the bound is the rounded-down
    one, not 85% of the work. A previous share of any other class than the
    share's own makes [check] raise [PeerMisbehavingError]; a previous
    share of the same class passes the gate. *)
Theorem check_succession_gate (self previous : share.t) (tracker : Tracker.t) (h : Z) :
  let CL := Net.CHAIN_LENGTH (share.net self) in
  let height := Tracker.get_height tracker (Some (share.hash previous)) in
  share_data.previous_share_hash (share.share_data self) = Some h ->
  tracker !! h = Some previous ->
  0 <= CL ->
  (Some (share.cls self) = SUCCESSOR (share.cls previous) ->
   (height < CL ->
    check self tracker = Raise (PeerMisbehavingError "switch without enough history"))
   /\ (CL <= height ->
       exists start window,
         Tracker.get_nth_parent_hash tracker (Some (share.hash previous))
           (CL * 9 / 10) = Ok start
         /\ Tracker.get_chain tracker start (CL / 10) = Ok window
         /\ length window = Z.to_nat (CL / 10)
         /\ (votes_for (VERSION (share.cls self)) window
             < total_votes window * 85 / 100 ->
             check self tracker
             = Raise (PeerMisbehavingError "switch without enough hash power upgraded"))
         /\ (total_votes window * 85 / 100
             <= votes_for (VERSION (share.cls self)) window ->
             check_succession self tracker = Ok tt)))
  /\ (share.cls self <> share.cls previous ->
      Some (share.cls self) <> SUCCESSOR (share.cls previous) ->
      check self tracker
      = Raise (PeerMisbehavingError
                 (class_name (share.cls self) ++ " can't follow "
                  ++ class_name (share.cls previous))))
  /\ (share.cls self = share.cls previous -> check_succession self tracker = Ok tt).
Proof.
  intros CL height Hprev Hitem HCL.
  split; [|split].
  - intros Hsucc. pose proof (successor_differs _ _ Hsucc) as Hne.
    assert (Hgate : check_succession self tracker
            = if height <? CL
              then Raise (PeerMisbehavingError "switch without enough history")
              else
                start ← Tracker.get_nth_parent_hash tracker (Some (share.hash previous))
                          (CL * 9 / 10);
                counts ← get_desired_version_counts tracker start (CL / 10);
                if default 0 (counts !! VERSION (share.cls self))
                   <? sum_values counts * 85 / 100
                then Raise (PeerMisbehavingError
                              "switch without enough hash power upgraded")
                else Ok tt).
    { unfold check_succession. rewrite Hprev. unfold getitem. rewrite Hitem.
      cbn [mbind Result_bind]. rewrite decide_False by done.
      by rewrite decide_True by done. }
    split.
    + intros Hlow. apply check_raises_with_gate. rewrite Hgate.
      by rewrite (proj2 (Z.ltb_lt _ _) Hlow).
    + intros Hhigh. rewrite (proj2 (Z.ltb_ge _ _) Hhigh) in Hgate.
      destruct (vote_window_exists tracker (Some (share.hash previous)) CL HCL Hhigh)
        as (start & window & Hstart & Hwindow & Hlen).
      exists start, window. split; [exact Hstart|]. split; [exact Hwindow|].
      split; [exact Hlen|].
      rewrite Hstart in Hgate. cbn [mbind Result_bind] in Hgate.
      destruct (get_desired_version_counts_Ok tracker start (CL / 10) window Hwindow)
        as (counts & Hcounts & Hvotes & Htotal).
      rewrite Hcounts in Hgate. cbn [mbind Result_bind] in Hgate.
      rewrite Hvotes, Htotal in Hgate. split.
      * intros Hbelow. apply check_raises_with_gate. rewrite Hgate.
        by rewrite (proj2 (Z.ltb_lt _ _) Hbelow).
      * intros Hreached. rewrite Hgate.
        by rewrite (proj2 (Z.ltb_ge _ _) Hreached).
  - intros Hne Hnsucc. apply check_raises_with_gate.
    unfold check_succession. rewrite Hprev. unfold getitem. rewrite Hitem.
    cbn [mbind Result_bind]. rewrite decide_False by done. by rewrite decide_False.
  - intros Hsame. unfold check_succession. rewrite Hprev. unfold getitem.
    rewrite Hitem. cbn [mbind Result_bind]. by rewrite decide_True.
Qed.
End Succession.

(** The spec's own scenario, on a share that is valid in every other
    respect: a V9 share generated and sealed on top of 100 V7 shares of one
    average attempt each of which, in the window of the vote, 8 out of 10
    vote for version 9. 80% of the work is below 85% of it
    ([100 * 8 < 85 * 10]), but [8 < 10 * 85 // 100 = 8] is false: the gate
    lets the share pass and [check] returns its generation transaction. *)
Lemma check_succession_counterexample :
  exists child gentx start window,
    sealed_v9_child eighty_percent_chain 0 = Ok child
    /\ share_data.previous_share_hash (share.share_data child) = Some 100
    /\ eighty_percent_chain !! 100 = Some share_100
    /\ Some (share.cls child) = SUCCESSOR (share.cls share_100)
    /\ Net.CHAIN_LENGTH (share.net child)
       <= Tracker.get_height eighty_percent_chain (Some (share.hash share_100))
    /\ Tracker.get_nth_parent_hash eighty_percent_chain (Some (share.hash share_100))
         (Net.CHAIN_LENGTH (share.net child) * 9 / 10) = Ok start
    /\ Tracker.get_chain eighty_percent_chain start
         (Net.CHAIN_LENGTH (share.net child) / 10) = Ok window
    /\ @votes_for bitcoin.imports (VERSION (share.cls child)) window = 8
    /\ @total_votes bitcoin.imports window = 10
    /\ 100 * @votes_for bitcoin.imports (VERSION (share.cls child)) window
       < 85 * @total_votes bitcoin.imports window
    /\ @check bitcoin.imports child eighty_percent_chain = Ok gentx.
Proof.
  assert (Hchecked : is_Ok (checked_v9_child eighty_percent_chain 0) = true)
    by (vm_compute; reflexivity).
  assert (Hfields :
            (fun s => (share.cls s, share.net s,
                       share_data.previous_share_hash (share.share_data s)))
              <$> sealed_v9_child eighty_percent_chain 0
            = Ok (NewNewShare, net100, Some 100))
    by (vm_compute; reflexivity).
  apply fmap_Ok_inv in Hfields as (child & Hchild & [= Hcls Hnet Hprev]).
  apply is_Ok_true in Hchecked as (gentx & Hgentx).
  unfold checked_v9_child in Hgentx. rewrite Hchild in Hgentx.
  cbn [mbind Result_bind] in Hgentx.
  exists child, gentx. rewrite <- Hcls, <- Hnet, <- Hprev.
  eexists _, _. split; [exact Hchild|]. split; [reflexivity|].
  split; [vm_compute; reflexivity|]. split; [reflexivity|].
  split; [vm_compute; discriminate|].
  split; [vm_compute; reflexivity|]. split; [vm_compute; reflexivity|].
  split; [vm_compute; reflexivity|]. split; [vm_compute; reflexivity|].
  split; [vm_compute; reflexivity|]. exact Hgentx.
Qed.

(** The gate at work: with 7 votes out of 10, [7 < 10 * 85 // 100 = 8] and
    [check] refuses the V9 share. *)
Lemma check_succession_gate_witness :
  share_data.previous_share_hash (share.share_data v9_child) = Some 100
  /\ seventy_percent_chain !! 100 = Some share_100
  /\ Some (share.cls v9_child) = SUCCESSOR (share.cls share_100)
  /\ @check bitcoin.imports v9_child seventy_percent_chain
     = Raise (PeerMisbehavingError "switch without enough hash power upgraded").
Proof.
  assert (Hitem : seventy_percent_chain !! 100 = Some share_100)
    by (vm_compute; reflexivity).
  assert (HCL : 0 <= Net.CHAIN_LENGTH (share.net v9_child))
    by (vm_compute; discriminate).
  split; [reflexivity|]. split; [exact Hitem|]. split; [reflexivity|].
  destruct (@check_succession_gate bitcoin.imports v9_child share_100
              seventy_percent_chain 100 eq_refl Hitem HCL) as (Hsucc & _).
  destruct (Hsucc eq_refl) as [_ Hvote].
  destruct Hvote as (start & window & Hstart & Hwindow & _ & Hraise & _);
    [vm_compute; discriminate|].
  apply Hraise.
  assert (Hstart' :
            Tracker.get_nth_parent_hash seventy_percent_chain
              (Some (share.hash share_100))
              (Net.CHAIN_LENGTH (share.net v9_child) * 9 / 10) = Ok (Some 10))
    by (vm_compute; reflexivity).
  rewrite Hstart' in Hstart. injection Hstart as <-.
  assert (Hbelow :
            (fun w => @votes_for bitcoin.imports (VERSION (share.cls v9_child)) w
                      <? @total_votes bitcoin.imports w * 85 / 100)
              <$> Tracker.get_chain seventy_percent_chain (Some 10)
                    (Net.CHAIN_LENGTH (share.net v9_child) / 10)
            = Ok true)
    by (vm_compute; reflexivity).
  rewrite Hwindow in Hbelow. injection Hbelow as Hbelow.
  by apply Z.ltb_lt.
Defined.

(** ** Share construction *)

Section ConstructionFacts.
Context `{Imports}.

Lemma refs_asserted_spec (si : share_info.t) :
  refs_asserted si = true <->
  (forall x, x ∈ share_info.transaction_hash_refs si -> tx_ref.share_count x < 110)
  /\ (forall i : nat,
        (i < length (share_info.new_transaction_hashes si))%nat ->
        tx_ref.mk 0 (Z.of_nat i) ∈ share_info.transaction_hash_refs si).
Proof.
  unfold refs_asserted. rewrite andb_true_iff, !forallb_forall. split.
  - intros [Hc Hi]. split.
    + intros x Hx%list_elem_of_In. apply Z.ltb_lt, Hc, Hx.
    + intros i Hlt. eapply bool_decide_eq_true, Hi, in_seq. lia.
  - intros [Hc Hi]. split.
    + intros x Hx%list_elem_of_In. apply Z.ltb_lt, Hc, Hx.
    + intros i Hin%in_seq. apply bool_decide_eq_true, Hi. lia.
Qed.

(** What a returning V8 or V9 constructor has checked and computed. *)
Lemma init_with_refs_Ok (cls : ShareClass) (net : Net.t) (peer : option Peer)
    (c : contents.t) (now : Z) (s : share.t) :
  init_with_refs cls net peer c now = Ok s ->
  earlier_checks_pass c = true
  /\ reconstructed_pow_hash cls net c = Ok (share.pow_hash s)
  /\ share.target s = FloatingInteger.target (share_info.bits (contents.share_info c))
  /\ share.target s <= Net.MAX_TARGET net
  /\ share.pow_hash s <= share.target s
  /\ share.cls s = cls
  /\ share.share_info s = contents.share_info c
  /\ share.other_txs s = None.
Proof.
  unfold init_with_refs, earlier_checks_pass, refs_asserted, reconstructed_pow_hash.
  intros Hi.
  destruct (negb _) eqn:Hcb in Hi; [discriminate|].
  apply negb_false_iff in Hcb. rewrite Hcb.
  destruct (16 <? _) eqn:Hbr in Hi; [discriminate|].
  apply Z.ltb_ge in Hbr. rewrite (proj2 (Z.leb_le _ _) Hbr).
  inv_Ok Hi. rewrite Hc. inv_Ok Hi. rewrite Hc0. inv_Ok Hi. rewrite Hc1.
  inv_Ok Hi. rewrite Ha. cbn [mbind Result_bind mret Result_ret].
  destruct (Net.MAX_TARGET net <? _) eqn:Hmax in Hi; [discriminate|].
  destruct (_ <? PARENT_POW_FUNC _ _) eqn:Hpow in Hi; [discriminate|].
  injection Hi as <-. cbn.
  apply Z.ltb_ge in Hmax, Hpow. repeat split; done.
Qed.

(** When the earlier checks pass, the constructor's result is decided by
    the two comparisons of targets. *)
Lemma init_with_refs_bad_pow (cls : ShareClass) (net : Net.t) (peer : option Peer)
    (c : contents.t) (now : Z) (pow : Z) :
  earlier_checks_pass c = true ->
  reconstructed_pow_hash cls net c = Ok pow ->
  FloatingInteger.target (share_info.bits (contents.share_info c)) < pow ->
  is_PeerMisbehaving (init_with_refs cls net peer c now) = true.
Proof.
  unfold init_with_refs, earlier_checks_pass, refs_asserted, reconstructed_pow_hash.
  intros Hchecks Hpow Hlt.
  apply andb_true_iff in Hchecks as [Hchecks Hrefs].
  apply andb_true_iff in Hrefs as [Hr1 Hr2].
  apply andb_true_iff in Hchecks as [Hchecks Hextra].
  apply andb_true_iff in Hchecks as [Hcb Hbr].
  rewrite Hcb. cbn [negb]. apply Z.leb_le in Hbr.
  rewrite (proj2 (Z.ltb_ge _ _) Hbr). rewrite Hextra, Hr1, Hr2.
  cbn [assert mbind Result_bind].
  apply bind_Ok_inv in Hpow as (gentx_hash & -> & [= <-]).
  cbn [mbind Result_bind].
  destruct (Net.MAX_TARGET net <? _); [reflexivity|].
  by rewrite (proj2 (Z.ltb_lt _ _) Hlt).
Qed.

Lemma Share_init_Ok (net : Net.t) (peer : option Peer) (c : common.t)
    (ml : merkle_link.t) (other_txs : option (list tx.t)) (now : Z) (s : share.t) :
  Share_init net peer c ml other_txs now = Ok s ->
  earlier_checks_pass_v7 c ml other_txs = true
  /\ reconstructed_pow_hash_v7 net c ml = Ok (share.pow_hash s)
  /\ share.target s = FloatingInteger.target (share_info.bits (common.share_info c))
  /\ share.pow_hash s <= share.target s
  /\ share.cls s = Share
  /\ share.share_info s = common.share_info c
  /\ share.other_txs s = other_txs.
Proof.
  unfold Share_init, earlier_checks_pass_v7, reconstructed_pow_hash_v7. intros Hi.
  destruct (100 <? _) eqn:Hcb in Hi; [discriminate|].
  apply Z.ltb_ge in Hcb. rewrite (proj2 (Z.leb_le _ _) Hcb).
  destruct (16 <? _) eqn:Hbr in Hi; [discriminate|].
  apply Z.ltb_ge in Hbr. rewrite (proj2 (Z.leb_le _ _) Hbr).
  destruct (DEBUG && _) eqn:Hdbg in Hi; [discriminate|]. rewrite Hdbg.
  inv_Ok Hi. rewrite Hc. inv_Ok Hi. rewrite Ha.
  cbn [mbind Result_bind mret Result_ret].
  destruct (_ <? PARENT_POW_FUNC _ _) eqn:Hpow in Hi; [discriminate|].
  destruct (bool_decide (other_txs ≠ None) && _) in Hi; [discriminate|].
  destruct (bool_decide (other_txs = None) && _) in Hi; [discriminate|].
  injection Hi as <-. cbn. apply Z.ltb_ge in Hpow. repeat split; done.
Qed.

Lemma Share_init_bad_pow (net : Net.t) (peer : option Peer) (c : common.t)
    (ml : merkle_link.t) (other_txs : option (list tx.t)) (now : Z) (pow : Z) :
  earlier_checks_pass_v7 c ml other_txs = true ->
  reconstructed_pow_hash_v7 net c ml = Ok pow ->
  FloatingInteger.target (share_info.bits (common.share_info c)) < pow ->
  Share_init net peer c ml other_txs now
  = Raise (PeerMisbehavingError "share PoW invalid").
Proof.
  unfold Share_init, earlier_checks_pass_v7, reconstructed_pow_hash_v7.
  intros Hchecks Hpow Hlt.
  apply andb_true_iff in Hchecks as [Hchecks Hextra].
  apply andb_true_iff in Hchecks as [Hchecks Hdbg].
  apply andb_true_iff in Hchecks as [Hcb Hbr].
  apply Z.leb_le in Hcb, Hbr. apply negb_true_iff in Hdbg.
  rewrite (proj2 (Z.ltb_ge _ _) Hcb), (proj2 (Z.ltb_ge _ _) Hbr), Hdbg, Hextra.
  cbn [assert mbind Result_bind].
  apply bind_Ok_inv in Hpow as (gentx_hash & -> & [= <-]).
  cbn [mbind Result_bind].
  by rewrite (proj2 (Z.ltb_lt _ _) Hlt).
Qed.
End ConstructionFacts.

(** C9. A V8 or V9 share that has been constructed ([init_with_refs] is
    the body of [NewShare.__init__] and of [NewNewShare.__init__]) keeps the
    share info it was given, every entry of its [transaction_hash_refs] has
    [share_count < 110], and for every index [i] into its
    [new_transaction_hashes] the ref [{share_count: 0, tx_count: i}] is
    among its refs. When one of the two fails, the construction raises. *)
Theorem init_with_refs_checks_refs `{Imports} (cls : ShareClass) (net : Net.t)
    (peer : option Peer) (c : contents.t) (now : Z) :
  (forall s,
      init_with_refs cls net peer c now = Ok s ->
      share.share_info s = contents.share_info c
      /\ share.new_transaction_hashes s
         = share_info.new_transaction_hashes (contents.share_info c)
      /\ (forall x, x ∈ share_info.transaction_hash_refs (share.share_info s) ->
                    tx_ref.share_count x < 110)
      /\ (forall i : nat,
            (i < length (share_info.new_transaction_hashes (share.share_info s)))%nat ->
            tx_ref.mk 0 (Z.of_nat i)
            ∈ share_info.transaction_hash_refs (share.share_info s)))
  /\ (~ ((forall x, x ∈ share_info.transaction_hash_refs (contents.share_info c) ->
                    tx_ref.share_count x < 110)
         /\ (forall i : nat,
               (i < length (share_info.new_transaction_hashes (contents.share_info c)))%nat ->
               tx_ref.mk 0 (Z.of_nat i)
               ∈ share_info.transaction_hash_refs (contents.share_info c))) ->
      exists e, init_with_refs cls net peer c now = Raise e).
Proof.
  assert (Hok : forall s, init_with_refs cls net peer c now = Ok s ->
            share.share_info s = contents.share_info c
            /\ share.new_transaction_hashes s
               = share_info.new_transaction_hashes (contents.share_info c)
            /\ refs_asserted (contents.share_info c) = true).
  { intros s Hs. pose proof (init_with_refs_Ok _ _ _ _ _ _ Hs)
      as (Hchecks & _ & _ & _ & _ & _ & Hsi & _).
    split; [exact Hsi|]. split.
    - unfold init_with_refs in Hs.
      repeat (first [inv_Ok Hs | destruct (_ <? _) in Hs; [discriminate|]]).
      by subst s.
    - unfold earlier_checks_pass in Hchecks. by apply andb_true_iff in Hchecks as [_ ?]. }
  split.
  - intros s Hs. destruct (Hok s Hs) as (Hsi & Hnew & Hrefs).
    split; [exact Hsi|]. split; [exact Hnew|]. rewrite Hsi.
    by apply refs_asserted_spec.
  - intros Hbad. destruct (init_with_refs cls net peer c now) as [s|e] eqn:Hs; [|eauto].
    exfalso. apply Hbad. destruct (Hok s eq_refl) as (_ & _ & Hrefs).
    by apply refs_asserted_spec.
Qed.

Lemma init_with_refs_checks_refs_witness :
  exists s,
    @NewNewShare_init bitcoin.imports net100 None
      (example_contents [x00; x00] (2 ^ 256 - 1) [12345] [tx_ref.mk 0 0]) 2000 = Ok s
    /\ forall x, x ∈ share_info.transaction_hash_refs (share.share_info s) ->
                 tx_ref.share_count x < 110.
Proof.
  assert (Hok : is_Ok
            (@init_with_refs bitcoin.imports NewNewShare net100 None
               (example_contents [x00; x00] (2 ^ 256 - 1) [12345] [tx_ref.mk 0 0]) 2000)
          = true) by (vm_compute; reflexivity).
  destruct (is_Ok_true _ Hok) as [s Hs].
  exists s. split; [exact Hs|].
  pose proof (proj1 (@init_with_refs_checks_refs bitcoin.imports NewNewShare net100 None
                       (example_contents [x00; x00] (2 ^ 256 - 1) [12345] [tx_ref.mk 0 0])
                       2000) s Hs) as (_ & _ & Hcount & _).
  exact Hcount.
Defined.

(** C5. A constructor of any version returns a share only if the
    proof-of-work hash of the header it rebuilds is at most the share's
    target, so every share object, also one that [load_share] makes from
    wire contents, has [pow_hash <= target]. The proof of work is the last
    thing a constructor looks at: when it gets there (the checks before it
    pass and the hash link gives the header) and the hash exceeds the
    target, it raises [PeerMisbehavingError], with the message
    [share PoW invalid], or, in V8 and V9, [share target invalid] when the
    target is itself above [MAX_TARGET]. *)
Theorem constructors_check_proof_of_work `{Imports} (net : Net.t) (peer : option Peer)
    (now : Z) :
  (forall (cls : ShareClass) (c : contents.t),
      (forall s,
          init_with_refs cls net peer c now = Ok s ->
          reconstructed_pow_hash cls net c = Ok (share.pow_hash s)
          /\ share.target s
             = FloatingInteger.target (share_info.bits (contents.share_info c))
          /\ share.pow_hash s <= share.target s)
      /\ (forall pow,
            earlier_checks_pass c = true ->
            reconstructed_pow_hash cls net c = Ok pow ->
            FloatingInteger.target (share_info.bits (contents.share_info c)) < pow ->
            init_with_refs cls net peer c now
            = Raise (PeerMisbehavingError
                       (if Net.MAX_TARGET net
                           <? FloatingInteger.target
                                (share_info.bits (contents.share_info c))
                        then "share target invalid" else "share PoW invalid"))))
  /\ (forall (c : common.t) (ml : merkle_link.t) (other_txs : option (list tx.t)),
        (forall s,
            Share_init net peer c ml other_txs now = Ok s ->
            reconstructed_pow_hash_v7 net c ml = Ok (share.pow_hash s)
            /\ share.target s
               = FloatingInteger.target (share_info.bits (common.share_info c))
            /\ share.pow_hash s <= share.target s)
        /\ (forall pow,
              earlier_checks_pass_v7 c ml other_txs = true ->
              reconstructed_pow_hash_v7 net c ml = Ok pow ->
              FloatingInteger.target (share_info.bits (common.share_info c)) < pow ->
              Share_init net peer c ml other_txs now
              = Raise (PeerMisbehavingError "share PoW invalid")))
  /\ (forall (sh : envelope.t) (s : share.t),
        load_share sh net peer now = Ok s -> share.pow_hash s <= share.target s).
Proof.
  split; [|split].
  - intros cls c. split.
    + intros s Hs. apply init_with_refs_Ok in Hs as (_ & Hp & Ht & _ & Hle & _). auto.
    + intros pow Hchecks Hpow Hlt.
      unfold init_with_refs. revert Hchecks Hpow.
      unfold earlier_checks_pass, refs_asserted, reconstructed_pow_hash.
      intros Hchecks Hpow.
      apply andb_true_iff in Hchecks as [Hchecks Hrefs].
      apply andb_true_iff in Hrefs as [Hr1 Hr2].
      apply andb_true_iff in Hchecks as [Hchecks Hextra].
      apply andb_true_iff in Hchecks as [Hcb Hbr].
      rewrite Hcb. cbn [negb]. apply Z.leb_le in Hbr.
      rewrite (proj2 (Z.ltb_ge _ _) Hbr). rewrite Hextra, Hr1, Hr2.
      cbn [assert mbind Result_bind].
      apply bind_Ok_inv in Hpow as (gentx_hash & -> & [= <-]).
      cbn [mbind Result_bind].
      destruct (Net.MAX_TARGET net <? _); [reflexivity|].
      by rewrite (proj2 (Z.ltb_lt _ _) Hlt).
  - intros c ml other_txs. split.
    + intros s Hs. apply Share_init_Ok in Hs as (_ & Hp & Ht & Hle & _). auto.
    + intros pow Hchecks Hpow Hlt. by apply (Share_init_bad_pow _ _ _ _ _ _ pow).
  - intros sh s. unfold load_share, NewShare_init, NewNewShare_init. intros Hl.
    destruct (bool_decide _) in Hl; [discriminate|].
    destruct (_ =? 4) in Hl.
    { apply bind_Ok_inv in Hl as ([c ml] & _ & Hs).
      by apply Share_init_Ok in Hs as (_ & _ & _ & Hle & _). }
    destruct (_ =? 5) in Hl.
    { apply bind_Ok_inv in Hl as ([c txs] & _ & Hs).
      by apply Share_init_Ok in Hs as (_ & _ & _ & Hle & _). }
    destruct (_ =? VERSION NewShare) in Hl.
    { apply bind_Ok_inv in Hl as (c & _ & Hs).
      by apply init_with_refs_Ok in Hs as (_ & _ & _ & _ & Hle & _). }
    destruct (_ =? VERSION NewNewShare) in Hl; [|discriminate].
    apply bind_Ok_inv in Hl as (c & _ & Hs).
    by apply init_with_refs_Ok in Hs as (_ & _ & _ & _ & Hle & _).
Qed.

(** A V9 share with a target of 0 passes the checks before the proof of
    work and is refused for it; with the largest target it is built, and
    its proof of work is below its target. *)
Lemma constructors_check_proof_of_work_witness :
  @init_with_refs bitcoin.imports NewNewShare net100 None
    (example_contents [x00; x00] 0 [] []) 2000
  = Raise (PeerMisbehavingError "share PoW invalid")
  /\ exists s,
       @init_with_refs bitcoin.imports NewNewShare net100 None
         (example_contents [x00; x00] (2 ^ 256 - 1) [] []) 2000 = Ok s
       /\ share.pow_hash s <= share.target s.
Proof.
  split.
  - assert (Hex : exists pow,
              @reconstructed_pow_hash bitcoin.imports NewNewShare net100
                (example_contents [x00; x00] 0 [] []) = Ok pow
              /\ FloatingInteger.target
                   (share_info.bits
                      (contents.share_info (example_contents [x00; x00] 0 [] []))) < pow).
    { vm_compute. eexists. split; reflexivity. }
    destruct Hex as (pow & Hpow & Hlt).
    assert (Hchecks : earlier_checks_pass (example_contents [x00; x00] 0 [] []) = true)
      by reflexivity.
    exact (proj2 (proj1 (@constructors_check_proof_of_work bitcoin.imports
                           net100 None 2000)
                    NewNewShare (example_contents [x00; x00] 0 [] []))
             pow Hchecks Hpow Hlt).
  - assert (Hok : is_Ok (@init_with_refs bitcoin.imports NewNewShare net100 None
                           (example_contents [x00; x00] (2 ^ 256 - 1) [] []) 2000) = true)
      by (vm_compute; reflexivity).
    destruct (is_Ok_true _ Hok) as [s Hs]. exists s. split; [exact Hs|].
    destruct (proj1 (proj1 (@constructors_check_proof_of_work bitcoin.imports
                              net100 None 2000)
                       NewNewShare (example_contents [x00; x00] (2 ^ 256 - 1) [] [])) s Hs)
      as (_ & _ & Hle).
    exact Hle.
Defined.

(** ** The share envelope *)

Section LoadShare.
Context `{Imports}.

(** C7, as the code has it. [load_share] raises [PeerMisbehavingError]
    for the obsolete types 0 to 3, and [ValueError] for every type outside
    [{0, 1, 2, 3, 4, 5, 8, 9}]. The types 4 and 5 go to the V7
    constructor (without and with the transactions, the merkle link being
    recomputed for type 5), the type 8 to the V8 and the type 9 to the V9
    constructor: a share that [load_share] returns has the class of its
    envelope's type. *)
Theorem load_share_dispatch (sh : envelope.t) (net : Net.t) (peer : option Peer)
    (now : Z) :
  (envelope.type sh ∈ [0; 1; 2; 3] ->
   load_share sh net peer now = Raise (PeerMisbehavingError "sent an obsolete share"))
  /\ (envelope.type sh ∉ [0; 1; 2; 3; 4; 5; 8; 9] ->
      load_share sh net peer now = Raise (ValueError "unknown share type"))
  /\ (envelope.type sh = 4 ->
      load_share sh net peer now
      = '(c, ml) ← share1a_type_unpack (envelope.contents sh);
        Share_init net peer c ml None now)
  /\ (envelope.type sh = 5 ->
      load_share sh net peer now
      = '(c, other_txs) ← share1b_type_unpack (envelope.contents sh);
        Share_init net peer c
          (calculate_merkle_link
             (Some 0 :: map (fun x => Some (hash256 (tx_type_pack x))) other_txs) 0)
          (Some other_txs) now)
  /\ (envelope.type sh = 8 ->
      load_share sh net peer now
      = c ← NewShare_share_type_unpack (envelope.contents sh);
        NewShare_init net peer c now)
  /\ (envelope.type sh = 9 ->
      load_share sh net peer now
      = c ← NewNewShare_share_type_unpack (envelope.contents sh);
        NewNewShare_init net peer c now)
  /\ (forall s,
        load_share sh net peer now = Ok s ->
        (envelope.type sh = 4 /\ share.cls s = Share /\ share.other_txs s = None)
        \/ (envelope.type sh = 5 /\ share.cls s = Share
            /\ exists txs, share.other_txs s = Some txs)
        \/ (envelope.type sh = 8 /\ share.cls s = NewShare)
        \/ (envelope.type sh = 9 /\ share.cls s = NewNewShare)).
Proof.
  unfold load_share. cbn [VERSION].
  repeat split.
  - intros Hobs. by rewrite bool_decide_eq_true_2.
  - intros Hunk.
    assert (Hne : forall k, k ∈ [0; 1; 2; 3; 4; 5; 8; 9] -> envelope.type sh <> k)
      by (intros k Hk Heq; apply Hunk; rewrite Heq; exact Hk).
    rewrite bool_decide_eq_false_2.
    2: { intros Hin%list_elem_of_In. apply Hunk, list_elem_of_In.
         cbn in Hin |- *. tauto. }
    destruct (Z.eqb_spec (envelope.type sh) 4) as [Heq|_];
      [exfalso; apply (Hne 4); [in_literals|done]|].
    destruct (Z.eqb_spec (envelope.type sh) 5) as [Heq|_];
      [exfalso; apply (Hne 5); [in_literals|done]|].
    destruct (Z.eqb_spec (envelope.type sh) 8) as [Heq|_];
      [exfalso; apply (Hne 8); [in_literals|done]|].
    destruct (Z.eqb_spec (envelope.type sh) 9) as [Heq|_];
      [exfalso; apply (Hne 9); [in_literals|done]|].
    reflexivity.
  - intros ->. reflexivity.
  - intros ->. reflexivity.
  - intros ->. reflexivity.
  - intros ->. reflexivity.
  - intros s Hs.
    destruct (bool_decide _) in Hs; [discriminate|].
    destruct (Z.eqb_spec (envelope.type sh) 4) as [H4|_].
    { left. inv_Ok Hs. destruct a as [c ml].
      apply Share_init_Ok in Hs as (_ & _ & _ & _ & Hcls & _ & Htxs). auto. }
    destruct (Z.eqb_spec (envelope.type sh) 5) as [H5|_].
    { right. left. inv_Ok Hs. destruct a as [c txs].
      apply Share_init_Ok in Hs as (_ & _ & _ & _ & Hcls & _ & Htxs). eauto. }
    destruct (Z.eqb_spec (envelope.type sh) 8) as [H8|_].
    { right. right. left. inv_Ok Hs.
      apply init_with_refs_Ok in Hs as (_ & _ & _ & _ & _ & Hcls & _). auto. }
    destruct (Z.eqb_spec (envelope.type sh) 9) as [H9|_]; [|discriminate].
    right. right. right. inv_Ok Hs.
    apply init_with_refs_Ok in Hs as (_ & _ & _ & _ & _ & Hcls & _). auto.
Qed.
End LoadShare.

(** An envelope of type 6: [ValueError], not [PeerMisbehavingError]. *)
Lemma load_share_dispatch_counterexample :
  (envelope.type (envelope.mk 6 []) ∉ [0; 1; 2; 3; 4; 5; 8; 9])
  /\ @load_share bitcoin.imports (envelope.mk 6 []) net100 None 2000
     = Raise (ValueError "unknown share type")
  /\ is_PeerMisbehaving (@load_share bitcoin.imports (envelope.mk 6 []) net100 None 2000)
     = false.
Proof.
  split; [|split; reflexivity].
  intros Hin%list_elem_of_In. cbn in Hin. intuition discriminate.
Qed.

Lemma load_share_dispatch_witness :
  @load_share bitcoin.imports (envelope.mk 2 []) net100 None 2000
  = Raise (PeerMisbehavingError "sent an obsolete share")
  /\ @load_share bitcoin.imports (envelope.mk 7 []) net100 None 2000
     = Raise (ValueError "unknown share type").
Proof.
  split.
  - apply (proj1 (@load_share_dispatch bitcoin.imports (envelope.mk 2 []) net100 None 2000)).
    in_literals.
  - apply (proj1 (proj2 (@load_share_dispatch bitcoin.imports (envelope.mk 7 []) net100
                           None 2000))).
    intros Hin%list_elem_of_In. cbn in Hin. intuition discriminate.
Defined.

(** ** The requests [think] returns *)

Section Think.
Context `{Imports}.

Lemma think_cutoffs_Ok (tracker : Tracker.t) (net : Net.t) (now : Z)
    (previous_block : option Z) (bits : FloatingInteger.t) (known_txs : gmap Z tx.t)
    (best_tail_score : option (Z * option Z)) (decorated_heads : list decorated_head)
    (best : option Z) (timestamp_cutoff target_cutoff : Z) :
  think_cutoffs tracker net now previous_block bits known_txs best_tail_score
    decorated_heads = Ok (best, timestamp_cutoff, target_cutoff) ->
  match last decorated_heads with
  | None =>
      best = None /\ timestamp_cutoff = now - 86400 /\ target_cutoff = 2 ^ 256 - 1
  | Some (_, b) =>
      exists best_share,
        tracker !! b = Some best_share
        /\ timestamp_cutoff = Z.min now (share.timestamp best_share) - 3600
        /\ match best_tail_score with
           | Some (_, Some rate) =>
               target_cutoff = 2 ^ 256 / (Net.SHARE_PERIOD net * rate + 1) * 2
           | Some (_, None) => target_cutoff = 2 ^ 256 - 1
           | None => False
           end
  end.
Proof.
  unfold think_cutoffs. destruct (last decorated_heads) as [[score b]|]; cbn.
  - intros Hc. inv_Ok Hc. apply getitem_Ok in Ha. exists a. split; [exact Ha|].
    inv_Ok Hc. destruct a0 as [punish reason]. inv_Ok Hc. injection Hc as _ <- <-.
    split; [reflexivity|].
    destruct best_tail_score as [[height [rate|]]|]; [| |discriminate].
    + destruct (_ =? 0) in Ha1; [discriminate|]. by injection Ha1 as <-.
    + by injection Ha1 as <-.
  - intros [= <- <- <-]. done.
Qed.

(** C1, as the code has it. When [think] returns, its list of requests
    holds the pairs [(peer, hash)] of exactly those entries
    [(peer, hash, ts, targ)] of [desired] with [ts >= timestamp_cutoff],
    where [timestamp_cutoff = min(now, best_share.timestamp) - 3600], or
    [now - 86400] without a best head. The target cutoff, which is
    [2 ^ 256 // (SHARE_PERIOD * best_tail_rate + 1) * 2], or [2 ^ 256 - 1]
    without a rate or without a best head, takes no part in it. *)
Theorem think_return_requests (tracker : Tracker.t) (net : Net.t) (now : Z)
    (previous_block : option Z) (bits : FloatingInteger.t) (known_txs : gmap Z tx.t)
    (best_tail_score : option (Z * option Z)) (decorated_heads : list decorated_head)
    (desired : list desired_entry)
    (best : option Z) (want : list (option Peer * Z)) (heads : list decorated_head) :
  think_return tracker net now previous_block bits known_txs best_tail_score
    decorated_heads desired = Ok (best, want, heads) ->
  exists timestamp_cutoff target_cutoff,
    think_cutoffs tracker net now previous_block bits known_txs best_tail_score
      decorated_heads = Ok (best, timestamp_cutoff, target_cutoff)
    /\ heads = decorated_heads
    /\ match last decorated_heads with
       | None =>
           best = None /\ timestamp_cutoff = now - 86400
           /\ target_cutoff = 2 ^ 256 - 1
       | Some (_, b) =>
           exists best_share,
             tracker !! b = Some best_share
             /\ timestamp_cutoff = Z.min now (share.timestamp best_share) - 3600
             /\ match best_tail_score with
                | Some (_, Some rate) =>
                    target_cutoff = 2 ^ 256 / (Net.SHARE_PERIOD net * rate + 1) * 2
                | Some (_, None) => target_cutoff = 2 ^ 256 - 1
                | None => False
                end
       end
    /\ forall peer hash,
         (peer, hash) ∈ want
         <-> exists ts targ, (peer, hash, ts, targ) ∈ desired /\ timestamp_cutoff <= ts.
Proof.
  unfold think_return. intros Hr. inv_Ok Hr.
  destruct a as [[best' timestamp_cutoff] target_cutoff]. injection Hr as <- <- <-.
  exists timestamp_cutoff, target_cutoff. split; [exact Ha|]. split; [reflexivity|].
  split; [by apply (think_cutoffs_Ok _ _ _ _ _ _ _ _ _ _ _ Ha)|].
  intros peer hash. rewrite list_elem_of_In, in_map_iff. split.
  - intros ([[[p h] ts] targ] & [= <- <-] & [Hin Hts]%filter_In).
    exists ts, targ. split; [by apply list_elem_of_In|]. by apply Z.leb_le.
  - intros (ts & targ & Hin%list_elem_of_In & Hts).
    exists (peer, hash, ts, targ). split; [reflexivity|].
    apply filter_In. split; [exact Hin|]. by apply Z.leb_le.
Qed.
End Think.

(** A desired parent whose target [2 ^ 255] is above the target cutoff
    [2 ^ 256 // 31 * 2] is requested all the same. *)
Lemma think_return_requests_counterexample :
  @think_cutoffs bitcoin.imports eighty_percent_chain net100 2100 None zero_bits ∅
    (Some (100, Some 1)) [((100, 0, -2000), 100)]
  = Ok (Some 100, 2000 - 3600, 2 ^ 256 / (30 * 1 + 1) * 2)
  /\ (None, 555, 2000, 2 ^ 255) ∈ [(None : option Peer, 555, 2000, 2 ^ 255)]
  /\ ~ (2 ^ 255 <= 2 ^ 256 / (30 * 1 + 1) * 2)
  /\ think_example = Ok (Some 100, [(None, 555)], [((100, 0, -2000), 100)]).
Proof.
  split; [vm_compute; reflexivity|]. split; [left|].
  split; [vm_compute; intros Hle; apply Hle; reflexivity|].
  vm_compute. reflexivity.
Qed.

Lemma think_return_requests_witness :
  exists timestamp_cutoff,
    forall peer hash,
      (peer, hash) ∈ [(None : option Peer, 555)]
      <-> exists ts targ,
            (peer, hash, ts, targ) ∈ [(None : option Peer, 555, 2000, 2 ^ 255)]
            /\ timestamp_cutoff <= ts.
Proof.
  assert (Hcall : think_example = Ok (Some 100, [(None, 555)], [((100, 0, -2000), 100)]))
    by (vm_compute; reflexivity).
  destruct (@think_return_requests bitcoin.imports eighty_percent_chain net100 2100 None
              zero_bits ∅ (Some (100, Some 1)) [((100, 0, -2000), 100)]
              [(None, 555, 2000, 2 ^ 255)] (Some 100) [(None, 555)]
              [((100, 0, -2000), 100)] Hcall)
    as (timestamp_cutoff & target_cutoff & _ & _ & _ & Hwant).
  exists timestamp_cutoff. exact Hwant.
Defined.
(** * Further properties of the code *)

(** ** The weights skip list: what the walk keeps *)

(** Adding dictionaries adds their sums. *)
Lemma union_with_insert_l (m b : gmap bytes Z) (k : bytes) (x : Z) :
  m !! k = None ->
  union_with (fun a c => Some (a + c)) (<[k:=x]> m) b
  = <[k := x + default 0 (b !! k)]>
      (union_with (fun a c => Some (a + c)) m (delete k b)).
Proof.
  intros Hk. apply map_eq. intros j.
  rewrite lookup_union_with. destruct (decide (j = k)) as [->|Hne].
  - rewrite !lookup_insert_eq. destruct (b !! k); cbn; f_equal; lia.
  - rewrite !lookup_insert_ne by done. rewrite lookup_union_with.
    by rewrite lookup_delete_ne.
Qed.

Lemma sum_values_union_with (a : gmap bytes Z) : forall b : gmap bytes Z,
  sum_values (union_with (fun x y => Some (x + y)) a b) = sum_values a + sum_values b.
Proof.
  induction a as [|k x m Hk IH] using map_ind; intros b.
  - rewrite (left_id_L ∅ (union_with _)). rewrite sum_values_empty. lia.
  - rewrite union_with_insert_l by done.
    rewrite sum_values_insert_None.
    2:{ rewrite lookup_union_with, Hk, lookup_delete_eq. done. }
    rewrite IH, sum_values_insert_None by done.
    destruct (b !! k) as [y|] eqn:Hb; cbn.
    + rewrite (sum_values_delete b k y Hb). lia.
    + rewrite delete_id by done. lia.
Qed.

(** The sum over a list of weight dictionaries. *)
Lemma add_dicts_sum (ds : list (gmap bytes Z)) :
  sum_values (add_dicts ds) = foldr Z.add 0 (sum_values <$> ds).
Proof.
  unfold add_dicts.
  assert (Hgen : forall acc : gmap bytes Z,
             sum_values (fold_left (union_with (fun a b => Some (a + b))) ds acc)
             = sum_values acc + foldr Z.add 0 (sum_values <$> ds)).
  { induction ds as [|d ds IH]; intros acc; cbn; [lia|].
    rewrite IH, sum_values_union_with. lia. }
  rewrite Hgen, sum_values_empty. lia.
Qed.

Lemma sum_values_singleton (k : bytes) (v : Z) :
  sum_values ({[ k := v ]} : gmap bytes Z) = v.
Proof.
  rewrite <- insert_empty, sum_values_insert_None by apply lookup_empty.
  rewrite sum_values_empty. lia.
Qed.

(** X1. [finalize] accepts a solution exactly when [judge] rates it [0]:
    the two assertions of [finalize] are the stopping condition of the
    walk, so a solution the walk stops at is never refused. *)
Theorem finalize_accepts_what_judge_stops_at (sol : WeightsSkipList.solution)
    (a : WeightsSkipList.args) :
  is_Ok (WeightsSkipList.finalize sol a) = true <-> WeightsSkipList.judge sol a = 0.
Proof.
  destruct sol as [[[share_count weights_list] total_weight] donation_weight].
  destruct a as [max_shares desired_weight].
  unfold WeightsSkipList.finalize, WeightsSkipList.judge.
  destruct (Z.ltb_spec max_shares share_count), (Z.ltb_spec desired_weight total_weight),
    (Z.leb_spec share_count max_shares), (Z.leb_spec total_weight desired_weight),
    (Z.eqb_spec share_count max_shares), (Z.eqb_spec total_weight desired_weight);
    cbn; split; intros; try done; try lia.
Qed.

(** One step of the walk: the delta of one share applied to a balanced
    solution. *)
Lemma apply_delta_balance_aux `{Imports} (tracker : Tracker.t) (element : Z)
    (d : WeightsSkipList.delta) (sol sol' : WeightsSkipList.solution)
    (a : WeightsSkipList.args) :
  WeightsSkipList.get_delta tracker element = Ok d ->
  WeightsSkipList.apply_delta sol d a = Ok sol' ->
  balanced sol ->
  balanced sol'.
Proof.
  intros (s & _ & ->)%get_delta_Ok.
  destruct sol as [[[share_count1 weights_list] total_weight1] donation1].
  destruct a as [max_shares desired_weight].
  set (att := target_to_average_attempts (share.target s)).
  set (don := share_data.donation (share.share_data s)).
  unfold WeightsSkipList.apply_delta, balanced.
  destruct (_ && _) eqn:Hover.
  - intros Ha Hbal. inv_Ok Ha. apply Z.eqb_eq in Hc.
    rewrite map_to_list_singleton in Ha. cbn [mbind Result_bind] in Ha.
    rewrite Z.div_mul in Ha by lia.
    destruct (Z.eqb_spec att 0) as [|Hatt]; [discriminate|].
    injection Ha as <-.
    rewrite lookup_total_singleton_eq. cbn [fmap list_fmap foldr].
    rewrite sum_values_singleton.
    set (k := (desired_weight - total_weight1) / 65535).
    assert (Hk : desired_weight - total_weight1 = 65535 * k).
    { unfold k. apply Z.div_exact; [lia | exact Hc]. }
    replace (k * (att * (65535 - don))) with (k * (65535 - don) * att) by lia.
    replace (k * (att * don)) with (k * don * att) by lia.
    rewrite !Z.div_mul by done. change (list_fmap _ _ ?f ?l) with (f <$> l). lia.
  - intros [= <-] Hbal. cbn [fmap list_fmap foldr].
    rewrite sum_values_singleton. change (list_fmap _ _ ?f ?l) with (f <$> l). lia.
Qed.

(** X2. [apply_delta] keeps the books balanced: applied to the delta of
    one share ([get_delta]), it turns a solution whose total weight is the
    sum of its weights plus its donation weight into another such
    solution, in the truncating branch as in the plain one. *)
Theorem apply_delta_keeps_balance `{Imports} (tracker : Tracker.t) (element : Z)
    (d : WeightsSkipList.delta) (sol sol' : WeightsSkipList.solution)
    (a : WeightsSkipList.args) :
  WeightsSkipList.get_delta tracker element = Ok d ->
  WeightsSkipList.apply_delta sol d a = Ok sol' ->
  balanced sol ->
  balanced sol'.
Proof. apply apply_delta_balance_aux. Qed.

Lemma apply_delta_keeps_balance_witness :
  balanced (0, [], 0, 0)
  /\ exists sol',
       WeightsSkipList.apply_delta (0, [], 0, 0) double_share_delta (3, 65535) = Ok sol'
       /\ balanced sol'.
Proof.
  split; [reflexivity|].
  assert (Hok : is_Ok (WeightsSkipList.apply_delta (0, [], 0, 0) double_share_delta
                         (3, 65535)) = true) by (vm_compute; reflexivity).
  destruct (is_Ok_true _ Hok) as [sol' Hsol].
  exists sol'. split; [exact Hsol|].
  apply (@apply_delta_keeps_balance bitcoin.imports three_double_shares 1
           double_share_delta (0, [], 0, 0) sol' (3, 65535) double_share_get_delta Hsol).
  reflexivity.
Defined.

Section WeightsWalkFacts.
Context `{Imports}.

Lemma walk_keeps_balance (tracker : Tracker.t) (a : WeightsSkipList.args) (fuel : nat) :
  forall (pos : option Z) (sol sol' : WeightsSkipList.solution),
    WeightsSkipList.walk tracker fuel pos sol a = Ok sol' ->
    balanced sol ->
    balanced sol' /\ WeightsSkipList.judge sol' a = 0.
Proof.
  induction fuel as [|f IH]; intros pos sol sol' Hw Hbal; [discriminate|].
  cbn [WeightsSkipList.walk] in Hw. destruct pos as [p|]; [|discriminate].
  apply bind_Ok_inv in Hw as (d & Hd & Hw).
  apply bind_Ok_inv in Hw as (s & Hs & Hw).
  apply bind_Ok_inv in Hw as (sol_if & Hap & Hw).
  assert (Hbal' : balanced sol_if).
  { exact (apply_delta_balance_aux tracker p d sol sol_if a Hd Hap Hbal). }
  destruct (Z.eqb_spec (WeightsSkipList.judge sol_if a) 0) as [Hj|Hj].
  - injection Hw as <-. done.
  - destruct (_ <? 0); [|discriminate]. exact (IH _ _ _ Hw Hbal').
Qed.
End WeightsWalkFacts.

(** X3. What [get_cumulative_weights] returns is balanced and within the
    query: the total weight is the sum of the returned weights plus the
    donation weight, and it does not exceed [desired_weight]. The
    assertion that [generate_transaction] makes on the result cannot
    fail. *)
Theorem get_cumulative_weights_balanced `{Imports} (tracker : Tracker.t)
    (start : option Z) (max_shares desired_weight : Z)
    (weights : gmap bytes Z) (total_weight donation_weight : Z) :
  WeightsSkipList.get_cumulative_weights tracker start max_shares desired_weight
  = Ok (weights, total_weight, donation_weight) ->
  total_weight = sum_values weights + donation_weight
  /\ total_weight <= desired_weight
  /\ desired_weight mod 65535 = 0.
Proof.
  unfold WeightsSkipList.get_cumulative_weights, WeightsSkipList.solve.
  intros Hg. apply bind_Ok_inv in Hg as (sol & Hs & Hf).
  apply bind_Ok_inv in Hs as (sol0 & Hi & Hs).
  unfold WeightsSkipList.initial_solution in Hi.
  apply bind_Ok_inv in Hi as (u & Hm%assert_Ok_inv & [= <-]). apply Z.eqb_eq in Hm.
  assert (Hbal : balanced sol).
  { destruct (_ =? 0) in Hs.
    - injection Hs as <-. reflexivity.
    - eapply walk_keeps_balance; [exact Hs | reflexivity]. }
  destruct sol as [[[share_count weights_list] tw] dw].
  unfold WeightsSkipList.finalize in Hf.
  apply bind_Ok_inv in Hf as (u1 & Hle%assert_Ok_inv & Hf).
  apply bind_Ok_inv in Hf as (u2 & _ & [= <- <- <-]).
  apply andb_true_iff in Hle as [_ Hle%Z.leb_le].
  rewrite add_dicts_sum. unfold balanced in Hbal. done.
Qed.

Lemma get_cumulative_weights_balanced_witness :
  exists weights total_weight donation_weight,
    @WeightsSkipList.get_cumulative_weights bitcoin.imports ten_unit_shares (Some 10)
      5 (5 * 65535) = Ok (weights, total_weight, donation_weight)
    /\ total_weight = sum_values weights + donation_weight
    /\ total_weight <= 5 * 65535.
Proof.
  assert (Hok : is_Ok (@WeightsSkipList.get_cumulative_weights bitcoin.imports
                         ten_unit_shares (Some 10) 5 (5 * 65535)) = true)
    by (vm_compute; reflexivity).
  destruct (is_Ok_true _ Hok) as [[[weights total_weight] donation_weight] Hcall].
  exists weights, total_weight, donation_weight. split; [exact Hcall|].
  destruct (@get_cumulative_weights_balanced bitcoin.imports ten_unit_shares (Some 10)
              5 (5 * 65535) weights total_weight donation_weight Hcall) as (Hb & Hle & _).
  split; [exact Hb | exact Hle].
Defined.

(** ** Hash links *)


Lemma gentx_before_refhash_length (cls : ShareClass) :
  length (gentx_before_refhash cls) = 78%nat.
Proof. destruct cls; reflexivity. Qed.

(** X4. [check_hash_link] fails only on its first assertion, the one on
    the length of [extra_data]: once that holds, the tail it rebuilds has
    the length the second assertion asks for, and a hash comes back. *)
Theorem check_hash_link_fails_only_on_extra_data (hl : hash_link.t)
    (data const_ending : bytes) :
  is_Ok (check_hash_link hl data const_ending)
  = (len (hash_link.extra_data hl)
     =? Z.max 0 (hash_link.length hl mod 64 - len const_ending)).
Proof.
  unfold check_hash_link. change (512 / 8) with 64.
  pose proof (Z.mod_pos_bound (hash_link.length hl) 64 ltac:(lia)) as Hel.
  set (el := hash_link.length hl mod 64) in *.
  destruct (Z.eqb_spec (len (hash_link.extra_data hl)) (Z.max 0 (el - len const_ending)))
    as [He|He]; [|reflexivity].
  cbn [assert mbind Result_bind].
  assert (Hlen : len (slice_from (hash_link.extra_data hl ++ const_ending)
                        (len (hash_link.extra_data hl) + len const_ending - el)) = el).
  { unfold slice_from, len in *.
    destruct (Z.ltb_spec (Z.of_nat (length (hash_link.extra_data hl))
                          + Z.of_nat (length const_ending) - el) 0); [lia|].
    rewrite length_drop, length_app. lia. }
  rewrite Hlen, Z.eqb_refl. reflexivity.
Qed.

(** The fixed ending is longer than a SHA-256 block. *)
Lemma prefix_to_hash_link_fields (cls : ShareClass) (prefix : bytes)
    (link : hash_link.t) :
  prefix_to_hash_link prefix (gentx_before_refhash cls) = Ok link ->
  hash_link.extra_data link = []
  /\ hash_link.length link = len prefix
  /\ endswith prefix (gentx_before_refhash cls) = true.
Proof.
  unfold prefix_to_hash_link.
  destruct (endswith prefix (gentx_before_refhash cls)) eqn:Hends; [|discriminate].
  cbn [assert mbind Result_bind mret Result_ret].
  rewrite (new_absorb sha256.process sha256.initial_state prefix).
  cbn [sha256.state sha256.buf sha256.length]. intros Hp.
  apply (f_equal (fun r => match r with Ok l => l | Raise _ => link end)) in Hp.
  cbn beta iota in Hp. rewrite <- Hp.
  cbn [hash_link.extra_data hash_link.length].
  split; [|split; [|reflexivity]].
  - pose proof (absorb_buf_length sha256.process sha256.initial_state prefix) as Hb.
    pose proof (Nat.mod_upper_bound (length prefix) 64 ltac:(lia)) as Hm.
    unfold slice_to, len. rewrite gentx_before_refhash_length.
    destruct (Z.ltb_spec (Z.max 0 (Z.of_nat (length (snd (absorb sha256.process
                sha256.initial_state prefix))) - Z.of_nat 78)) 0); [lia|].
    replace (Z.to_nat _) with 0%nat by lia. reflexivity.
  - unfold len. rewrite Z.mul_comm, Z.div_mul by lia. reflexivity.
Qed.

(** X5. A hash link made against [gentx_before_refhash] has no
    [extra_data] and records the length of the prefix: the fixed ending is
    longer than a SHA-256 block, so the buffered tail always lies within
    it. The constructors' assertion on [extra_data] holds for every such
    link. *)
Theorem prefix_to_hash_link_no_extra_data (cls : ShareClass) (prefix : bytes)
    (link : hash_link.t) :
  prefix_to_hash_link prefix (gentx_before_refhash cls) = Ok link ->
  hash_link.extra_data link = []
  /\ hash_link.length link = len prefix
  /\ endswith prefix (gentx_before_refhash cls) = true.
Proof. apply prefix_to_hash_link_fields. Qed.

Lemma prefix_to_hash_link_no_extra_data_witness :
  exists link,
    prefix_to_hash_link (x00 :: gentx_before_refhash NewNewShare)
      (gentx_before_refhash NewNewShare) = Ok link
    /\ hash_link.extra_data link = []
    /\ hash_link.length link = 79.
Proof.
  assert (Hok : is_Ok (prefix_to_hash_link (x00 :: gentx_before_refhash NewNewShare)
                         (gentx_before_refhash NewNewShare)) = true)
    by (vm_compute; reflexivity).
  destruct (is_Ok_true _ Hok) as [link Hlink].
  exists link. split; [exact Hlink|].
  destruct (prefix_to_hash_link_no_extra_data NewNewShare
              (x00 :: gentx_before_refhash NewNewShare) link Hlink) as (He & Hl & _).
  split; [exact He|]. rewrite Hl. reflexivity.
Defined.

(** ** [generate_transaction]: targets and transaction refs *)

Lemma chain_length (items : Tracker.t) (n : nat) : forall (h : option Z) (l : list share.t),
  Tracker.chain items n h = Ok l -> length l = n.
Proof.
  induction n as [|m IH]; intros h l Hc; cbn in Hc.
  - by injection Hc as <-.
  - destruct h as [x|]; [|discriminate].
    apply bind_Ok_inv in Hc as (s & _ & Hc).
    apply bind_Ok_inv in Hc as (rest & Hr & [= <-]).
    cbn. by rewrite (IH _ _ Hr).
Qed.

Lemma index_of_lookup (x : Z) (l : list Z) : forall k : Z,
  index_of x l = Some k -> 0 <= k /\ l !! Z.to_nat k = Some x.
Proof.
  induction l as [|y r IH]; intros k; cbn; [discriminate|].
  destruct (decide (x = y)) as [->|Hne].
  - intros [= <-]. done.
  - destruct (index_of x r) as [j|]; [|discriminate]. intros [= <-].
    destruct (IH j eq_refl) as [Hj Hl]. split; [lia|].
    replace (Z.to_nat (Z.succ j)) with (S (Z.to_nat j)) by lia. exact Hl.
Qed.

Lemma find_in_chain_lookup (tx_hash : Z) (chain : list share.t) :
  forall (i : Z) (r : tx_ref.t),
    find_in_chain tx_hash i chain = Some r ->
    exists (j : nat) (s : share.t),
      chain !! j = Some s
      /\ tx_ref.share_count r = i + 1 + Z.of_nat j
      /\ 0 <= tx_ref.tx_count r
      /\ share.new_transaction_hashes s !! Z.to_nat (tx_ref.tx_count r) = Some tx_hash.
Proof.
  induction chain as [|s rest IH]; intros i r; cbn; [discriminate|].
  destruct (index_of tx_hash (share.new_transaction_hashes s)) as [k|] eqn:Hk.
  - intros [= <-]. apply index_of_lookup in Hk as [Hk0 Hk].
    exists 0%nat, s. cbn. repeat split; [lia | done | done].
  - intros (j & s' & Hj & Hc & Ht)%IH. exists (S j), s'. cbn.
    repeat split; [done | lia | tauto | tauto].
Qed.

Lemma ref_target_found (new_hashes : list Z) (chain : list share.t) (tx_hash : Z)
    (r : tx_ref.t) :
  find_in_chain tx_hash 0 chain = Some r ->
  ref_target new_hashes chain r = Some tx_hash
  /\ 0 <= tx_ref.share_count r <= Z.of_nat (length chain).
Proof.
  intros (j & s & Hj & Hc & Ht0 & Ht)%find_in_chain_lookup.
  pose proof (lookup_lt_Some _ _ _ Hj) as Hlt.
  split; [|lia]. unfold ref_target.
  destruct (Z.ltb_spec (tx_ref.tx_count r) 0); [lia|].
  destruct (Z.ltb_spec (tx_ref.share_count r) 0); [lia|].
  destruct (Z.eqb_spec (tx_ref.share_count r) 0); [lia|]. cbn [orb].
  replace (Z.to_nat (tx_ref.share_count r - 1)) with j by lia.
  rewrite Hj. exact Ht.
Qed.

Lemma ref_target_grows (new_hashes : list Z) (chain : list share.t) (x : Z)
    (r : tx_ref.t) (h : Z) :
  ref_target new_hashes chain r = Some h ->
  ref_target (new_hashes ++ [x]) chain r = Some h.
Proof.
  unfold ref_target. destruct (_ || _); [done|].
  destruct (_ =? 0); [|done]. intros Hl. by apply lookup_app_l_Some.
Qed.

Lemma map_ref_target_grows (new_hashes : list Z) (chain : list share.t) (x : Z)
    (rs : list tx_ref.t) : forall os : list Z,
  map (ref_target new_hashes chain) rs = map Some os ->
  map (ref_target (new_hashes ++ [x]) chain) rs = map Some os.
Proof.
  induction rs as [|r rs IH]; intros [|o os]; cbn; try done.
  intros [= Hr Hrs]. f_equal; [by apply ref_target_grows | by apply IH].
Qed.

Lemma ref_target_fresh (new_hashes : list Z) (chain : list share.t) (x : Z) :
  ref_target (new_hashes ++ [x]) chain
    {| tx_ref.share_count := 0; tx_ref.tx_count := len (new_hashes ++ [x]) - 1 |}
  = Some x.
Proof.
  unfold ref_target, len. cbn [tx_ref.share_count tx_ref.tx_count].
  rewrite length_app. cbn [length].
  destruct (Z.ltb_spec (Z.of_nat (length new_hashes + 1) - 1) 0); [lia|]. cbn.
  replace (Z.to_nat _) with (length new_hashes) by lia.
  apply list_lookup_middle. reflexivity.
Qed.

(** The two ways a hash joins the lists keep the invariant. *)
Lemma refs_invariant_found (chain : list share.t) (st : refs_state.t) (tx_hash : Z)
    (r : tx_ref.t) :
  find_in_chain tx_hash 0 chain = Some r ->
  refs_invariant chain st ->
  refs_invariant chain
    {| refs_state.new_transaction_hashes := refs_state.new_transaction_hashes st;
       refs_state.new_transaction_size := refs_state.new_transaction_size st;
       refs_state.transaction_hash_refs := refs_state.transaction_hash_refs st ++ [r];
       refs_state.other_transaction_hashes :=
         refs_state.other_transaction_hashes st ++ [tx_hash] |}.
Proof.
  intros [Ht Hd]%(ref_target_found (refs_state.new_transaction_hashes st))
         (Hres & Hfresh & Hdepth).
  unfold refs_invariant. cbn [refs_state.new_transaction_hashes
    refs_state.transaction_hash_refs refs_state.other_transaction_hashes].
  split; [|split].
  - rewrite !map_app, Hres. cbn. by rewrite Ht.
  - intros i Hi. apply elem_of_app. left. by apply Hfresh.
  - intros x [Hx|Hx%list_elem_of_singleton]%elem_of_app; [by apply Hdepth | by subst x].
Qed.

Lemma refs_invariant_announced (chain : list share.t) (st : refs_state.t)
    (tx_hash size : Z) :
  refs_invariant chain st ->
  refs_invariant chain
    {| refs_state.new_transaction_hashes := refs_state.new_transaction_hashes st ++ [tx_hash];
       refs_state.new_transaction_size := size;
       refs_state.transaction_hash_refs :=
         refs_state.transaction_hash_refs st
         ++ [ {| tx_ref.share_count := 0;
                 tx_ref.tx_count :=
                   len (refs_state.new_transaction_hashes st ++ [tx_hash]) - 1 |} ];
       refs_state.other_transaction_hashes :=
         refs_state.other_transaction_hashes st ++ [tx_hash] |}.
Proof.
  intros (Hres & Hfresh & Hdepth).
  unfold refs_invariant. cbn [refs_state.new_transaction_hashes
    refs_state.transaction_hash_refs refs_state.other_transaction_hashes].
  split; [|split].
  - rewrite !map_app. cbn [map]. rewrite ref_target_fresh. f_equal.
    by apply map_ref_target_grows.
  - intros i Hi. rewrite length_app in Hi. cbn in Hi. apply elem_of_app.
    destruct (decide (i < length (refs_state.new_transaction_hashes st))%nat) as [Hlt|Hge].
    + left. by apply Hfresh.
    + right. apply list_elem_of_singleton. f_equal.
      unfold len. rewrite length_app. cbn. lia.
  - intros x [Hx|Hx%list_elem_of_singleton]%elem_of_app; [by apply Hdepth|].
    subst x. cbn. lia.
Qed.

Section RefsFacts.
Context `{Imports}.

Lemma collect_refs_invariant (chain : list share.t) (known_txs : option (gmap Z tx.t))
    (desired : list Z) : forall st st' : refs_state.t,
  collect_refs chain known_txs desired st = Ok st' ->
  refs_invariant chain st ->
  refs_invariant chain st'.
Proof.
  induction desired as [|tx_hash rest IH]; intros st st' Hc Hinv; cbn in Hc.
  - by injection Hc as <-.
  - destruct (find_in_chain tx_hash 0 chain) as [r|] eqn:Hf.
    + eapply IH; [exact Hc|]. by apply refs_invariant_found.
    + destruct known_txs as [known|].
      * apply bind_Ok_inv in Hc as (t & _ & Hc).
        destruct (50000 <? _) in Hc.
        -- by injection Hc as <-.
        -- eapply IH; [exact Hc|]. by apply refs_invariant_announced.
      * eapply IH; [exact Hc|]. by apply refs_invariant_announced.
Qed.
End RefsFacts.

Section GenerateTransactionParts.
Context `{Imports}.

(** What else a returned triple is made of: the target window, the lists
    of the loop over the desired hashes, the single input. *)
Lemma generate_transaction_parts (cls : ShareClass) (tracker : Tracker.t)
    (sd : share_data.t) (block_target desired_timestamp desired_target : Z)
    (ref_merkle_link : merkle_link.t) (desired : list Z) (net : Net.t)
    (known_txs : option (gmap Z tx.t)) (last_txout_nonce : Z)
    (si : share_info.t) (gentx : tx.t) (others : list Z) :
  generate_transaction cls tracker sd block_target desired_timestamp desired_target
    ref_merkle_link desired net known_txs last_txout_nonce = Ok (si, gentx, others) ->
  exists (previous_share : option share.t) (pre_target3 : Z) (st : refs_state.t),
    compute_pre_target3 tracker sd previous_share
      (Tracker.get_height tracker (share_data.previous_share_hash sd)) net
    = Ok pre_target3
    /\ share_info.max_bits si = from_target_upper_bound pre_target3
    /\ share_info.bits si
       = from_target_upper_bound (clip desired_target (pre_target3 / 10, pre_target3))
    /\ match cls, desired with
       | Share, _ => Ok (refs_state.mk [] 0 [] desired)
       | _, [] => Ok (refs_state.mk [] 0 [] [])
       | _, _ =>
           chain ← Tracker.get_chain tracker (share_data.previous_share_hash sd)
                     (Z.min (Tracker.get_height tracker
                               (share_data.previous_share_hash sd)) 100);
           collect_refs chain known_txs desired (refs_state.mk [] 0 [] [])
       end = Ok st
    /\ share_info.new_transaction_hashes si = refs_state.new_transaction_hashes st
    /\ share_info.transaction_hash_refs si = refs_state.transaction_hash_refs st
    /\ others = refs_state.other_transaction_hashes st
    /\ tx.version gentx = 1
    /\ tx.lock_time gentx = 0
    /\ length (tx.tx_ins gentx) = 1%nat.
Proof.
  unfold generate_transaction. intros Hg.
  inv_Ok Hg. inv_Ok Hg. inv_Ok Hg. inv_Ok Hg. inv_Ok Hg.
  destruct a1 as [[weights total_weight] donation_weight].
  inv_Ok Hg. inv_Ok Hg. inv_Ok Hg. inv_Ok Hg.
  injection Hg as <- <- <-.
  exists a, a0, a2. unfold Tracker.get_height. rewrite Hp. cbn [fst].
  repeat split; try reflexivity; assumption.
Qed.


Lemma get_chain_length (tracker : Tracker.t) (start : option Z) (n : Z)
    (chain : list share.t) :
  Tracker.get_chain tracker start n = Ok chain -> length chain = Z.to_nat n.
Proof.
  unfold Tracker.get_chain. intros Hc. inv_Ok Hc. by apply chain_length in Hc.
Qed.

Lemma collect_refs_without_known_txs (chain : list share.t) (desired : list Z) :
  forall st : refs_state.t,
  exists st',
    collect_refs chain None desired st = Ok st'
    /\ refs_state.other_transaction_hashes st'
       = refs_state.other_transaction_hashes st ++ desired.
Proof.
  induction desired as [|tx_hash rest IH]; intros st; cbn.
  - exists st. by rewrite app_nil_r.
  - destruct (find_in_chain tx_hash 0 chain) as [r|].
    + destruct (IH (refs_state.mk
                      (refs_state.new_transaction_hashes st)
                      (refs_state.new_transaction_size st)
                      (refs_state.transaction_hash_refs st ++ [r])
                      (refs_state.other_transaction_hashes st ++ [tx_hash])))
        as (st' & Hc & Ho).
      exists st'. split; [exact Hc|]. rewrite Ho. cbn. by rewrite <- app_assoc.
    + match goal with
      | |- exists st', collect_refs _ _ _ ?s = _ /\ _ =>
          destruct (IH s) as (st' & Hc & Ho)
      end.
      exists st'. split; [exact Hc|]. rewrite Ho. cbn. by rewrite <- app_assoc.
Qed.

Lemma mapR_snoc {A B} (f : A -> Result B) (l : list A) (x : A) (y : B) :
  forall ys : list B,
    mapR f l = Ok ys -> f x = Ok y -> mapR f (l ++ [x]) = Ok (ys ++ [y]).
Proof.
  induction l as [|a l IH]; intros ys Hl Hx; cbn in *.
  - injection Hl as <-. by rewrite Hx.
  - apply bind_Ok_inv in Hl as (b & Hb & Hl).
    apply bind_Ok_inv in Hl as (bs & Hbs & [= <-]).
    rewrite Hb. cbn. by rewrite (IH bs Hbs Hx).
Qed.

Lemma collect_refs_budget (chain : list share.t) (known : gmap Z tx.t)
    (desired : list Z) : forall st st' : refs_state.t,
  collect_refs chain (Some known) desired st = Ok st' ->
  (exists sizes,
     mapR (fun h => tx_type_packed_size <$> getitem known h)
          (refs_state.new_transaction_hashes st) = Ok sizes
     /\ foldr Z.add 0 sizes = refs_state.new_transaction_size st) ->
  refs_state.new_transaction_size st <= 50000 ->
  (exists sizes,
     mapR (fun h => tx_type_packed_size <$> getitem known h)
          (refs_state.new_transaction_hashes st') = Ok sizes
     /\ foldr Z.add 0 sizes = refs_state.new_transaction_size st')
  /\ refs_state.new_transaction_size st' <= 50000
  /\ exists k : nat,
       refs_state.other_transaction_hashes st'
       = refs_state.other_transaction_hashes st ++ take k desired.
Proof.
  induction desired as [|tx_hash rest IH]; intros st st' Hc Hsz Hle; cbn in Hc.
  - injection Hc as <-. split; [done|]. split; [done|]. exists 0%nat. by rewrite app_nil_r.
  - destruct (find_in_chain tx_hash 0 chain) as [r|].
    + destruct (IH _ _ Hc Hsz Hle) as (Hs & Hl & k & Hk).
      split; [done|]. split; [done|]. exists (S k). rewrite Hk. cbn.
      by rewrite <- app_assoc.
    + apply bind_Ok_inv in Hc as (t & Ht & Hc).
      destruct (Z.ltb_spec 50000
                  (refs_state.new_transaction_size st + tx_type_packed_size t)).
      * injection Hc as <-. split; [done|]. split; [done|].
        exists 0%nat. by rewrite app_nil_r.
      * destruct Hsz as (sizes & Hm & Hsum).
        destruct (IH _ _ Hc) as (Hs & Hl & k & Hk).
        -- exists (sizes ++ [tx_type_packed_size t]). cbn. split.
           ++ apply mapR_snoc; [exact Hm|]. by rewrite Ht.
           ++ rewrite foldr_app. cbn.
              rewrite <- Hsum. clear. induction sizes as [|z zs IHz]; cbn; lia.
        -- cbn. lia.
        -- split; [done|]. split; [done|]. exists (S k). rewrite Hk. cbn.
           by rewrite <- app_assoc.
Qed.
End GenerateTransactionParts.



Section GeneratedRefs.
Context `{Imports}.

Lemma refs_invariant_initial (chain : list share.t) (others : list Z) :
  others = [] -> refs_invariant chain (refs_state.mk [] 0 [] others).
Proof.
  intros ->. unfold refs_invariant. cbn. split; [done|]. split.
  - intros i Hi. lia.
  - intros r Hr. by apply elem_of_nil in Hr.
Qed.

(** The lists of a returned triple of V8 or V9 come out of the loop run
    over the hundred shares below, and keep its invariant. *)
Lemma generate_transaction_refs_invariant (cls : ShareClass) (tracker : Tracker.t)
    (sd : share_data.t) (block_target desired_timestamp desired_target : Z)
    (ref_merkle_link : merkle_link.t) (desired : list Z) (net : Net.t)
    (known_txs : option (gmap Z tx.t)) (last_txout_nonce : Z)
    (si : share_info.t) (gentx : tx.t) (others : list Z) :
  generate_transaction cls tracker sd block_target desired_timestamp desired_target
    ref_merkle_link desired net known_txs last_txout_nonce = Ok (si, gentx, others) ->
  cls <> Share ->
  exists (chain : list share.t) (size : Z),
    Tracker.get_chain tracker (share_data.previous_share_hash sd)
      (Z.min (Tracker.get_height tracker (share_data.previous_share_hash sd)) 100)
    = Ok chain
    /\ (length chain <= 100)%nat
    /\ refs_invariant chain
         (refs_state.mk (share_info.new_transaction_hashes si) size
            (share_info.transaction_hash_refs si) others).
Proof.
  intros (previous & p & st & _ & _ & _ & Hst & Hnew & Hrefs & Hothers & _)%generate_transaction_parts
         Hcls.
  set (start := share_data.previous_share_hash sd) in *.
  set (n := Z.min (Tracker.get_height tracker start) 100) in *.
  assert (Hchain : exists chain, Tracker.get_chain tracker start n = Ok chain).
  { unfold Tracker.get_chain.
    destruct (Z.leb_spec n (Tracker.get_height tracker start)) as [Hle|Hgt]; [|lia].
    cbn [assert mbind Result_bind].
    destruct (chain_of_height tracker (Z.to_nat n) (S (size tracker)) start)
      as (shares & Hc & _); [|eauto].
    pose proof (walk_to_last_nonneg tracker (S (size tracker)) start).
    unfold Tracker.get_height, Tracker.get_height_and_last in Hle. lia. }
  destruct Hchain as [chain Hchain].
  pose proof (get_chain_length _ _ _ _ Hchain) as Hlen.
  exists chain, (refs_state.new_transaction_size st).
  split; [exact Hchain|]. split; [lia|].
  rewrite Hnew, Hrefs, Hothers.
  replace (refs_state.mk _ _ _ _) with st by by destruct st.
  destruct cls; [done| |];
    (destruct desired as [|tx_hash rest];
     [ injection Hst as <-; by apply refs_invariant_initial
     | rewrite Hchain in Hst; cbn [mbind Result_bind] in Hst;
       eapply collect_refs_invariant;
       [exact Hst | by apply refs_invariant_initial] ]).
Qed.
End GeneratedRefs.

(** The lists of the loop pass the assertions on the refs. *)
Lemma generated_refs_asserted `{Imports} (cls : ShareClass)
    (tracker : Tracker.t) (sd : share_data.t)
    (block_target desired_timestamp desired_target : Z)
    (ref_merkle_link : merkle_link.t) (desired : list Z) (net : Net.t)
    (known_txs : option (gmap Z tx.t)) (last_txout_nonce : Z)
    (si : share_info.t) (gentx : tx.t) (others : list Z) :
  generate_transaction cls tracker sd block_target desired_timestamp desired_target
    ref_merkle_link desired net known_txs last_txout_nonce = Ok (si, gentx, others) ->
  refs_asserted si = true.
Proof.
  intros Hg. apply refs_asserted_spec.
  destruct (decide (cls = Share)) as [->|Hcls].
  - apply generate_transaction_parts in Hg
      as (previous & p & st & _ & _ & _ & Hst & Hnew & Hrefs & _).
    injection Hst as <-. rewrite Hnew, Hrefs. cbn. split.
    + intros x Hx. by apply elem_of_nil in Hx.
    + intros i Hi. lia.
  - destruct (generate_transaction_refs_invariant _ _ _ _ _ _ _ _ _ _ _ _ _ _ Hg Hcls)
      as (chain & size & _ & Hlen & _ & Hfresh & Hdepth).
    cbn in Hfresh, Hdepth. split.
    + intros x Hx. specialize (Hdepth x Hx). lia.
    + exact Hfresh.
Qed.

(** X7. The [share_info] that [generate_transaction] returns passes the
    two assertions the V8 and V9 constructors make on the transaction
    refs: no ref reaches 110 shares back (the loop looks at no more than
    100 shares), and every announced transaction hash [i] has its ref
    [(0, i)]. *)
Theorem generate_transaction_refs_pass_constructor `{Imports} (cls : ShareClass)
    (tracker : Tracker.t) (sd : share_data.t)
    (block_target desired_timestamp desired_target : Z)
    (ref_merkle_link : merkle_link.t) (desired : list Z) (net : Net.t)
    (known_txs : option (gmap Z tx.t)) (last_txout_nonce : Z)
    (si : share_info.t) (gentx : tx.t) (others : list Z) :
  generate_transaction cls tracker sd block_target desired_timestamp desired_target
    ref_merkle_link desired net known_txs last_txout_nonce = Ok (si, gentx, others) ->
  refs_asserted si = true.
Proof. apply generated_refs_asserted. Qed.

Lemma generate_transaction_refs_pass_constructor_witness :
  exists si gentx others,
    @generate_transaction bitcoin.imports NewNewShare
      (example.chain_tracker NewNewShare example.net (2 ^ 224) (fun _ => 9) 1)
      (example.mk_share_data (Some 1)) (2 ^ 224) 5000 (2 ^ 224) example.no_link
      [77; 78] example.net None 0 = Ok (si, gentx, others)
    /\ refs_asserted si = true.
Proof.
  assert (Hok : is_Ok
            (@generate_transaction bitcoin.imports NewNewShare
               (example.chain_tracker NewNewShare example.net (2 ^ 224) (fun _ => 9) 1)
               (example.mk_share_data (Some 1)) (2 ^ 224) 5000 (2 ^ 224)
               example.no_link [77; 78] example.net None 0) = true)
    by (vm_compute; reflexivity).
  destruct (is_Ok_true _ Hok) as [[[si gentx] others] Hcall].
  exists si, gentx, others. split; [exact Hcall|].
  exact (@generate_transaction_refs_pass_constructor bitcoin.imports NewNewShare
           (example.chain_tracker NewNewShare example.net (2 ^ 224) (fun _ => 9) 1)
           (example.mk_share_data (Some 1)) (2 ^ 224) 5000 (2 ^ 224) example.no_link
           [77; 78] example.net None 0 si gentx others Hcall).
Defined.

(** X8. The refs of a generated V8 or V9 share read back as the
    transaction hashes it returns: looking each ref up the way [check]
    does (the share itself for [share_count = 0], the [i]-th of the at
    most hundred shares below for [share_count = i + 1]) gives
    [other_transaction_hashes], entry by entry. *)
Theorem generate_transaction_refs_round_trip `{Imports} (cls : ShareClass)
    (tracker : Tracker.t) (sd : share_data.t)
    (block_target desired_timestamp desired_target : Z)
    (ref_merkle_link : merkle_link.t) (desired : list Z) (net : Net.t)
    (known_txs : option (gmap Z tx.t)) (last_txout_nonce : Z)
    (si : share_info.t) (gentx : tx.t) (others : list Z) :
  cls <> Share ->
  generate_transaction cls tracker sd block_target desired_timestamp desired_target
    ref_merkle_link desired net known_txs last_txout_nonce = Ok (si, gentx, others) ->
  exists chain : list share.t,
    Tracker.get_chain tracker (share_data.previous_share_hash sd)
      (Z.min (Tracker.get_height tracker (share_data.previous_share_hash sd)) 100)
    = Ok chain
    /\ map (ref_target (share_info.new_transaction_hashes si) chain)
           (share_info.transaction_hash_refs si)
       = map Some others.
Proof.
  intros Hcls Hg.
  destruct (generate_transaction_refs_invariant _ _ _ _ _ _ _ _ _ _ _ _ _ _ Hg Hcls)
    as (chain & size & Hchain & _ & Hres & _).
  exists chain. split; [exact Hchain | exact Hres].
Qed.

Lemma generate_transaction_refs_round_trip_witness :
  exists si gentx others chain,
    @generate_transaction bitcoin.imports NewShare
      (example.chain_tracker NewShare example.net (2 ^ 224) (fun _ => 8) 2)
      (example.mk_share_data (Some 2)) (2 ^ 224) 5000 (2 ^ 224) example.no_link
      [77; 78] example.net None 0 = Ok (si, gentx, others)
    /\ map (ref_target (share_info.new_transaction_hashes si) chain)
           (share_info.transaction_hash_refs si)
       = map Some others.
Proof.
  assert (Hok : is_Ok
            (@generate_transaction bitcoin.imports NewShare
               (example.chain_tracker NewShare example.net (2 ^ 224) (fun _ => 8) 2)
               (example.mk_share_data (Some 2)) (2 ^ 224) 5000 (2 ^ 224)
               example.no_link [77; 78] example.net None 0) = true)
    by (vm_compute; reflexivity).
  destruct (is_Ok_true _ Hok) as [[[si gentx] others] Hcall].
  assert (Hcls : NewShare <> Share) by discriminate.
  destruct (@generate_transaction_refs_round_trip bitcoin.imports NewShare
              (example.chain_tracker NewShare example.net (2 ^ 224) (fun _ => 8) 2)
              (example.mk_share_data (Some 2)) (2 ^ 224) 5000 (2 ^ 224) example.no_link
              [77; 78] example.net None 0 si gentx others Hcls Hcall)
    as (chain & _ & Hres).
  exists si, gentx, others, chain. split; [exact Hcall | exact Hres].
Defined.

(** Without [known_txs] the loop runs to its end. *)
Lemma generate_transaction_returns_all_aux `{Imports} (cls : ShareClass)
    (tracker : Tracker.t) (sd : share_data.t)
    (block_target desired_timestamp desired_target : Z)
    (ref_merkle_link : merkle_link.t) (desired : list Z) (net : Net.t)
    (last_txout_nonce : Z) (si : share_info.t) (gentx : tx.t) (others : list Z) :
  generate_transaction cls tracker sd block_target desired_timestamp desired_target
    ref_merkle_link desired net None last_txout_nonce = Ok (si, gentx, others) ->
  others = desired.
Proof.
  intros (previous & p & st & _ & _ & _ & Hst & _ & _ & -> & _)%generate_transaction_parts.
  destruct cls; [by injection Hst as <-| |];
    (destruct desired as [|tx_hash rest]; [by injection Hst as <-|];
     apply bind_Ok_inv in Hst as (chain & _ & Hc);
     destruct (collect_refs_without_known_txs chain (tx_hash :: rest)
                 (refs_state.mk [] 0 [] [])) as (st' & Hc' & Ho);
     rewrite Hc' in Hc; injection Hc as <-; exact Ho).
Qed.

(** X9. Without [known_txs] the loop over the desired hashes never
    breaks: every desired hash comes back, in order. This is the call
    [check] makes, and why its assertion
    [other_tx_hashes2 == other_tx_hashes] holds. *)
Theorem generate_transaction_returns_all_desired `{Imports} (cls : ShareClass)
    (tracker : Tracker.t) (sd : share_data.t)
    (block_target desired_timestamp desired_target : Z)
    (ref_merkle_link : merkle_link.t) (desired : list Z) (net : Net.t)
    (last_txout_nonce : Z) (si : share_info.t) (gentx : tx.t) (others : list Z) :
  generate_transaction cls tracker sd block_target desired_timestamp desired_target
    ref_merkle_link desired net None last_txout_nonce = Ok (si, gentx, others) ->
  others = desired.
Proof. apply generate_transaction_returns_all_aux. Qed.

Lemma generate_transaction_returns_all_desired_witness :
  exists si gentx,
    @generate_transaction bitcoin.imports NewNewShare
      (example.chain_tracker NewNewShare example.net (2 ^ 224) (fun _ => 9) 1)
      (example.mk_share_data (Some 1)) (2 ^ 224) 5000 (2 ^ 224) example.no_link
      [77; 78; 79] example.net None 0 = Ok (si, gentx, [77; 78; 79]).
Proof.
  assert (Hok : is_Ok
            (@generate_transaction bitcoin.imports NewNewShare
               (example.chain_tracker NewNewShare example.net (2 ^ 224) (fun _ => 9) 1)
               (example.mk_share_data (Some 1)) (2 ^ 224) 5000 (2 ^ 224)
               example.no_link [77; 78; 79] example.net None 0) = true)
    by (vm_compute; reflexivity).
  destruct (is_Ok_true _ Hok) as [[[si gentx] others] Hcall].
  exists si, gentx.
  rewrite <- (@generate_transaction_returns_all_desired bitcoin.imports NewNewShare
                (example.chain_tracker NewNewShare example.net (2 ^ 224) (fun _ => 9) 1)
                (example.mk_share_data (Some 1)) (2 ^ 224) 5000 (2 ^ 224)
                example.no_link [77; 78; 79] example.net 0 si gentx others Hcall)
    at 2.
  exact Hcall.
Defined.

(** X10. With [known_txs], the new transactions a generated share
    announces fit in 50 kB: their packed sizes, looked up in [known_txs]
    the way [should_punish_reason] does, add up to at most 50000, and the
    hashes returned are an initial part of the desired ones (the loop
    stops at the first transaction that would not fit). *)
Theorem generate_transaction_new_txs_fit `{Imports} (cls : ShareClass)
    (tracker : Tracker.t) (sd : share_data.t)
    (block_target desired_timestamp desired_target : Z)
    (ref_merkle_link : merkle_link.t) (desired : list Z) (net : Net.t)
    (known : gmap Z tx.t) (last_txout_nonce : Z)
    (si : share_info.t) (gentx : tx.t) (others : list Z) :
  generate_transaction cls tracker sd block_target desired_timestamp desired_target
    ref_merkle_link desired net (Some known) last_txout_nonce = Ok (si, gentx, others) ->
  (exists sizes : list Z,
     mapR (fun h => tx_type_packed_size <$> getitem known h)
          (share_info.new_transaction_hashes si) = Ok sizes
     /\ foldr Z.add 0 sizes <= 50000)
  /\ exists k : nat, others = take k desired.
Proof.
  intros (previous & p & st & _ & _ & _ & Hst & -> & _ & -> & _)%generate_transaction_parts.
  assert (Hinit : exists sizes : list Z,
             mapR (fun h => tx_type_packed_size <$> getitem known h)
                  (refs_state.new_transaction_hashes (refs_state.mk [] 0 [] [])) = Ok sizes
             /\ foldr Z.add 0 sizes
                = refs_state.new_transaction_size (refs_state.mk [] 0 [] []))
    by (exists []; done).
  assert (Hempty : (exists sizes : list Z,
                      mapR (fun h => tx_type_packed_size <$> getitem known h) [] = Ok sizes
                      /\ foldr Z.add 0 sizes <= 50000))
    by (exists []; cbn; split; [done | lia]).
  destruct cls.
  - injection Hst as <-. cbn. split; [exact Hempty|].
    exists (length desired). by rewrite firstn_all.
  - destruct desired as [|tx_hash rest].
    + injection Hst as <-. cbn. split; [exact Hempty|]. by exists 0%nat.
    + apply bind_Ok_inv in Hst as (chain & _ & Hc).
      destruct (collect_refs_budget chain known _ _ _ Hc Hinit)
        as ((sizes & Hm & Hsum) & Hle & k & Hk); [cbn; lia|].
      split; [exists sizes; split; [exact Hm | lia] | exists k; exact Hk].
  - destruct desired as [|tx_hash rest].
    + injection Hst as <-. cbn. split; [exact Hempty|]. by exists 0%nat.
    + apply bind_Ok_inv in Hst as (chain & _ & Hc).
      destruct (collect_refs_budget chain known _ _ _ Hc Hinit)
        as ((sizes & Hm & Hsum) & Hle & k & Hk); [cbn; lia|].
      split; [exists sizes; split; [exact Hm | lia] | exists k; exact Hk].
Qed.

Lemma generate_transaction_new_txs_fit_witness :
  exists si gentx others sizes,
    @generate_transaction bitcoin.imports NewNewShare
      (example.chain_tracker NewNewShare example.net (2 ^ 224) (fun _ => 9) 1)
      (example.mk_share_data (Some 1)) (2 ^ 224) 5000 (2 ^ 224) example.no_link
      [77; 78] example.net
      (Some {[ 77 := tx.mk 1 [] [] 0; 78 := tx.mk 1 [] [tx_out.mk 5 [x51]] 0 ]}) 0
    = Ok (si, gentx, others)
    /\ mapR (fun h => @tx_type_packed_size bitcoin.imports <$>
                getitem ({[ 77 := tx.mk 1 [] [] 0;
                            78 := tx.mk 1 [] [tx_out.mk 5 [x51]] 0 ]} : gmap Z tx.t) h)
            (share_info.new_transaction_hashes si) = Ok sizes
    /\ foldr Z.add 0 sizes <= 50000.
Proof.
  assert (Hok : is_Ok
            (@generate_transaction bitcoin.imports NewNewShare
               (example.chain_tracker NewNewShare example.net (2 ^ 224) (fun _ => 9) 1)
               (example.mk_share_data (Some 1)) (2 ^ 224) 5000 (2 ^ 224)
               example.no_link [77; 78] example.net
               (Some {[ 77 := tx.mk 1 [] [] 0; 78 := tx.mk 1 [] [tx_out.mk 5 [x51]] 0 ]})
               0) = true)
    by (vm_compute; reflexivity).
  destruct (is_Ok_true _ Hok) as [[[si gentx] others] Hcall].
  destruct (@generate_transaction_new_txs_fit bitcoin.imports NewNewShare
              (example.chain_tracker NewNewShare example.net (2 ^ 224) (fun _ => 9) 1)
              (example.mk_share_data (Some 1)) (2 ^ 224) 5000 (2 ^ 224) example.no_link
              [77; 78] example.net
              {[ 77 := tx.mk 1 [] [] 0; 78 := tx.mk 1 [] [tx_out.mk 5 [x51]] 0 ]} 0
              si gentx others Hcall)
    as ((sizes & Hm & Hle) & _).
  exists si, gentx, others, sizes.
  split; [exact Hcall|]. split; [exact Hm | exact Hle].
Defined.

(** ** Punishment and the choice of the best share *)

Section Punish.
Context `{Imports}.

Lemma should_punish_reason_cases (self : share.t) (previous_block : option Z)
    (bits : FloatingInteger.t) (tracker : Tracker.t) (known_txs : gmap Z tx.t)
    (level : Z) (reason : option string) :
  should_punish_reason self previous_block bits tracker known_txs = Ok (level, reason) ->
  (block_stale self previous_block bits = true /\ level = 1)
  \/ (block_stale self previous_block bits = false /\ solves_block self = true
      /\ level = -1 /\ reason = Some "block solution"%string)
  \/ (block_stale self previous_block bits = false /\ solves_block self = false
      /\ level = 0 /\ reason = None)
  \/ (block_stale self previous_block bits = false /\ solves_block self = false
      /\ share.cls self <> Share /\ level = 1
      /\ reason <> Some "block solution"%string).
Proof.
  unfold should_punish_reason, block_stale, solves_block.
  destruct (_ && _ && _).
  - destruct (block_header.previous_block _), previous_block; try discriminate.
    intros [= <- <-]. by left.
  - destruct (_ <=? _).
    + intros [= <- <-]. right. by left.
    + destruct (share.cls self) eqn:Hcls.
      * intros [= <- <-]. right. right. by left.
      * intros Hs. apply bind_Ok_inv in Hs as ([txs|] & _ & Hs).
        -- destruct (1000000 <? _); [injection Hs as <- <-; by repeat right|].
           apply bind_Ok_inv in Hs as (sizes & _ & Hs).
           destruct (50000 <? _); injection Hs as <- <-;
             [by repeat right | right; right; by left].
        -- injection Hs as <- <-. by repeat right.
      * intros Hs. apply bind_Ok_inv in Hs as ([txs|] & _ & Hs).
        -- destruct (1000000 <? _); [injection Hs as <- <-; by repeat right|].
           apply bind_Ok_inv in Hs as (sizes & _ & Hs).
           destruct (50000 <? _); injection Hs as <- <-;
             [by repeat right | right; right; by left].
        -- injection Hs as <- <-. by repeat right.
Qed.
End Punish.

(** X11. When [should_punish_reason] returns, it answers [-1] exactly for a
    block solution that is not block-stale, whatever the state of its
    transactions; a block-stale share gets [1]; and a V7 share is punished
    for nothing but block-staleness. *)
Theorem should_punish_reason_levels `{Imports} (self : share.t)
    (previous_block : option Z) (bits : FloatingInteger.t) (tracker : Tracker.t)
    (known_txs : gmap Z tx.t) (level : Z) (reason : option string) :
  should_punish_reason self previous_block bits tracker known_txs = Ok (level, reason) ->
  (level = -1 <->
     block_stale self previous_block bits = false /\ solves_block self = true)
  /\ (block_stale self previous_block bits = true -> level = 1)
  /\ (share.cls self = Share -> level = 1 ->
      block_stale self previous_block bits = true)
  /\ (level = -1 \/ level = 0 \/ level = 1).
Proof.
  intros [(Hs & ->)|[(Hs & Hb & -> & _)|[(Hs & Hb & -> & _)|(Hs & Hb & Hc & -> & _)]]]%should_punish_reason_cases;
    rewrite Hs; try rewrite Hb; repeat split; intros; try done; try lia; tauto.
Qed.

Lemma should_punish_reason_levels_witness :
  exists level reason,
    @should_punish_reason bitcoin.imports
      (example.mk_share NewNewShare example.net 1 None (2 ^ 224) 1010 9)
      None zero_bits ∅ ∅ = Ok (level, reason)
    /\ (level = -1 \/ level = 0 \/ level = 1).
Proof.
  assert (Hok : is_Ok (@should_punish_reason bitcoin.imports
                         (example.mk_share NewNewShare example.net 1 None (2 ^ 224) 1010 9)
                         None zero_bits ∅ ∅) = true) by (vm_compute; reflexivity).
  destruct (is_Ok_true _ Hok) as [[level reason] Hcall].
  exists level, reason. split; [exact Hcall|].
  apply (@should_punish_reason_levels bitcoin.imports
           (example.mk_share NewNewShare example.net 1 None (2 ^ 224) 1010 9)
           None zero_bits ∅ ∅ level reason Hcall).
Defined.

(** X12. [think] never jumps over a head that solves a block and is not
    block-stale: its [best] is then the top head itself. It is the parent
    of the top head exactly when [should_punish_reason] gives a positive
    level. *)
Theorem think_keeps_block_solution `{Imports} (tracker : Tracker.t) (net : Net.t)
    (now : Z) (previous_block : option Z) (bits : FloatingInteger.t)
    (known_txs : gmap Z tx.t) (best_tail_score : option (Z * option Z))
    (decorated_heads : list decorated_head) (desired : list desired_entry)
    (best : option Z) (want : list (option Peer * Z)) (heads : list decorated_head)
    (score : Z * Z * Z) (b : Z) :
  think_return tracker net now previous_block bits known_txs best_tail_score
    decorated_heads desired = Ok (best, want, heads) ->
  last decorated_heads = Some (score, b) ->
  exists best_share level reason,
    tracker !! b = Some best_share
    /\ should_punish_reason best_share previous_block bits tracker known_txs
       = Ok (level, reason)
    /\ best = (if 0 <? level then share.previous_hash best_share else Some b)
    /\ (block_stale best_share previous_block bits = false ->
        solves_block best_share = true -> best = Some b).
Proof.
  unfold think_return, think_cutoffs. intros Hr Hlast. rewrite Hlast in Hr. cbn in Hr.
  apply bind_Ok_inv in Hr as ([[best' tc] gc] & Hc & [= <- <- <-]).
  apply bind_Ok_inv in Hc as (best_share & Hs%getitem_Ok & Hc).
  apply bind_Ok_inv in Hc as ([level reason] & Hp & Hc).
  apply bind_Ok_inv in Hc as (target_cutoff & _ & [= <- <- <-]).
  exists best_share, level, reason. split; [exact Hs|]. split; [exact Hp|].
  split; [reflexivity|]. intros Hst Hsol.
  apply should_punish_reason_cases in Hp
    as [(Hs' & _)|[(_ & _ & -> & _)|[(_ & Hb & _)|(_ & Hb & _)]]];
    congruence || reflexivity.
Qed.

Lemma think_keeps_block_solution_witness :
  exists best_share level reason,
    eighty_percent_chain !! 100 = Some best_share
    /\ @should_punish_reason bitcoin.imports best_share None zero_bits
         eighty_percent_chain ∅ = Ok (level, reason)
    /\ Some 100 = (if 0 <? level then share.previous_hash best_share else Some 100).
Proof.
  assert (Hcall : think_example = Ok (Some 100, [(None, 555)], [((100, 0, -2000), 100)]))
    by (vm_compute; reflexivity).
  assert (Hlast : last [((100, 0, -2000), 100) : decorated_head]
                  = Some ((100, 0, -2000), 100)) by reflexivity.
  destruct (@think_keeps_block_solution bitcoin.imports eighty_percent_chain net100 2100
              None zero_bits ∅ (Some (100, Some 1)) [((100, 0, -2000), 100)]
              [(None, 555, 2000, 2 ^ 255)] (Some 100) [(None, 555)]
              [((100, 0, -2000), 100)] (100, 0, -2000) 100 Hcall Hlast)
    as (best_share & level & reason & Hs & Hp & Hb & _).
  exists best_share, level, reason.
  split; [exact Hs|]. split; [exact Hp | exact Hb].
Defined.

(** X13. A share generated against [known_txs] is never punished for
    [new txs over limit] under the same [known_txs]: the 50 kB budget of
    the loop in [generate_transaction] is the bound [should_punish_reason]
    tests, over the same sizes. *)
Theorem generated_share_within_new_txs_limit `{Imports} (cls : ShareClass)
    (tracker : Tracker.t) (sd : share_data.t)
    (block_target desired_timestamp desired_target : Z)
    (ref_merkle_link : merkle_link.t) (desired : list Z) (net : Net.t)
    (known : gmap Z tx.t) (last_txout_nonce : Z)
    (si : share_info.t) (gentx : tx.t) (others : list Z)
    (self : share.t) (previous_block : option Z) (bits : FloatingInteger.t)
    (tracker' : Tracker.t) (level : Z) (reason : option string) :
  generate_transaction cls tracker sd block_target desired_timestamp desired_target
    ref_merkle_link desired net (Some known) last_txout_nonce = Ok (si, gentx, others) ->
  share.share_info self = si ->
  should_punish_reason self previous_block bits tracker' known = Ok (level, reason) ->
  reason <> Some "new txs over limit"%string.
Proof.
  intros Hg Hsi Hp.
  destruct (generate_transaction_new_txs_fit _ _ _ _ _ _ _ _ _ _ _ _ _ _ Hg)
    as ((sizes & Hm & Hle) & _).
  unfold should_punish_reason in Hp.
  destruct (_ && _ && _).
  { destruct (block_header.previous_block _), previous_block; try discriminate.
    by injection Hp as <- <-. }
  destruct (_ <=? _); [by injection Hp as <- <-|].
  rewrite Hsi in Hp.
  assert (Hrest : forall other_txs : option (list tx.t),
             match other_txs with
             | None => Ok (1, Some "not all txs present"%string)
             | Some txs =>
                 let all_txs_size := foldr Z.add 0 (map tx_type_packed_size txs) in
                 if 1000000 <? all_txs_size
                 then Ok (1, Some "txs over block size limit"%string)
                 else
                   sizes ← mapR (fun h => tx_type_packed_size <$> getitem known h)
                             (share_info.new_transaction_hashes si);
                   if 50000 <? foldr Z.add 0 sizes
                   then Ok (1, Some "new txs over limit"%string)
                   else Ok (0, None)
             end = Ok (level, reason) ->
             reason <> Some "new txs over limit"%string).
  { intros [txs|]; [|by intros [= <- <-]]. cbn zeta.
    destruct (1000000 <? _); [by intros [= <- <-]|].
    rewrite Hm. cbn [mbind Result_bind].
    destruct (Z.ltb_spec 50000 (foldr Z.add 0 sizes)); [lia|]. by intros [= <- <-]. }
  destruct (share.cls self); [by injection Hp as <- <-| |];
    apply bind_Ok_inv in Hp as (other_txs & _ & Hp); exact (Hrest other_txs Hp).
Qed.

Lemma generated_share_within_new_txs_limit_witness :
  exists gentx level reason,
    @generate_transaction bitcoin.imports NewNewShare
      (example.chain_tracker NewNewShare example.net (2 ^ 224) (fun _ => 9) 1)
      (example.mk_share_data (Some 1)) (2 ^ 224) 5000 (2 ^ 224) example.no_link
      [77] example.net (Some one_known_tx) 0 = Ok (generated_info, gentx, [77])
    /\ @should_punish_reason bitcoin.imports generated_share None zero_bits
         (example.chain_tracker NewNewShare example.net (2 ^ 224) (fun _ => 9) 1)
         one_known_tx = Ok (level, reason)
    /\ reason <> Some "new txs over limit"%string.
Proof.
  assert (Hgen : exists gentx,
            @generate_transaction bitcoin.imports NewNewShare
              (example.chain_tracker NewNewShare example.net (2 ^ 224) (fun _ => 9) 1)
              (example.mk_share_data (Some 1)) (2 ^ 224) 5000 (2 ^ 224) example.no_link
              [77] example.net (Some one_known_tx) 0 = Ok (generated_info, gentx, [77])).
  { vm_compute. eexists. reflexivity. }
  destruct Hgen as [gentx Hcall].
  assert (Hok : is_Ok
            (@should_punish_reason bitcoin.imports generated_share None zero_bits
               (example.chain_tracker NewNewShare example.net (2 ^ 224) (fun _ => 9) 1)
               one_known_tx) = true) by (vm_compute; reflexivity).
  destruct (is_Ok_true _ Hok) as [[level reason] Hpunish].
  exists gentx, level, reason.
  split; [exact Hcall|]. split; [exact Hpunish|].
  exact (@generated_share_within_new_txs_limit bitcoin.imports NewNewShare
           (example.chain_tracker NewNewShare example.net (2 ^ 224) (fun _ => 9) 1)
           (example.mk_share_data (Some 1)) (2 ^ 224) 5000 (2 ^ 224) example.no_link
           [77] example.net one_known_tx 0 generated_info gentx [77] generated_share
           None zero_bits
           (example.chain_tracker NewNewShare example.net (2 ^ 224) (fun _ => 9) 1)
           level reason Hcall eq_refl Hpunish).
Defined.

(** ** What the constructors guarantee *)

(** X14. A V7 share object carries its other transactions exactly when
    it solves the block: [Share.__init__] refuses both other cases. So
    [as_block] raises on a V7 share that is no block solution. *)
Theorem Share_init_other_txs_iff_block_solution `{Imports} (net : Net.t)
    (peer : option Peer) (c : common.t) (ml : merkle_link.t)
    (other_txs : option (list tx.t)) (now : Z) (s : share.t) :
  Share_init net peer c ml other_txs now = Ok s ->
  share.other_txs s = other_txs
  /\ (is_Some (share.other_txs s) <-> solves_block s = true)
  /\ (solves_block s = false ->
      forall tracker known_txs,
        as_block s tracker known_txs
        = Raise (ValueError "share does not contain all txs")).
Proof.
  unfold Share_init. intros Hi.
  destruct (100 <? _) in Hi; [discriminate|].
  destruct (16 <? _) in Hi; [discriminate|].
  destruct (DEBUG && _) in Hi; [discriminate|].
  inv_Ok Hi. inv_Ok Hi. cbn zeta in Hi.
  destruct (_ <? PARENT_POW_FUNC _ _) in Hi; [discriminate|].
  destruct (bool_decide (other_txs ≠ None) && _) eqn:H1 in Hi; [discriminate|].
  destruct (bool_decide (other_txs = None) && _) eqn:H2 in Hi; [discriminate|].
  injection Hi as <-. unfold solves_block, as_block.
  cbn [share.other_txs share.pow_hash share.header share.cls] in *.
  destruct (_ <=? _), other_txs as [txs|]; cbn in H1, H2; try discriminate.
  - split; [done|]. split; [|done]. split; [done | by eexists].
  - split; [done|]. split; [|done]. split; [by intros [? ?] | done].
Qed.

Lemma Share_init_other_txs_iff_block_solution_witness :
  exists s,
    @Share_init bitcoin.imports example.net None (example_common [x00; x00] (2 ^ 256 - 1))
      example.no_link None 2000 = Ok s
    /\ share.other_txs s = None
    /\ (is_Some (share.other_txs s) <-> solves_block s = true).
Proof.
  assert (Hok : is_Ok (@Share_init bitcoin.imports example.net None
                         (example_common [x00; x00] (2 ^ 256 - 1)) example.no_link None
                         2000) = true) by (vm_compute; reflexivity).
  destruct (is_Ok_true _ Hok) as [s Hs].
  exists s. split; [exact Hs|].
  destruct (@Share_init_other_txs_iff_block_solution bitcoin.imports example.net None
              (example_common [x00; x00] (2 ^ 256 - 1)) example.no_link None 2000 s Hs)
    as (Ho & Hiff & _).
  split; [exact Ho | exact Hiff].
Defined.

Section ConstructorGuarantees.
Context `{Imports}.

Lemma init_with_refs_fields (cls : ShareClass) (net : Net.t) (peer : option Peer)
    (c : contents.t) (now : Z) (s : share.t) :
  init_with_refs cls net peer c now = Ok s ->
  2 <= len (share_data.coinbase (share.share_data s)) <= 100
  /\ len (merkle_link.branch (share.merkle_link s)) <= 16
  /\ hash_link.extra_data (share.hash_link s) = []
  /\ share.target s <= Net.MAX_TARGET net
  /\ share.hash s = hash256 (block_header_type_pack (share.header s))
  /\ block_header.merkle_root (share.header s)
     = check_merkle_link (share.gentx_hash s) (share.merkle_link s)
  /\ share.cls s = cls.
Proof.
  unfold init_with_refs. intros Hi.
  destruct (negb _) eqn:Hcb in Hi; [discriminate|].
  apply negb_false_iff, andb_true_iff in Hcb as [Hc2%Z.leb_le Hc100%Z.leb_le].
  destruct (16 <? _) eqn:Hbr in Hi; [discriminate|]. apply Z.ltb_ge in Hbr.
  inv_Ok Hi. apply bool_decide_eq_true in Hc. inv_Ok Hi. inv_Ok Hi. inv_Ok Hi.
  cbn zeta in Hi.
  destruct (Net.MAX_TARGET net <? _) eqn:Hmax in Hi; [discriminate|].
  apply Z.ltb_ge in Hmax.
  destruct (_ <? PARENT_POW_FUNC _ _) in Hi; [discriminate|].
  injection Hi as <-. cbn. repeat split; done.
Qed.

Lemma Share_init_fields (net : Net.t) (peer : option Peer) (c : common.t)
    (ml : merkle_link.t) (other_txs : option (list tx.t)) (now : Z) (s : share.t) :
  Share_init net peer c ml other_txs now = Ok s ->
  len (share_data.coinbase (share.share_data s)) <= 100
  /\ len (merkle_link.branch (share.merkle_link s)) <= 16
  /\ hash_link.extra_data (share.hash_link s) = []
  /\ share.hash s = hash256 (block_header_type_pack (share.header s))
  /\ block_header.merkle_root (share.header s)
     = check_merkle_link (share.gentx_hash s) (share.merkle_link s)
  /\ share.cls s = Share.
Proof.
  unfold Share_init. intros Hi.
  destruct (100 <? _) eqn:Hcb in Hi; [discriminate|]. apply Z.ltb_ge in Hcb.
  destruct (16 <? _) eqn:Hbr in Hi; [discriminate|]. apply Z.ltb_ge in Hbr.
  destruct (DEBUG && _) in Hi; [discriminate|].
  inv_Ok Hi. apply bool_decide_eq_true in Hc. inv_Ok Hi. cbn zeta in Hi.
  destruct (_ <? PARENT_POW_FUNC _ _) in Hi; [discriminate|].
  destruct (bool_decide (other_txs ≠ None) && _) in Hi; [discriminate|].
  destruct (bool_decide (other_txs = None) && _) in Hi; [discriminate|].
  injection Hi as <-. cbn. repeat split; done.
Qed.
End ConstructorGuarantees.

(** X15. Every share object a constructor returns, of any version, has a
    coinbase of at most 100 bytes, a merkle branch of at most 16 hashes
    and a hash link without [extra_data]; its hash is the double SHA-256
    of its header, whose merkle root is the one the generation
    transaction hash and the merkle link give. A V8 or V9 share has
    moreover a coinbase of at least 2 bytes and a target of at most
    [MAX_TARGET]. *)
Theorem constructed_share_guarantees `{Imports} (cls : ShareClass) (net : Net.t)
    (peer : option Peer) (c7 : common.t) (ml : merkle_link.t)
    (other_txs : option (list tx.t)) (c : contents.t) (now : Z) (s : share.t) :
  Share_init net peer c7 ml other_txs now = Ok s
  \/ init_with_refs cls net peer c now = Ok s ->
  len (share_data.coinbase (share.share_data s)) <= 100
  /\ len (merkle_link.branch (share.merkle_link s)) <= 16
  /\ hash_link.extra_data (share.hash_link s) = []
  /\ share.hash s = hash256 (block_header_type_pack (share.header s))
  /\ block_header.merkle_root (share.header s)
     = check_merkle_link (share.gentx_hash s) (share.merkle_link s)
  /\ (share.cls s <> Share ->
      2 <= len (share_data.coinbase (share.share_data s))
      /\ share.target s <= Net.MAX_TARGET net).
Proof.
  intros [Hi|Hi].
  - apply Share_init_fields in Hi as (? & ? & ? & ? & ? & Hcls).
    repeat split; try done. all: by rewrite Hcls.
  - apply init_with_refs_fields in Hi as (? & ? & ? & ? & ? & ? & Hcls).
    repeat split; try done; lia.
Qed.

Lemma constructed_share_guarantees_witness :
  exists s,
    @init_with_refs bitcoin.imports NewNewShare net100 None
      (example_contents [x00; x00] (2 ^ 256 - 1) [] []) 2000 = Ok s
    /\ len (share_data.coinbase (share.share_data s)) <= 100
    /\ hash_link.extra_data (share.hash_link s) = []
    /\ share.hash s = hash256 (bitcoin.block_header_type_pack (share.header s)).
Proof.
  assert (Hok : is_Ok (@init_with_refs bitcoin.imports NewNewShare net100 None
                         (example_contents [x00; x00] (2 ^ 256 - 1) [] []) 2000) = true)
    by (vm_compute; reflexivity).
  destruct (is_Ok_true _ Hok) as [s Hs].
  exists s. split; [exact Hs|].
  destruct (@constructed_share_guarantees bitcoin.imports NewNewShare net100 None
              (example_common [x00; x00] 0) example.no_link None
              (example_contents [x00; x00] (2 ^ 256 - 1) [] []) 2000 s (or_intror Hs))
    as (Hcb & _ & He & Hh & _).
  split; [exact Hcb|]. split; [exact He | exact Hh].
Defined.

(** ** Expected payouts *)

(** X16. The expected payouts add up to the subsidy, whatever the
    weights: the donation script takes what the integer divisions leave.
    Every script with a weight keeps an entry. *)
Theorem get_expected_payouts_sum `{Imports} (tracker : Tracker.t)
    (best_share_hash : option Z) (block_target subsidy : Z) (net : Net.t)
    (res : gmap bytes Z) :
  get_expected_payouts tracker best_share_hash block_target subsidy net = Ok res ->
  sum_values res = subsidy
  /\ is_Some (res !! DONATION_SCRIPT)
  /\ exists weights total_weight donation_weight,
       WeightsSkipList.get_cumulative_weights tracker best_share_hash
         (Z.min (Tracker.get_height tracker best_share_hash) (Net.REAL_CHAIN_LENGTH net))
         (65535 * Net.SPREAD net * target_to_average_attempts block_target)
       = Ok (weights, total_weight, donation_weight)
       /\ forall script weight,
            weights !! script = Some weight ->
            script <> DONATION_SCRIPT ->
            res !! script = Some (subsidy * weight / total_weight).
Proof.
  unfold get_expected_payouts. intros Hg.
  apply bind_Ok_inv in Hg as ([[weights total_weight] donation_weight] & Hw & Hg).
  destruct (_ && _) in Hg; [discriminate|]. injection Hg as <-.
  split; [|split].
  - rewrite sum_values_insert. lia.
  - rewrite lookup_insert_eq. by eexists.
  - exists weights, total_weight, donation_weight. split; [exact Hw|].
    intros script weight Hs Hne. rewrite lookup_insert_ne by done.
    by rewrite lookup_fmap, Hs.
Qed.

Lemma get_expected_payouts_sum_witness :
  exists res,
    @get_expected_payouts bitcoin.imports ten_unit_shares (Some 10) (2 ^ 255)
      5000000000 example.net = Ok res
    /\ sum_values res = 5000000000.
Proof.
  assert (Hok : is_Ok (@get_expected_payouts bitcoin.imports ten_unit_shares (Some 10)
                         (2 ^ 255) 5000000000 example.net) = true)
    by (vm_compute; reflexivity).
  destruct (is_Ok_true _ Hok) as [res Hres].
  exists res. split; [exact Hres|].
  apply (@get_expected_payouts_sum bitcoin.imports ten_unit_shares (Some 10) (2 ^ 255)
           5000000000 example.net res Hres).
Defined.

(** ** Sealing a generated share: the hash link end to end *)





Section Sealing.
Context `{Imports}.



End Sealing.





(** ** Verification and votes *)

(** X19. [attempt_verify] lets a share into the verified set only after
    [check] has accepted it, and forgets nothing that was verified
    before. A failing [check] is answered with [False] and changes
    nothing; the one exception that escapes is the [AssertionError] of
    the height test. *)
Theorem attempt_verify_accepts_checked_shares `{Imports} (tracker verified : Tracker.t)
    (net : Net.t) (s : share.t) :
  (forall answer verified',
     attempt_verify tracker verified net s = Ok (answer, verified') ->
     (answer = true <-> is_Some (verified' !! share.hash s))
     /\ (forall h, h <> share.hash s -> verified' !! h = verified !! h)
     /\ (forall h x, verified !! h = Some x -> verified' !! h = Some x)
     /\ (verified !! share.hash s = None -> answer = true ->
         is_Ok (check s tracker) = true /\ verified' !! share.hash s = Some s)
     /\ (answer = false -> verified' = verified /\ is_Ok (check s tracker) = false))
  /\ (forall e,
        attempt_verify tracker verified net s = Raise e ->
        e = AssertionError
        /\ verified !! share.hash s = None
        /\ Tracker.get_height tracker (Some (share.hash s)) < Net.CHAIN_LENGTH net + 1).
Proof.
  unfold attempt_verify, Tracker.get_height.
  assert (Hadd : forall gentx answer verified',
             verified !! share.hash s = None ->
             check s tracker = Ok gentx ->
             Ok (true, <[share.hash s := s]> verified) = Ok (answer, verified') ->
             (answer = true <-> is_Some (verified' !! share.hash s))
             /\ (forall h, h <> share.hash s -> verified' !! h = verified !! h)
             /\ (forall h x, verified !! h = Some x -> verified' !! h = Some x)
             /\ (verified !! share.hash s = None -> answer = true ->
                 is_Ok (check s tracker) = true /\ verified' !! share.hash s = Some s)
             /\ (answer = false ->
                 verified' = verified /\ is_Ok (check s tracker) = false)).
  { intros gentx answer verified' Hv Hc [= <- <-]. rewrite Hc, lookup_insert_eq.
    split; [split; [by eexists|done]|]. split; [|split; [|split; [done|done]]].
    - intros h Hne. by rewrite lookup_insert_ne.
    - intros h x Hx. rewrite lookup_insert_ne; [done|]. congruence. }
  assert (Hkeep : forall e' answer verified',
             verified !! share.hash s = None ->
             check s tracker = Raise e' ->
             Ok (false, verified) = Ok (answer, verified') ->
             (answer = true <-> is_Some (verified' !! share.hash s))
             /\ (forall h, h <> share.hash s -> verified' !! h = verified !! h)
             /\ (forall h x, verified !! h = Some x -> verified' !! h = Some x)
             /\ (verified !! share.hash s = None -> answer = true ->
                 is_Ok (check s tracker) = true /\ verified' !! share.hash s = Some s)
             /\ (answer = false ->
                 verified' = verified /\ is_Ok (check s tracker) = false)).
  { intros e' answer verified' Hv Hc [= <- <-]. rewrite Hc, Hv.
    split; [split; [done|by intros [? ?]]|]. done. }
  destruct (verified !! share.hash s) as [old|] eqn:Hv.
  - rewrite bool_decide_eq_true_2 by eauto. split; [|discriminate].
    intros answer verified' [= <- <-]. rewrite Hv.
    split; [split; [by eexists|done]|]. done.
  - rewrite bool_decide_eq_false_2 by (intros [? ?]; discriminate).
    destruct (Tracker.get_height_and_last tracker (Some (share.hash s)))
      as [height last].
    cbn [fst].
    destruct (Z.ltb_spec height (Net.CHAIN_LENGTH net + 1)) as [Hlt|Hge]; cbn [andb].
    + destruct (bool_decide (last ≠ None)).
      * split; [discriminate|]. intros e [= <-]. done.
      * destruct (check s tracker) as [gentx|e'] eqn:Hc.
        -- split; [|discriminate]. intros answer verified'. by apply (Hadd gentx).
        -- split; [|discriminate]. intros answer verified'. by apply (Hkeep e').
    + destruct (check s tracker) as [gentx|e'] eqn:Hc.
      * split; [|discriminate]. intros answer verified'. by apply (Hadd gentx).
      * split; [|discriminate]. intros answer verified'. by apply (Hkeep e').
Qed.

Lemma attempt_verify_accepts_checked_shares_witness :
  exists s verified',
    sealed_example = Ok s
    /\ @attempt_verify bitcoin.imports {[ share.hash s := s ]} ∅ net100 s
       = Ok (true, verified')
    /\ is_Ok (@check bitcoin.imports s {[ share.hash s := s ]}) = true
    /\ verified' !! share.hash s = Some s.
Proof.
  assert (Hok : fst <$> verify_example = Ok true) by (vm_compute; reflexivity).
  apply fmap_Ok_inv in Hok as ([answer verified'] & Hv & Ha). cbn in Ha. subst answer.
  unfold verify_example in Hv. apply bind_Ok_inv in Hv as (s & Hs & Hv).
  exists s, verified'. split; [exact Hs|]. split; [exact Hv|].
  apply (proj1 (@attempt_verify_accepts_checked_shares bitcoin.imports
                  {[ share.hash s := s ]} ∅ net100 s) true verified' Hv);
    [apply lookup_empty | reflexivity].
Defined.

(** X20. [get_desired_version_counts] has an entry for a version exactly
    when a share of the window voted for it; the entry is the work behind
    those votes, and the entries add up to the work of the window. *)
Theorem get_desired_version_counts_votes `{Imports} (tracker : Tracker.t)
    (best_share_hash : option Z) (dist : Z) (counts : gmap Z Z) :
  get_desired_version_counts tracker best_share_hash dist = Ok counts ->
  exists window,
    Tracker.get_chain tracker best_share_hash dist = Ok window
    /\ length window = Z.to_nat dist
    /\ (forall version,
          is_Some (counts !! version)
          <-> exists s, s ∈ window /\ share.desired_version s = version)
    /\ (forall version, default 0 (counts !! version) = votes_for version window)
    /\ sum_values counts = total_votes window.
Proof.
  unfold get_desired_version_counts. intros Hc.
  apply bind_Ok_inv in Hc as (window & Hw & [= <-]).
  exists window. split; [exact Hw|]. split; [by apply get_chain_length in Hw|].
  fold count_vote. split; [|split].
  - intros version. clear Hw.
    assert (Hgen : forall res : gmap Z Z,
               is_Some (fold_left count_vote window res !! version)
               <-> is_Some (res !! version)
                   \/ exists s, s ∈ window /\ share.desired_version s = version).
    { induction window as [|s window IH]; intros res; cbn [fold_left].
      - split; [by left|]. intros [Hr|(s & Hs & _)]; [done|]. by apply elem_of_nil in Hs.
      - rewrite IH. unfold count_vote. split.
        + intros [Hr|(x & Hx & Hxv)].
          * destruct (decide (share.desired_version s = version)) as [Heq|Hne].
            -- right. exists s. split; [left|done].
            -- left. by rewrite lookup_insert_ne in Hr.
          * right. exists x. split; [by right|done].
        + intros [Hr|(x & [->|Hx]%elem_of_cons & Hxv)].
          * left. destruct (decide (share.desired_version s = version)) as [Heq|Hne].
            -- rewrite Heq, lookup_insert_eq. by eexists.
            -- by rewrite lookup_insert_ne.
          * left. rewrite Hxv, lookup_insert_eq. by eexists.
          * right. by exists x. }
    rewrite Hgen, lookup_empty. split; [|by right].
    intros [[? ?]|Hs]; [discriminate | exact Hs].
  - intros version. rewrite counts_lookup, lookup_empty. cbn. lia.
  - rewrite counts_sum, sum_values_empty. lia.
Qed.

Lemma get_desired_version_counts_votes_witness :
  exists counts window,
    @get_desired_version_counts bitcoin.imports eighty_percent_chain (Some 10) 10
    = Ok counts
    /\ length window = 10%nat
    /\ sum_values counts = @total_votes bitcoin.imports window.
Proof.
  assert (Hok : is_Ok (@get_desired_version_counts bitcoin.imports eighty_percent_chain
                         (Some 10) 10) = true) by (vm_compute; reflexivity).
  destruct (is_Ok_true _ Hok) as [counts Hc].
  destruct (@get_desired_version_counts_votes bitcoin.imports eighty_percent_chain
              (Some 10) 10 counts Hc) as (window & _ & Hlen & _ & _ & Hsum).
  exists counts, window. split; [exact Hc|]. split; [exact Hlen | exact Hsum].
Defined.

(** ** The share store *)

Lemma remove_files_spec (to_remove : list N) : forall st : ShareStore.t,
  (forall f, f ∈ to_remove ->
     is_Some (ShareStore.known st !! f) /\ is_Some (ShareStore.files st !! f)) ->
  NoDup to_remove ->
  exists st',
    remove_files st to_remove = inr st'
    /\ (forall f, ShareStore.files st' !! f
                  = if decide (f ∈ to_remove) then None else ShareStore.files st !! f)
    /\ (forall f, ShareStore.known st' !! f
                  = if decide (f ∈ to_remove) then None else ShareStore.known st !! f)
    /\ (forall f, ShareStore.known_desired st' !! f
                  = if decide (f ∈ to_remove) then None
                    else ShareStore.known_desired st !! f).
Proof.
  induction to_remove as [|x rest IH]; intros st Hin Hnd.
  - exists st. split; [done|]. repeat split; intros f; by rewrite decide_False by apply not_elem_of_nil.
  - apply NoDup_cons in Hnd as [Hx Hnd].
    destruct (Hin x) as [[k Hk] [l Hl]]; [left|].
    cbn [remove_files]. unfold remove_file. rewrite Hk, Hl.
    destruct (IH {| ShareStore.files := delete x (ShareStore.files st);
                    ShareStore.known := delete x (ShareStore.known st);
                    ShareStore.known_desired := delete x (ShareStore.known_desired st) |})
      as (st' & Hr & Hf & Hkn & Hkd); [|done|].
    { intros f Hf. cbn. rewrite !lookup_delete_ne by (intros ->; done).
      apply Hin. by right. }
    exists st'. split; [exact Hr|]. cbn in Hf, Hkn, Hkd.
    repeat split; intros f; [rewrite Hf | rewrite Hkn | rewrite Hkd];
      (destruct (decide (f = x)) as [->|Hne];
       [ rewrite (decide_True (P := x ∈ x :: rest)) by left;
         rewrite lookup_delete_eq; by destruct (decide (x ∈ rest))
       | rewrite lookup_delete_ne by done;
         destruct (decide (f ∈ rest)) as [Hr'|Hr'];
         [ by rewrite decide_True by by right
         | rewrite decide_False; [done|];
           by intros [?|?]%elem_of_cons ] ]).
Qed.

Lemma check_remove_spec (st : ShareStore.t) :
  store_consistent st ->
  exists st',
    check_remove st = inr st'
    /\ store_consistent st'
    /\ (forall f share_hashes verified_hashes,
          ShareStore.known_desired st' !! f = Some (share_hashes, verified_hashes)
          <-> ShareStore.known_desired st !! f = Some (share_hashes, verified_hashes)
              /\ ~ (share_hashes = ∅ /\ verified_hashes = ∅))
    /\ (forall f,
          ShareStore.files st' !! f
          = match ShareStore.known_desired st !! f with
            | Some (share_hashes, verified_hashes) =>
                if decide (share_hashes = ∅ /\ verified_hashes = ∅) then None
                else ShareStore.files st !! f
            | None => ShareStore.files st !! f
            end)
    /\ (forall f,
          ShareStore.known st' !! f
          = match ShareStore.known_desired st !! f with
            | Some (share_hashes, verified_hashes) =>
                if decide (share_hashes = ∅ /\ verified_hashes = ∅) then None
                else ShareStore.known st !! f
            | None => ShareStore.known st !! f
            end).
Proof.
  intros [Hd Hk]. unfold check_remove.
  set (gone := filter (fun kv : N * (gset Z * gset Z) => kv.2.1 = ∅ /\ kv.2.2 = ∅)
                 (ShareStore.known_desired st)).
  assert (Hgone : forall f, f ∈ elements (dom gone)
                            <-> exists sh vh, ShareStore.known_desired st !! f = Some (sh, vh)
                                              /\ sh = ∅ /\ vh = ∅).
  { intros f. rewrite elem_of_elements, elem_of_dom. unfold gone. split.
    - intros [[sh vh] [Hl Hp]%map_lookup_filter_Some]. by exists sh, vh.
    - intros (sh & vh & Hl & Hp). exists (sh, vh). by apply map_lookup_filter_Some. }
  destruct (remove_files_spec (elements (dom gone)) st) as (st' & Hr & Hf & Hkn & Hkd).
  { intros f (sh & vh & Hl & _)%Hgone.
    assert (Hfd : f ∈ dom (ShareStore.known_desired st)) by (apply elem_of_dom; eauto).
    split; [apply elem_of_dom, Hd, Hfd | apply elem_of_dom, Hk, Hd, Hfd]. }
  { apply NoDup_elements. }
  exists st'. split; [exact Hr|].
  assert (Hcase : forall (A : Type) (f : N) (x : option A),
             (if decide (f ∈ elements (dom gone)) then None else x)
             = match ShareStore.known_desired st !! f with
               | Some (sh, vh) => if decide (sh = ∅ /\ vh = ∅) then None else x
               | None => x
               end).
  { intros A f x. destruct (decide (f ∈ elements (dom gone))) as [Hin|Hnin].
    - apply Hgone in Hin as (sh & vh & -> & Hp). by rewrite decide_True.
    - destruct (ShareStore.known_desired st !! f) as [[sh vh]|] eqn:Hl; [|done].
      destruct (decide (sh = ∅ /\ vh = ∅)) as [Hp|Hp]; [|done].
      exfalso. apply Hnin, Hgone. by exists sh, vh. }
  split; [|split; [|split]].
  - split.
    + intros f [x Hx]%elem_of_dom. rewrite Hkd in Hx. apply elem_of_dom.
      rewrite Hkn. destruct (decide _); [done|].
      apply elem_of_dom, Hd, elem_of_dom. eauto.
    + intros f [x Hx]%elem_of_dom. rewrite Hkn in Hx. apply elem_of_dom.
      rewrite Hf. destruct (decide _); [done|].
      apply elem_of_dom, Hk, elem_of_dom. eauto.
  - intros f sh vh. rewrite Hkd, Hcase.
    destruct (ShareStore.known_desired st !! f) as [[sh0 vh0]|]; [|by split; [|intros [? _]]].
    destruct (decide (sh0 = ∅ /\ vh0 = ∅)) as [Hp|Hp]; split.
    + discriminate.
    + intros [[= -> ->] Hn]. done.
    + intros [= -> ->]. done.
    + by intros [? _].
  - intros f. by rewrite Hf, Hcase.
  - intros f. by rewrite Hkn, Hcase.
Qed.

(** X21. [forget_share] on a consistent store raises nothing and leaves
    a consistent store in which no file desires the hash any more and no
    file is kept for nothing: a file stays, on disk and in both indexes,
    exactly when some hash of it is still desired. *)
Theorem forget_share_drops_undesired_files (st : ShareStore.t) (share_hash : Z) :
  store_consistent st ->
  exists st',
    forget_share st share_hash = inr st'
    /\ store_consistent st'
    /\ (forall f share_hashes verified_hashes,
          ShareStore.known_desired st' !! f = Some (share_hashes, verified_hashes) ->
          (share_hash ∉ share_hashes)
          /\ ~ (share_hashes = ∅ /\ verified_hashes = ∅))
    /\ (forall f share_hashes verified_hashes,
          ShareStore.known_desired st !! f = Some (share_hashes, verified_hashes) ->
          if decide (share_hashes ∖ {[share_hash]} = ∅ /\ verified_hashes = ∅)
          then ShareStore.files st' !! f = None /\ ShareStore.known st' !! f = None
               /\ ShareStore.known_desired st' !! f = None
          else ShareStore.files st' !! f = ShareStore.files st !! f
               /\ ShareStore.known st' !! f = ShareStore.known st !! f
               /\ ShareStore.known_desired st' !! f
                  = Some (share_hashes ∖ {[share_hash]}, verified_hashes))
    /\ (forall f,
          ShareStore.known_desired st !! f = None ->
          ShareStore.files st' !! f = ShareStore.files st !! f
          /\ ShareStore.known st' !! f = ShareStore.known st !! f).
Proof.
  intros [Hd Hk]. unfold forget_share.
  set (st1 := {| ShareStore.files := ShareStore.files st;
                 ShareStore.known := ShareStore.known st;
                 ShareStore.known_desired := _ |}).
  destruct (check_remove_spec st1) as (st' & Hr & Hc & Hkd & Hf & Hkn).
  { split; [|exact Hk]. unfold st1. cbn. by rewrite dom_fmap_L. }
  exists st'. split; [exact Hr|]. split; [exact Hc|].
  unfold st1 in Hkd, Hf, Hkn. cbn in Hkd, Hf, Hkn. split; [|split].
  - intros f sh vh [Hl Hn]%Hkd. split; [|exact Hn].
    rewrite lookup_fmap in Hl.
    destruct (ShareStore.known_desired st !! f) as [[sh0 vh0]|]; [|discriminate].
    injection Hl as <- <-. intros [_ Hne]%elem_of_difference.
    apply Hne. by apply elem_of_singleton.
  - intros f sh vh Hl. specialize (Hf f). specialize (Hkn f).
    rewrite lookup_fmap, Hl in Hf, Hkn. cbn in Hf, Hkn.
    destruct (decide _) as [Hp|Hp].
    + split; [exact Hf|]. split; [exact Hkn|].
      destruct (ShareStore.known_desired st' !! f) as [[sh' vh']|] eqn:Hl'; [|done].
      apply Hkd in Hl' as [Hl' Hn]. rewrite lookup_fmap, Hl in Hl'.
      injection Hl' as <- <-. done.
    + split; [exact Hf|]. split; [exact Hkn|].
      apply Hkd. rewrite lookup_fmap, Hl. done.
  - intros f Hl. specialize (Hf f). specialize (Hkn f).
    rewrite lookup_fmap, Hl in Hf, Hkn. done.
Qed.

Lemma example_store_consistent : store_consistent example_store.
Proof.
  unfold store_consistent, example_store. cbn. by rewrite !dom_singleton_L.
Qed.

Lemma forget_share_drops_undesired_files_witness :
  store_consistent example_store
  /\ exists st',
       forget_share example_store 1 = inr st'
       /\ store_consistent st'
       /\ ShareStore.files st' !! 0%N = None.
Proof.
  split; [exact example_store_consistent|].
  destruct (forget_share_drops_undesired_files example_store 1 example_store_consistent)
    as (st' & Hr & Hc & _ & Hgone & _).
  exists st'. split; [exact Hr|]. split; [exact Hc|].
  specialize (Hgone 0%N {[ 1 ]} ∅ (lookup_singleton_eq _ _)).
  match type of Hgone with
  | if ?d then _ else _ => destruct d as [_|Hn]
  end; [by destruct Hgone|].
  exfalso. apply Hn. split; [|done].
  apply set_eq. intros x. rewrite elem_of_difference. split; [tauto|].
  intros Hx. by apply elem_of_empty in Hx.
Defined.

Section StoreFacts.
Variable order : ShareStore.index -> list (N * (gset Z * gset Z)).
Variable share_line : share.t -> string.
Hypothesis order_items : forall d f v, (f, v) ∈ order d <-> d !! f = Some v.

Lemma add_share_hash_lookup (f : N) (h : Z) (d : ShareStore.index) :
  exists sh vh, add_share_hash f h d !! f = Some (sh, vh) /\ h ∈ sh.
Proof.
  unfold add_share_hash. destruct (default (∅, ∅) (d !! f)) as [sh vh].
  exists (sh ∪ {[h]}), vh. rewrite lookup_insert_eq. split; [done|].
  apply elem_of_union. right. by apply elem_of_singleton.
Qed.

Lemma add_share_hash_dom (f : N) (h : Z) (d : ShareStore.index) :
  dom (add_share_hash f h d) = {[f]} ∪ dom d.
Proof.
  unfold add_share_hash. destruct (default (∅, ∅) (d !! f)) as [sh vh].
  by rewrite dom_insert_L.
Qed.

Lemma add_share_hash_known (f : N) (h : Z) (d : ShareStore.index)
    (sh vh : gset Z) :
  d !! f = Some (sh, vh) -> h ∈ sh -> add_share_hash f h d = d.
Proof.
  intros Hl Hin. unfold add_share_hash. rewrite Hl. cbn.
  replace (sh ∪ {[h]}) with sh; [by apply insert_id|].
  apply set_eq. intros x. rewrite elem_of_union, elem_of_singleton.
  split; [tauto | intros [?| ->]; done].
Qed.

Lemma add_share_cases (st : ShareStore.t) (s : share.t) :
  (exists f sh vh,
     ShareStore.known st !! f = Some (sh, vh) /\ share.hash s ∈ sh
     /\ add_share order share_line st s
        = {| ShareStore.files := ShareStore.files st;
             ShareStore.known := ShareStore.known st;
             ShareStore.known_desired :=
               add_share_hash f (share.hash s) (ShareStore.known_desired st) |})
  \/ ((forall f sh vh, ShareStore.known st !! f = Some (sh, vh) -> share.hash s ∉ sh)
      /\ add_share order share_line st s
         = {| ShareStore.files := ShareStore.files (_add_line st (share_line s)).2;
              ShareStore.known :=
                add_share_hash (_add_line st (share_line s)).1 (share.hash s)
                  (ShareStore.known st);
              ShareStore.known_desired :=
                add_share_hash (_add_line st (share_line s)).1 (share.hash s)
                  (ShareStore.known_desired st) |}).
Proof.
  unfold add_share.
  destruct (List.find _ (order (ShareStore.known st))) as [[f [sh vh]]|] eqn:Hfind.
  - left. apply find_some in Hfind as [Hin Hp].
    apply list_elem_of_In, order_items in Hin. apply bool_decide_eq_true in Hp.
    by exists f, sh, vh.
  - right. split.
    + intros f sh vh Hl Hin.
      pose proof (find_none _ _ Hfind (f, (sh, vh))) as Hn. cbn in Hn.
      rewrite bool_decide_eq_true_2 in Hn by done.
      discriminate Hn. by apply list_elem_of_In, order_items.
    + unfold _add_line. destruct (get_filenames_and_next st) as [filenames next].
      reflexivity.
Qed.
End StoreFacts.

Lemma last_of_sorted_is_greatest (l : list N) : forall m : N,
  Sorted N.le l -> last l = Some m -> forall x, x ∈ l -> (x <= m)%N.
Proof.
  induction l as [|y rest IH]; intros m Hs Hlast x Hx; [by apply elem_of_nil in Hx|].
  apply Sorted_StronglySorted in Hs; [|intros a b c; apply N.le_trans].
  apply StronglySorted_inv in Hs as [Hs Hall].
  destruct rest as [|z rest'].
  - cbn in Hlast. injection Hlast as <-. apply list_elem_of_singleton in Hx as ->. lia.
  - change (last (y :: z :: rest')) with (last (z :: rest')) in Hlast.
    assert (Hm : m ∈ z :: rest').
    { apply last_Some in Hlast as [front ->]. apply elem_of_app. right. left. }
    apply elem_of_cons in Hx as [->|Hx].
    + rewrite Forall_forall in Hall. by apply Hall.
    + apply (IH m); [by apply StronglySorted_Sorted | done | done].
Qed.

(** X22. [_add_line] appends its line to one file and touches nothing
    else; the file is never below the highest-numbered one. It is that one
    while it holds less than 10,000,000 bytes; otherwise, and when there
    is no file yet, it is a new file, numbered one above the highest, or
    0. *)
Theorem _add_line_rotates (st : ShareStore.t) (line : string) :
  let filename := (_add_line st line).1 in
  let st' := (_add_line st line).2 in
  ShareStore.files st'
  = <[filename := default [] (ShareStore.files st !! filename) ++ [line]]>
      (ShareStore.files st)
  /\ ShareStore.known st' = ShareStore.known st
  /\ ShareStore.known_desired st' = ShareStore.known_desired st
  /\ (forall g, is_Some (ShareStore.files st !! g) -> (g <= filename)%N)
  /\ (forall lines,
        ShareStore.files st !! filename = Some lines -> getsize lines < 10000000)
  /\ (ShareStore.files st !! filename = None ->
      (ShareStore.files st = ∅ /\ filename = 0%N)
      \/ exists highest lines,
           filename = (highest + 1)%N
           /\ ShareStore.files st !! highest = Some lines
           /\ 10000000 <= getsize lines).
Proof.
  unfold _add_line, get_filenames_and_next.
  set (suffixes := merge_sort N.le (elements (dom (ShareStore.files st)))).
  assert (Hperm : forall g, g ∈ suffixes <-> is_Some (ShareStore.files st !! g)).
  { intros g. unfold suffixes. rewrite merge_sort_Permutation, elem_of_elements.
    apply elem_of_dom. }
  assert (Hsorted : Sorted N.le suffixes).
  { apply (Sorted_merge_sort N.le). }
  destruct (last suffixes) as [highest|] eqn:Hlast; cbn [fst snd ShareStore.files
    ShareStore.known ShareStore.known_desired].
  - assert (Hmax : forall g, is_Some (ShareStore.files st !! g) -> (g <= highest)%N).
    { intros g Hg%Hperm. by apply (last_of_sorted_is_greatest suffixes). }
    assert (Hin : is_Some (ShareStore.files st !! highest)).
    { apply Hperm. apply last_Some in Hlast as [front ->].
      apply elem_of_app. right. left. }
    destruct Hin as [lines Hlines]. rewrite Hlines. cbn [default id].
    destruct (Z.ltb_spec (getsize lines) 10000000) as [Hsmall|Hbig].
    + split; [done|]. split; [done|]. split; [done|]. split; [exact Hmax|].
      split; [intros lines' Hl; by simplify_eq | intros Hn; by simplify_eq].
    + split; [done|]. split; [done|]. split; [done|]. split; [|split].
      * intros g Hg. specialize (Hmax g Hg). lia.
      * intros lines' Hl.
        assert (Hle : (highest + 1 <= highest)%N) by (apply Hmax; eauto). lia.
      * intros _. right. by exists highest, lines.
  - assert (Hempty : ShareStore.files st = ∅).
    { apply map_empty. intros g.
      destruct (ShareStore.files st !! g) as [lines|] eqn:Hg; [|done].
      assert (Hin : g ∈ suffixes) by (apply Hperm; eauto).
      apply last_None in Hlast. rewrite Hlast in Hin. by apply elem_of_nil in Hin. }
    split; [done|]. split; [done|]. split; [done|]. split; [|split].
    + intros g [lines Hg]. rewrite Hempty, lookup_empty in Hg. discriminate.
    + intros lines Hl. rewrite Hempty, lookup_empty in Hl. discriminate.
    + intros _. by left.
Qed.

(** X23. [add_share] keeps the store consistent and records the hash:
    afterwards some file on disk has the hash among its known share
    hashes and among its desired ones. This holds in whatever order the
    dictionary [known] is walked. *)
Theorem add_share_records_hash
    (order : ShareStore.index -> list (N * (gset Z * gset Z)))
    (share_line : share.t -> string) (st : ShareStore.t) (s : share.t) :
  (forall d f v, (f, v) ∈ order d <-> d !! f = Some v) ->
  store_consistent st ->
  store_consistent (add_share order share_line st s)
  /\ exists f share_hashes verified_hashes share_hashes' verified_hashes',
       is_Some (ShareStore.files (add_share order share_line st s) !! f)
       /\ ShareStore.known (add_share order share_line st s) !! f
          = Some (share_hashes, verified_hashes)
       /\ share.hash s ∈ share_hashes
       /\ ShareStore.known_desired (add_share order share_line st s) !! f
          = Some (share_hashes', verified_hashes')
       /\ share.hash s ∈ share_hashes'.
Proof.
  intros Horder [Hd Hk].
  destruct (add_share_cases order share_line Horder st s)
    as [(f & sh & vh & Hl & Hin & ->)|[_ ->]].
  - assert (Hf : f ∈ dom (ShareStore.known st)) by (apply elem_of_dom; eauto).
    split.
    + split; cbn; [|exact Hk]. rewrite add_share_hash_dom.
      apply union_least; [by apply singleton_subseteq_l | exact Hd].
    + destruct (add_share_hash_lookup f (share.hash s) (ShareStore.known_desired st))
        as (sh' & vh' & Hl' & Hin').
      exists f, sh, vh, sh', vh'. cbn. split; [by apply elem_of_dom, Hk|]. done.
  - destruct (_add_line_rotates st (share_line s)) as (Hfiles & _).
    set (f := (_add_line st (share_line s)).1) in *.
    split.
    + split; cbn [ShareStore.files ShareStore.known ShareStore.known_desired];
        rewrite ?add_share_hash_dom, ?Hfiles, ?dom_insert_L.
      * apply union_mono_l, Hd.
      * apply union_mono_l, Hk.
    + destruct (add_share_hash_lookup f (share.hash s) (ShareStore.known st))
        as (sh & vh & Hl & Hin).
      destruct (add_share_hash_lookup f (share.hash s) (ShareStore.known_desired st))
        as (sh' & vh' & Hl' & Hin').
      exists f, sh, vh, sh', vh'.
      cbn [ShareStore.files ShareStore.known ShareStore.known_desired].
      rewrite Hfiles, lookup_insert_eq. split; [by eexists|]. done.
Qed.

Lemma items_in_key_order_items (d : ShareStore.index) (f : N) (v : gset Z * gset Z) :
  (f, v) ∈ items_in_key_order d <-> d !! f = Some v.
Proof. apply elem_of_map_to_list. Qed.

Lemma add_share_records_hash_witness :
  store_consistent example_store
  /\ store_consistent
       (add_share items_in_key_order (fun _ => "5 01"%string) example_store
          (example.mk_share NewNewShare example.net 2 (Some 1) (2 ^ 224) 1020 9)).
Proof.
  split; [exact example_store_consistent|].
  apply (add_share_records_hash items_in_key_order (fun _ => "5 01"%string) example_store
           (example.mk_share NewNewShare example.net 2 (Some 1) (2 ^ 224) 1020 9)
           items_in_key_order_items example_store_consistent).
Defined.

(** X24. [add_share] writes a share once: when its hash is among the
    known share hashes of some file, nothing is written and [known] stays
    as it is; when it is in none, exactly the share's line is appended to
    the file [_add_line] chooses. *)
Theorem add_share_writes_once
    (order : ShareStore.index -> list (N * (gset Z * gset Z)))
    (share_line : share.t -> string) (st : ShareStore.t) (s : share.t) :
  (forall d f v, (f, v) ∈ order d <-> d !! f = Some v) ->
  ((exists f share_hashes verified_hashes,
      ShareStore.known st !! f = Some (share_hashes, verified_hashes)
      /\ share.hash s ∈ share_hashes) ->
   ShareStore.files (add_share order share_line st s) = ShareStore.files st
   /\ ShareStore.known (add_share order share_line st s) = ShareStore.known st)
  /\ ((forall f share_hashes verified_hashes,
         ShareStore.known st !! f = Some (share_hashes, verified_hashes) ->
         share.hash s ∉ share_hashes) ->
      ShareStore.files (add_share order share_line st s)
      = ShareStore.files (_add_line st (share_line s)).2
      /\ exists f,
           ShareStore.files (add_share order share_line st s)
           = <[f := default [] (ShareStore.files st !! f) ++ [share_line s]]>
               (ShareStore.files st)).
Proof.
  intros Horder.
  destruct (add_share_cases order share_line Horder st s)
    as [(f & sh & vh & Hl & Hin & ->)|[Hnone ->]];
    cbn [ShareStore.files ShareStore.known ShareStore.known_desired].
  - split; [done|]. intros Hn. exfalso. by apply (Hn f sh vh).
  - split.
    + intros (f & sh & vh & Hl & Hin). exfalso. by apply (Hnone f sh vh).
    + intros _. split; [done|].
      exists (_add_line st (share_line s)).1.
      apply (_add_line_rotates st (share_line s)).
Qed.

Lemma add_share_writes_once_witness :
  ShareStore.files
    (add_share items_in_key_order (fun _ => "5 01"%string) example_store
       (example.mk_share NewNewShare example.net 1 None (2 ^ 224) 1010 9))
  = ShareStore.files example_store.
Proof.
  apply (proj1 (add_share_writes_once items_in_key_order (fun _ => "5 01"%string)
                  example_store
                  (example.mk_share NewNewShare example.net 1 None (2 ^ 224) 1010 9)
                  items_in_key_order_items)).
  exists 0%N, {[ 1 ]}, ∅. split; [apply lookup_singleton_eq|].
  by apply elem_of_singleton.
Defined.

(** ** What the generation transaction pays, and what [check] accepts *)

Lemma sum_over_keys (amounts : gmap bytes Z) :
  foldr Z.add 0 ((amounts !!!.) <$> (fst <$> map_to_list amounts)) = sum_values amounts.
Proof.
  rewrite sum_values_list, <- list_fmap_compose. f_equal.
  apply list_fmap_ext. intros i [k v] Hkv. cbn.
  apply list_elem_of_lookup_2, elem_of_map_to_list in Hkv.
  by rewrite lookup_total_alt, Hkv.
Qed.

Lemma size_insert_le (m : gmap bytes Z) (k : bytes) (v : Z) :
  (size (<[k:=v]> m) <= S (size m))%nat.
Proof.
  destruct (m !! k) as [x|] eqn:Hk.
  - rewrite map_size_insert_Some by eauto. lia.
  - rewrite map_size_insert_None by done. lia.
Qed.

Section PaysSubsidy.
Context `{Imports}.

Lemma split_amounts_size (subsidy : Z) (weights : gmap bytes Z) (total_weight : Z)
    (this_script : bytes) :
  (size (split_amounts subsidy weights total_weight this_script) <= size weights + 2)%nat.
Proof.
  unfold split_amounts, add_residue, add_finder, weighted_amounts.
  match goal with
  | |- (size (<[?k1:=?v1]> (<[?k2:=?v2]> ?m)) <= _)%nat =>
      pose proof (size_insert_le (<[k2:=v2]> m) k1 v1);
      pose proof (size_insert_le m k2 v2);
      assert (size m = size weights) by apply map_size_fmap
  end.
  lia.
Qed.

Lemma compute_dests_all (amounts : gmap bytes Z) :
  (size amounts <= 4000)%nat ->
  compute_dests amounts ≡ₚ fst <$> map_to_list amounts.
Proof.
  intros Hsize. unfold compute_dests, slice_from.
  change (-4000 <? 0) with true. cbv iota.
  assert (Hlen : length (merge_sort (dest_le amounts) (fst <$> map_to_list amounts))
                 = size amounts).
  { rewrite merge_sort_Permutation, length_fmap. apply length_map_to_list. }
  rewrite Hlen. replace (Z.to_nat _) with 0%nat by lia.
  rewrite drop_0. apply merge_sort_Permutation.
Qed.
End PaysSubsidy.

(** X25. With at most 3998 weighted scripts (so that no destination
    falls off the list of 4000), the outputs of the generation transaction
    add up to the subsidy, and none of them is negative. *)
Theorem generate_transaction_pays_subsidy `{Imports} (cls : ShareClass)
    (tracker : Tracker.t) (sd : share_data.t)
    (block_target desired_timestamp desired_target : Z)
    (ref_merkle_link : merkle_link.t) (desired : list Z) (net : Net.t)
    (known_txs : option (gmap Z tx.t)) (last_txout_nonce : Z)
    (si : share_info.t) (gentx : tx.t) (others : list Z) :
  generate_transaction cls tracker sd block_target desired_timestamp desired_target
    ref_merkle_link desired net known_txs last_txout_nonce = Ok (si, gentx, others) ->
  (forall weights total_weight donation_weight,
     WeightsSkipList.get_cumulative_weights tracker (share_data.previous_share_hash sd)
       (Z.min (Tracker.get_height tracker (share_data.previous_share_hash sd))
              (Net.REAL_CHAIN_LENGTH net))
       (65535 * Net.SPREAD net * target_to_average_attempts block_target)
     = Ok (weights, total_weight, donation_weight) ->
     (size weights + 2 <= 4000)%nat) ->
  sum_outputs (tx.tx_outs gentx) = share_data.subsidy sd
  /\ forall o, o ∈ tx.tx_outs gentx -> 0 <= tx_out.value o.
Proof.
  intros Hg Hsize.
  apply generate_transaction_inv in Hg
    as (_ & weights & total_weight & dw & amounts & Hw & Ha & _ & _ & Houts).
  specialize (Hsize _ _ _ Hw).
  apply compute_amounts_Ok in Ha as [-> Hneg].
  set (amounts := split_amounts _ _ _ _) in *.
  change (tx.tx_outs gentx
          = payouts amounts (compute_dests amounts)
            ++ [ {| tx_out.value := 0;
                    tx_out.script :=
                      ref_script cls (get_ref_hash cls net si ref_merkle_link)
                        last_txout_nonce |} ]) in Houts.
  rewrite Houts. split.
  - rewrite sum_outputs_app, payouts_sum.
    assert (Hall : compute_dests amounts ≡ₚ fst <$> map_to_list amounts).
    { apply compute_dests_all.
      pose proof (split_amounts_size (share_data.subsidy sd) weights total_weight
                    (pubkey_hash_to_script2 (share_data.pubkey_hash sd))) as Hsz.
      fold amounts in Hsz. lia. }
    rewrite (foldr_permutation_proper (=) Z.add 0 (ltac:(intros; lia)) _ _
               (fmap_Permutation (amounts !!!.) _ _ Hall)).
    rewrite sum_over_keys. unfold amounts. rewrite split_amounts_sum.
    unfold sum_outputs. cbn. lia.
  - intros o [Ho|Ho%list_elem_of_singleton]%elem_of_app.
    + apply elem_of_payouts in Ho as (_ & -> & _).
      rewrite lookup_total_alt.
      destruct (amounts !! tx_out.script o) as [a|] eqn:Hl; cbn; [|lia].
      by apply (proj1 (any_negative_false amounts) Hneg (tx_out.script o)).
    + subst o. cbn. lia.
Qed.

Lemma generate_transaction_pays_subsidy_witness :
  exists si gentx others,
    @generate_transaction bitcoin.imports NewNewShare ∅ example.genesis_data (2 ^ 224)
      1000 (2 ^ 256 - 1) example.no_link [] example.net None 0 = Ok (si, gentx, others)
    /\ sum_outputs (tx.tx_outs gentx) = 5000000000.
Proof.
  assert (Hok : is_Ok (@generate_transaction bitcoin.imports NewNewShare ∅
                         example.genesis_data (2 ^ 224) 1000 (2 ^ 256 - 1)
                         example.no_link [] example.net None 0) = true)
    by (vm_compute; reflexivity).
  destruct (is_Ok_true _ Hok) as [[[si gentx] others] Hcall].
  exists si, gentx, others. split; [exact Hcall|].
  assert (Hweights :
            @WeightsSkipList.get_cumulative_weights bitcoin.imports ∅ None
              (Z.min (Tracker.get_height ∅ None) (Net.REAL_CHAIN_LENGTH example.net))
              (65535 * Net.SPREAD example.net
               * bitcoin.target_to_average_attempts (2 ^ 224))
            = Ok (∅, 0, 0)) by reflexivity.
  apply (@generate_transaction_pays_subsidy bitcoin.imports NewNewShare ∅
           example.genesis_data (2 ^ 224) 1000 (2 ^ 256 - 1) example.no_link []
           example.net None 0 si gentx others Hcall).
  intros weights total_weight donation_weight Hw.
  cbn [example.genesis_data example.mk_share_data share_data.previous_share_hash
       target_to_average_attempts bitcoin.imports] in Hw.
  rewrite Hweights in Hw. injection Hw as <- _ _. rewrite map_size_empty. lia.
Defined.

(** X26. What a passing [check] has established: the share may follow
    its parent, regenerating the transaction from the tracker gives back
    the share's own [share_info], and the transaction [check] returns is
    the one the share commits to: its double SHA-256 is the share's
    [gentx_hash]. For V8 and V9 the merkle link is moreover the one of the
    referenced transaction hashes. *)
Theorem check_establishes `{Imports} (self : share.t) (tracker : Tracker.t)
    (gentx : tx.t) :
  check self tracker = Ok gentx ->
  check_succession self tracker = Ok tt
  /\ hash256 (tx_type_pack gentx) = share.gentx_hash self
  /\ exists others,
       (share.cls self <> Share -> resolve_refs self tracker = Ok others)
       /\ generate_transaction (share.cls self) tracker
            (share_info.share_data (share.share_info self))
            (FloatingInteger.target (block_header.bits (share.header self)))
            (share_info.timestamp (share.share_info self))
            (FloatingInteger.target (share_info.bits (share.share_info self)))
            (share.ref_merkle_link self)
            (match share.cls self with Share => [] | _ => others end)
            (share.net self) None
            (match share.cls self with Share => 0 | _ => share.last_txout_nonce self end)
          = Ok (share.share_info self, gentx,
                match share.cls self with Share => [] | _ => others end)
       /\ (share.cls self <> Share ->
           share.merkle_link self = calculate_merkle_link (None :: map Some others) 0).
Proof.
  unfold check. intros Hc.
  apply bind_Ok_inv in Hc as ([] & Hsucc & Hc). split; [exact Hsucc|].
  destruct (share.cls self) eqn:Hcls.
  - apply bind_Ok_inv in Hc as ([[si' gentx'] others'] & Hg & Hc).
    destruct (bool_decide (si' ≠ share.share_info self)) eqn:Hsi; [discriminate|].
    destruct (bool_decide (hash256 (tx_type_pack gentx') ≠ share.gentx_hash self))
      eqn:Hh; [discriminate|].
    injection Hc as <-.
    apply bool_decide_eq_false, dec_stable in Hsi, Hh. subst si'.
    split; [exact Hh|]. exists []. split; [done|].
    pose proof (generate_transaction_returns_all_aux _ _ _ _ _ _ _ _ _ _ _ _ _ Hg) as ->.
    split; [exact Hg | done].
  - apply bind_Ok_inv in Hc as (others & Hres & Hc).
    apply bind_Ok_inv in Hc as ([[si' gentx'] others'] & Hg & Hc).
    apply bind_Ok_inv in Hc as (u & Ho%assert_Ok_inv%bool_decide_eq_true & Hc).
    destruct (bool_decide (si' ≠ share.share_info self)) eqn:Hsi; [discriminate|].
    destruct (bool_decide (hash256 (tx_type_pack gentx') ≠ share.gentx_hash self))
      eqn:Hh; [discriminate|].
    destruct (bool_decide (calculate_merkle_link _ _ ≠ share.merkle_link self))
      eqn:Hm; [discriminate|].
    injection Hc as <-.
    apply bool_decide_eq_false, dec_stable in Hsi, Hh, Hm. subst si' others'.
    split; [exact Hh|]. exists others. split; [done|]. split; [exact Hg | done].
  - apply bind_Ok_inv in Hc as (others & Hres & Hc).
    apply bind_Ok_inv in Hc as ([[si' gentx'] others'] & Hg & Hc).
    apply bind_Ok_inv in Hc as (u & Ho%assert_Ok_inv%bool_decide_eq_true & Hc).
    destruct (bool_decide (si' ≠ share.share_info self)) eqn:Hsi; [discriminate|].
    destruct (bool_decide (hash256 (tx_type_pack gentx') ≠ share.gentx_hash self))
      eqn:Hh; [discriminate|].
    destruct (bool_decide (calculate_merkle_link _ _ ≠ share.merkle_link self))
      eqn:Hm; [discriminate|].
    injection Hc as <-.
    apply bool_decide_eq_false, dec_stable in Hsi, Hh, Hm. subst si' others'.
    split; [exact Hh|]. exists others. split; [done|]. split; [exact Hg | done].
Qed.

Lemma check_establishes_witness :
  exists s gentx,
    sealed_example = Ok s
    /\ @check bitcoin.imports s {[ share.hash s := s ]} = Ok gentx
    /\ hash256 (bitcoin.tx_type_pack gentx) = share.gentx_hash s.
Proof.
  assert (Hok : fst <$> verify_example = Ok true) by (vm_compute; reflexivity).
  apply fmap_Ok_inv in Hok as ([answer verified'] & Hv & Ha). cbn in Ha. subst answer.
  unfold verify_example in Hv. apply bind_Ok_inv in Hv as (s & Hs & Hv).
  destruct (@check bitcoin.imports s {[ share.hash s := s ]}) as [gentx|e] eqn:Hc.
  - exists s, gentx. split; [exact Hs|]. split; [exact Hc|].
    apply (@check_establishes bitcoin.imports s {[ share.hash s := s ]} gentx Hc).
  - exfalso. unfold attempt_verify in Hv. rewrite Hc in Hv.
    rewrite lookup_empty in Hv.
    rewrite bool_decide_eq_false_2 in Hv by (intros [? ?]; discriminate).
    destruct (Tracker.get_height_and_last _ _) as [height last] in Hv.
    destruct (_ && _) in Hv; discriminate.
Defined.

(** X27. A block-stale share cannot be reported while a previous block hash
    is missing: when the share counts as block-stale and the previous block
    of its header, or the [previous_block] passed in, is [None], formatting
    the reason raises [TypeError], and so does [think] when that share is
    the best head. *)
Theorem think_raises_on_stale_head_without_block `{Imports} (tracker : Tracker.t)
    (net : Net.t) (now : Z) (previous_block : option Z) (bits : FloatingInteger.t)
    (known_txs : gmap Z tx.t) (best_tail_score : option (Z * option Z))
    (decorated_heads : list decorated_head) (desired : list desired_entry)
    (score : Z * Z * Z) (b : Z) (best_share : share.t) :
  last decorated_heads = Some (score, b) ->
  tracker !! b = Some best_share ->
  block_stale best_share previous_block bits = true ->
  previous_block = None
  \/ block_header.previous_block (share.header best_share) = None ->
  should_punish_reason best_share previous_block bits tracker known_txs
  = Raise TypeError
  /\ think_return tracker net now previous_block bits known_txs best_tail_score
       decorated_heads desired = Raise TypeError.
Proof.
  intros Hlast Hitem Hstale Hnone.
  assert (Hp : should_punish_reason best_share previous_block bits tracker known_txs
               = Raise TypeError).
  { unfold should_punish_reason. unfold block_stale in Hstale. rewrite Hstale.
    destruct Hnone as [-> | ->]; [|reflexivity].
    by destruct (block_header.previous_block _). }
  split; [exact Hp|].
  unfold think_return, think_cutoffs. rewrite Hlast. cbn [fmap option_fmap option_map snd].
  unfold getitem. rewrite Hitem. cbn [mbind Result_bind]. by rewrite Hp.
Qed.

Lemma think_raises_on_stale_head_without_block_witness :
  block_stale received_example None other_bits = true
  /\ @think_return bitcoin.imports {[ 1 := received_example ]} net100 2100 None
       other_bits ∅ (Some (100, Some 1)) [((100, 0, -2000), 1)] []
     = Raise TypeError.
Proof.
  split; [vm_compute; reflexivity|].
  apply (@think_raises_on_stale_head_without_block bitcoin.imports
           {[ 1 := received_example ]} net100 2100 None other_bits ∅
           (Some (100, Some 1)) [((100, 0, -2000), 1)] [] (100, 0, -2000) 1
           received_example).
  - reflexivity.
  - apply lookup_singleton_eq.
  - vm_compute. reflexivity.
  - left. reflexivity.
Defined.

(** X28. A V8 or V9 share cannot refer to a transaction of a V7 share: when
    the share passes the succession gate and its first transaction ref
    points at a V7 share of the tracker, whose share info has no
    [new_transaction_hashes], [check] raises [KeyError]. *)
Theorem check_raises_on_ref_to_V7_share `{Imports} (self ancestor : share.t)
    (tracker : Tracker.t) (x : tx_ref.t) (rest : list tx_ref.t) (h : Z) :
  share.cls self <> Share ->
  check_succession self tracker = Ok tt ->
  share_info.transaction_hash_refs (share.share_info self) = x :: rest ->
  Tracker.get_nth_parent_hash tracker (Some (share.hash self)) (tx_ref.share_count x)
  = Ok (Some h) ->
  tracker !! h = Some ancestor ->
  share.cls ancestor = Share ->
  check self tracker = Raise KeyError.
Proof.
  intros Hcls Hgate Hrefs Hnth Hitem Hv7.
  assert (Hresolve : resolve_refs self tracker = Raise KeyError).
  { unfold resolve_refs. rewrite Hrefs. cbn [mapR]. rewrite Hnth.
    cbn [mbind Result_bind]. unfold getitem. rewrite Hitem.
    cbn [mbind Result_bind]. by rewrite Hv7. }
  unfold check. rewrite Hgate. cbn [mbind Result_bind].
  destruct (share.cls self) eqn:Hc; [done| |]; cbn beta iota; by rewrite Hresolve.
Qed.

Lemma check_raises_on_ref_to_V7_share_witness :
  @check_succession bitcoin.imports v9_child_with_ref chain_with_v9_child = Ok tt
  /\ chain_with_v9_child !! 100 = Some share_100
  /\ @check bitcoin.imports v9_child_with_ref chain_with_v9_child = Raise KeyError.
Proof.
  assert (Hgate : @check_succession bitcoin.imports v9_child_with_ref chain_with_v9_child
                  = Ok tt) by (vm_compute; reflexivity).
  assert (Hitem : chain_with_v9_child !! 100 = Some share_100)
    by (vm_compute; reflexivity).
  split; [exact Hgate|]. split; [exact Hitem|].
  apply (@check_raises_on_ref_to_V7_share bitcoin.imports v9_child_with_ref share_100
           chain_with_v9_child (tx_ref.mk 1 0) [] 100).
  - discriminate.
  - exact Hgate.
  - reflexivity.
  - vm_compute. reflexivity.
  - exact Hitem.
  - reflexivity.
Defined.
